(** * InfraGenius: the request-optimization core of [performance_optimizer.py]

    A shallow embedding of [LRUCache], [PromptOptimizer],
    [ContextCompressor], [PerformanceMonitor] and
    [CursorAIOptimizer.optimize_request], followed by the properties of the
    specification that concern them.

    Conventions.
    - A Python [dict] keyed by strings is a [gmap string _]; the
      [deque] of keys is a [list string] whose head is the left end.
    - [time.time()] readings and the durations computed from them are
      rationals (every double is one), in seconds; arithmetic on them is
      exact.
    - The quotient of two integers and the percentile index are IEEE
      doubles, computed as Python computes them.
    - Python text is a [string] of 8-bit characters; [str.lower] acts on the
      letters A-Z only, which is what Python does on ASCII text.
    - [hashlib.md5], the iteration order of a [set] and [str] of a double
      are parameters of the definitions that use them.
    - Writing to the log is not modelled.
    - A call that may raise runs in the monad [M]: it returns the final
      state together with either a value or the exception raised. *)

From Stdlib Require Import ZArith QArith Lia List Ascii String Floats.
From Stdlib Require Import Sorting.Sorted Sorting.Permutation.
From stdpp Require Import gmap strings list fin_maps.

Local Open Scope Z_scope.

(** ** Exceptions and the state-and-exception monad *)

Inductive exn : Type :=
| KeyError (key : string)
| ValueError (msg : string)
| IndexError (msg : string)
| ZeroDivisionError (msg : string)
| Exception (msg : string).

(** [str(e)] *)
Definition str_exn (e : exn) : string :=
  match e with
  | KeyError key => "'" +:+ key +:+ "'"
  | ValueError msg | IndexError msg | ZeroDivisionError msg | Exception msg => msg
  end.

Inductive outcome (A : Type) : Type :=
| Returns (a : A)
| Raises (e : exn).
Arguments Returns {A} a.
Arguments Raises {A} e.

Definition M (S A : Type) : Type := S -> outcome A * S.

Definition ret {S A} (a : A) : M S A := fun s => (Returns a, s).
Definition raise {S A} (e : exn) : M S A := fun s => (Raises e, s).
Definition bind {S A B} (m : M S A) (k : A -> M S B) : M S B :=
  fun s => match m s with
           | (Returns a, s') => k a s'
           | (Raises e, s') => (Raises e, s')
           end.
Definition read {S} : M S S := fun s => (Returns s, s).
Definition modify {S} (f : S -> S) : M S unit := fun s => (Returns tt, f s).

(** [try: body except Exception as e: handler e] *)
Definition try_except {S A} (body : M S A) (handler : exn -> M S A) : M S A :=
  fun s => match body s with
           | (Returns a, s') => (Returns a, s')
           | (Raises e, s') => handler e s'
           end.

(** Running a method of a component stored in a field of a larger object. *)
Record Field (S T : Type) : Type := { view : S -> T; update : T -> S -> S }.
Arguments view {S T} _ _.
Arguments update {S T} _ _ _.

Definition within {S T A} (f : Field S T) (m : M T A) : M S A :=
  fun s => match m (view f s) with (r, t) => (r, update f t s) end.

Declare Scope py_scope.
Delimit Scope py_scope with py.
Notation "x <- m ;; k" := (bind m (fun x => k))
  (at level 100, m at next level, right associativity) : py_scope.
Notation "m ;;; k" := (bind m (fun _ => k))
  (at level 100, right associativity) : py_scope.

(** ** Python numbers

    The quotient of two integers and the percentile index are doubles, as
    in Python. *)

Module PyFloat.

(** [float(z)], exact for [|z| < 2^53], which lengths and counters are. *)
Definition float_of_int (z : Z) : float :=
  if z <? 0 then PrimFloat.opp (PrimFloat.of_uint63 (Uint63.of_Z (- z)))
  else PrimFloat.of_uint63 (Uint63.of_Z z).

(** [int(f)]: truncation towards zero. *)
Definition int_of_float (f : float) : outcome Z :=
  match Prim2SF f with
  | S754_zero _ => Returns 0
  | S754_finite s m e =>
      let v := if 0 <=? e then Z.pos m * 2 ^ e else Z.pos m / 2 ^ (- e) in
      Returns (if s then - v else v)
  | S754_infinity _ =>
      Raises (Exception "cannot convert float infinity to integer")
  | S754_nan => Raises (ValueError "cannot convert float NaN to integer")
  end.

(** [a / b] on integers, for a [b] that is not 0 *)
Definition quotient (a b : Z) : float :=
  PrimFloat.div (float_of_int a) (float_of_int b).

(** [a / b] on integers *)
Definition true_div {St} (a b : Z) : M St float :=
  if b =? 0 then raise (ZeroDivisionError "division by zero")
  else ret (quotient a b).

End PyFloat.

(** [x < y] on rationals, as a boolean. *)
Definition Qltb (x y : Q) : bool := negb (Qle_bool y x).

(** ** [LRUCache] *)

Module LRUCache.

(** [self.stats] *)
Record Stats : Type := {
  hits : Z;
  misses : Z;
  evictions : Z;
  expired : Z
}.

Section Cache.
Context {V : Type}.

Record t : Type := {
  maxsize : Z;
  ttl : Z;
  cache : gmap string V;
  access_order : list string;
  timestamps : gmap string Q;
  stats : Stats
}.

(** [__init__] *)
Definition init (maxsize ttl : Z) : t :=
  {| maxsize := maxsize; ttl := ttl; cache := ∅; access_order := [];
     timestamps := ∅;
     stats := {| hits := 0; misses := 0; evictions := 0; expired := 0 |} |}.

Definition set_cache (f : gmap string V -> gmap string V) (c : t) : t :=
  {| maxsize := maxsize c; ttl := ttl c; cache := f (cache c);
     access_order := access_order c; timestamps := timestamps c;
     stats := stats c |}.
Definition set_access_order (f : list string -> list string) (c : t) : t :=
  {| maxsize := maxsize c; ttl := ttl c; cache := cache c;
     access_order := f (access_order c); timestamps := timestamps c;
     stats := stats c |}.
Definition set_timestamps (f : gmap string Q -> gmap string Q) (c : t) : t :=
  {| maxsize := maxsize c; ttl := ttl c; cache := cache c;
     access_order := access_order c; timestamps := f (timestamps c);
     stats := stats c |}.
Definition set_stats (f : Stats -> Stats) (c : t) : t :=
  {| maxsize := maxsize c; ttl := ttl c; cache := cache c;
     access_order := access_order c; timestamps := timestamps c;
     stats := f (stats c) |}.

Definition incr_hits (s : Stats) : Stats :=
  {| hits := hits s + 1; misses := misses s; evictions := evictions s;
     expired := expired s |}.
Definition incr_misses (s : Stats) : Stats :=
  {| hits := hits s; misses := misses s + 1; evictions := evictions s;
     expired := expired s |}.
Definition incr_evictions (s : Stats) : Stats :=
  {| hits := hits s; misses := misses s; evictions := evictions s + 1;
     expired := expired s |}.
Definition incr_expired (s : Stats) : Stats :=
  {| hits := hits s; misses := misses s; evictions := evictions s;
     expired := expired s + 1 |}.

(** [deque.remove(key)]: drops the first occurrence, [None] when there is
    none (Python raises [ValueError]). *)
Fixpoint remove_first (key : string) (l : list string) : option (list string) :=
  match l with
  | [] => None
  | x :: l' =>
      if decide (x = key) then Some l'
      else match remove_first key l' with
           | Some r => Some (x :: r)
           | None => None
           end
  end.

Definition deque_remove (key : string) : M t unit :=
  fun c => match remove_first key (access_order c) with
           | Some l => (Returns tt, set_access_order (fun _ => l) c)
           | None => (Raises (ValueError "deque.remove(x): x not in deque"), c)
           end.

(** [deque.popleft()] *)
Definition deque_popleft : M t string :=
  fun c => match access_order c with
           | k :: l => (Returns k, set_access_order (fun _ => l) c)
           | [] => (Raises (IndexError "pop from an empty deque"), c)
           end.

(** [self.timestamps[key]] *)
Definition timestamp_of (key : string) : M t Q :=
  fun c => match timestamps c !! key with
           | Some ts => (Returns ts, c)
           | None => (Raises (KeyError key), c)
           end.

(** [del self.timestamps[key]] *)
Definition del_timestamp (key : string) : M t unit :=
  fun c => match timestamps c !! key with
           | Some _ => (Returns tt, set_timestamps (delete key) c)
           | None => (Raises (KeyError key), c)
           end.

(** [_remove_key] *)
Definition _remove_key (key : string) : M t unit :=
  (c <- read ;;
   match cache c !! key with
   | Some _ =>
       modify (set_cache (delete key)) ;;;
       del_timestamp key
   | None => ret tt
   end)%py.

(** [get], with [now] the reading of [time.time()] *)
Definition get (now : Q) (key : string) : M t (option V) :=
  (c <- read ;;
   match cache c !! key with
   | Some _ =>
       ts <- timestamp_of key ;;
       if Qltb (now - ts)%Q (inject_Z (ttl c)) then
         deque_remove key ;;;
         modify (set_access_order (fun l => l ++ [key])) ;;;
         modify (set_stats incr_hits) ;;;
         c' <- read ;;
         match cache c' !! key with
         | Some v => ret (Some v)
         | None => raise (KeyError key)
         end
       else
         _remove_key key ;;;
         modify (set_stats incr_expired) ;;;
         modify (set_stats incr_misses) ;;;
         ret None
   | None =>
       modify (set_stats incr_misses) ;;;
       ret None
   end)%py.

(** [put], with [now] the reading of [time.time()] *)
Definition put (now : Q) (key : string) (value : V) : M t unit :=
  (c <- read ;;
   match cache c !! key with
   | Some _ => deque_remove key
   | None =>
       if Z.of_nat (size (cache c)) >=? maxsize c then
         oldest_key <- deque_popleft ;;
         _remove_key oldest_key ;;;
         modify (set_stats incr_evictions)
       else ret tt
   end ;;;
   modify (set_cache (insert key value)) ;;;
   modify (set_timestamps (insert key now)) ;;;
   modify (set_access_order (fun l => l ++ [key])))%py.

(** [clear] *)
Definition clear (c : t) : t :=
  set_access_order (fun _ => [])
    (set_timestamps (fun _ => ∅) (set_cache (fun _ => ∅) c)).

(** The dictionary returned by [get_stats]; the [0] that stands for the
    hit rate when nothing was requested is written as the double zero. *)
Record StatsReport : Type := {
  r_hits : Z;
  r_misses : Z;
  r_evictions : Z;
  r_expired : Z;
  r_total_requests : Z;
  r_hit_rate : float;
  r_cache_size : nat
}.

Definition get_stats (c : t) : StatsReport :=
  let total_requests := hits (stats c) + misses (stats c) in
  let hit_rate :=
    if total_requests >? 0
    then PyFloat.quotient (hits (stats c)) total_requests
    else 0%float in
  {| r_hits := hits (stats c); r_misses := misses (stats c);
     r_evictions := evictions (stats c); r_expired := expired (stats c);
     r_total_requests := total_requests; r_hit_rate := hit_rate;
     r_cache_size := size (cache c) |}.

(** A trace of calls on one cache. *)
Inductive op : Type :=
| Get (now : Q) (key : string)
| Put (now : Q) (key : string) (value : V)
| Clear.

(** The state a call leaves behind, whether it returned or raised. *)
Definition step (c : t) (o : op) : t :=
  match o with
  | Get now key => snd (get now key c)
  | Put now key value => snd (put now key value c)
  | Clear => clear c
  end.

Definition returned (c : t) (o : op) : bool :=
  match o with
  | Get now key => match fst (get now key c) with Returns _ => true | _ => false end
  | Put now key value => match fst (put now key value c) with Returns _ => true | _ => false end
  | Clear => true
  end.

Definition exec (ops : list op) (c : t) : t := fold_left step ops c.

(** No call of the trace raised. *)
Fixpoint all_returned (ops : list op) (c : t) : bool :=
  match ops with
  | [] => true
  | o :: ops' => returned c o && all_returned ops' (step c o)
  end.

(** The invariant the specification gives for the cache state: as many
    keys in the mapping as nodes in the access order, and every key of the
    mapping exactly once in the access order. *)
Definition count_key (key : string) (l : list string) : nat :=
  length (List.filter (fun x => bool_decide (x = key)) l).

Definition consistent (c : t) : Prop :=
  size (cache c) = length (access_order c) ∧
  ∀ key, is_Some (cache c !! key) → count_key key (access_order c) = 1%nat.

(** The same for the three containers together, in the form the proofs
    use. *)
Record well_formed (c : t) : Prop := {
  wf_nodup : NoDup (access_order c);
  wf_keys : ∀ key, key ∈ access_order c ↔ is_Some (cache c !! key);
  wf_stamps : ∀ key, is_Some (cache c !! key) ↔ is_Some (timestamps c !! key)
}.

Definition is_put (o : op) : bool :=
  match o with Put _ _ _ => true | _ => false end.

End Cache.
Arguments t V : clear implicits.
Arguments op V : clear implicits.
End LRUCache.

(** ** Python text operations *)

Module PyStr.

Definition lower_char (a : ascii) : ascii :=
  let n := nat_of_ascii a in
  if ((65 <=? n) && (n <=? 90))%nat then ascii_of_nat (n + 32) else a.

(** [s.lower()] *)
Fixpoint lower (s : string) : string :=
  match s with
  | EmptyString => EmptyString
  | String a s' => String (lower_char a) (lower s')
  end.

(** [s.startswith(p)] *)
Fixpoint startswith (p s : string) : bool :=
  match p, s with
  | EmptyString, _ => true
  | String a p', String b s' => if decide (a = b) then startswith p' s' else false
  | String _ _, EmptyString => false
  end.

(** [needle in hay] *)
Fixpoint contains (needle hay : string) : bool :=
  startswith needle hay ||
  match hay with
  | EmptyString => false
  | String _ hay' => contains needle hay'
  end.

(** [s.replace(old, new)] for a non-empty [old]: the occurrences are taken
    from the left and do not overlap; [skip] counts the characters of a
    matched occurrence that remain to be dropped. *)
Fixpoint replace_from (old new : string) (skip : nat) (s : string) : string :=
  match s with
  | EmptyString => EmptyString
  | String a s' =>
      match skip with
      | S k => replace_from old new k s'
      | O =>
          if startswith old s
          then new +:+ replace_from old new (String.length old - 1) s'
          else String a (replace_from old new 0 s')
      end
  end.

(** With an empty [old], Python puts [new] before every character and at
    the end. *)
Fixpoint intersperse (new s : string) : string :=
  match s with
  | EmptyString => new
  | String a s' => new +:+ String a (intersperse new s')
  end.

Definition replace (old new s : string) : string :=
  match old with
  | EmptyString => intersperse new s
  | String _ _ => replace_from old new 0 s
  end.

(** [c.isspace()] on ASCII: tab to carriage return, the four separators
    and the space. *)
Definition isspace (a : ascii) : bool :=
  let n := nat_of_ascii a in
  (((9 <=? n) && (n <=? 13)) || ((28 <=? n) && (n <=? 32)))%nat.

(** [s.split()]: the maximal runs of non-space characters; [word] is the
    run being read. *)
Fixpoint split_from (word : string) (s : string) : list string :=
  match s with
  | EmptyString =>
      match word with EmptyString => [] | _ => [word] end
  | String a s' =>
      if isspace a then
        match word with
        | EmptyString => split_from EmptyString s'
        | _ => word :: split_from EmptyString s'
        end
      else split_from (word +:+ String a EmptyString) s'
  end.

Definition split (s : string) : list string := split_from EmptyString s.

(** [sep.join(l)] *)
Fixpoint join (sep : string) (l : list string) : string :=
  match l with
  | [] => EmptyString
  | [x] => x
  | x :: l' => x +:+ sep +:+ join sep l'
  end.

(** [len(s)] *)
Definition len (s : string) : nat := String.length s.

(** [s.split(sep)] for a separator [sep] of one character: the pieces
    between the separators, empty ones included; [piece] is the piece being
    read. *)
Fixpoint split_on_from (sep : ascii) (piece : string) (s : string) : list string :=
  match s with
  | EmptyString => [piece]
  | String a s' =>
      if decide (a = sep) then piece :: split_on_from sep EmptyString s'
      else split_on_from sep (piece +:+ String a EmptyString) s'
  end.

Definition split_on (sep : ascii) (s : string) : list string :=
  split_on_from sep EmptyString s.

(** [s.strip()] *)
Fixpoint lstrip (s : string) : string :=
  match s with
  | EmptyString => EmptyString
  | String a s' => if isspace a then lstrip s' else s
  end.

Fixpoint rstrip (s : string) : string :=
  match s with
  | EmptyString => EmptyString
  | String a s' =>
      match rstrip s' with
      | EmptyString => if isspace a then EmptyString else String a EmptyString
      | r => String a r
      end
  end.

Definition strip (s : string) : string := rstrip (lstrip s).

(** The line feed. *)
Definition nl : string := String (ascii_of_nat 10) EmptyString.

End PyStr.

(** ** [PerformanceMetrics] *)

Record PerformanceMetrics : Type := {
  operation : string;
  duration : Q;
  memory_usage : Z;
  cpu_usage : Q;
  cache_hit : bool;
  timestamp : Q;
  success : bool;
  error_message : option string
}.

(** [deque(maxlen=n).append(x)]: a full deque drops its left end. *)
Definition deque_append {A} (maxlen : Z) (x : A) (l : list A) : list A :=
  if maxlen <=? Z.of_nat (length l) then tail l ++ [x] else l ++ [x].

(** ** The clock

    An object together with the number of [time.time()] calls made so far;
    the [i]-th call reads [clock i]. *)

Record Timed (St : Type) : Type := { ticks : nat; obj : St }.
Arguments ticks {St} _.
Arguments obj {St} _.

Definition timed {St T} (f : Field St T) : Field (Timed St) (Timed T) :=
  {| view := fun w => {| ticks := ticks w; obj := view f (obj w) |};
     update := fun t w => {| ticks := ticks t; obj := update f (obj t) (obj w) |} |}.

Definition untimed {St} : Field (Timed St) St :=
  {| view := obj;
     update := fun o w => {| ticks := ticks w; obj := o |} |}.

Section Clock.

(** The readings of [time.time()], in call order. *)
Variable clock : nat -> Q.

Definition time_time {St} : M (Timed St) Q :=
  fun w => (Returns (clock (ticks w)), {| ticks := S (ticks w); obj := obj w |}).

(** [cache.get(key)] and [cache.put(key, value)] called on a cache held in
    the field [f]; each reads the clock once. *)
Definition cache_get {St V} (f : Field St (LRUCache.t V)) (key : string)
  : M (Timed St) (option V) :=
  (now <- time_time ;;
   within untimed (within f (LRUCache.get now key)))%py.

Definition cache_put {St V} (f : Field St (LRUCache.t V)) (key : string) (value : V)
  : M (Timed St) unit :=
  (now <- time_time ;;
   within untimed (within f (LRUCache.put now key value)))%py.

End Clock.

(** [hashlib.md5(text.encode()).hexdigest()], given as [md5_hexdigest]: the
    digest, or the exception that encoding or hashing raises. *)
Definition hexdigest {St} (md5_hexdigest : string -> outcome string)
  (text : string) : M St string :=
  fun s => (md5_hexdigest text, s).

(** ** [PromptOptimizer] *)

Module PromptOptimizer.

(** The [metrics] dictionary. *)
Record Metrics : Type := {
  original_length : nat;
  optimized_length : nat;
  compression_ratio : float;
  optimization_time : Q;
  optimizations_applied : list string;
  domain : string
}.

(** The dictionary stored in the cache. *)
Record CachedResult : Type := {
  optimized_prompt : string;
  metrics : Metrics
}.

Record t : Type := {
  optimization_cache : LRUCache.t CachedResult;
  performance_history : list PerformanceMetrics
}.

(** [__init__] *)
Definition init : t :=
  {| optimization_cache := LRUCache.init 500 7200;
     performance_history := [] |}.

Definition optimization_cache_field : Field t (LRUCache.t CachedResult) :=
  {| view := optimization_cache;
     update := fun c o => {| optimization_cache := c;
                             performance_history := performance_history o |} |}.

Definition record_history (m : PerformanceMetrics) (o : t) : t :=
  {| optimization_cache := optimization_cache o;
     performance_history := deque_append 1000 m (performance_history o) |}.

Definition redundant_phrases : list string :=
  ["please"; "could you"; "would you mind"; "if possible";
   "I need you to"; "can you help me"; "I would like"].

Definition filler_words : list string :=
  ["actually"; "basically"; "essentially"; "literally";
   "obviously"; "definitely"; "certainly"].

Definition verbose_patterns : list (string * string) :=
  [("in order to", "to");
   ("due to the fact that", "because");
   ("at this point in time", "now");
   ("in the event that", "if");
   ("for the purpose of", "for")].

(** The text being rewritten and the tags recorded so far. *)
Definition progress : Type := string * list string.

(** One turn of the loop over [redundant_phrases]. *)
Definition remove_redundant (p : progress) (phrase : string) : progress :=
  let '(optimized, applied) := p in
  if PyStr.contains phrase (PyStr.lower optimized)
  then (PyStr.replace phrase "" optimized,
        applied ++ ["removed_redundant: " +:+ phrase])
  else p.

(** One turn of the loop over [filler_words]. *)
Definition remove_filler (p : progress) (word : string) : progress :=
  let '(optimized, applied) := p in
  let pattern := " " +:+ word +:+ " " in
  if PyStr.contains pattern (PyStr.lower optimized)
  then (PyStr.replace pattern " " optimized,
        applied ++ ["removed_filler: " +:+ word])
  else p.

(** One turn of the loop over [verbose_patterns]. *)
Definition simplify_verbose (p : progress) (vc : string * string) : progress :=
  let '(optimized, applied) := p in
  let '(verbose, concise) := vc in
  if PyStr.contains verbose (PyStr.lower optimized)
  then (PyStr.replace verbose concise optimized,
        applied ++ ["simplified: " +:+ verbose +:+ " -> " +:+ concise])
  else p.

(** [prompt += "\n\n..."] when the condition holds. *)
Definition append_if (cond : bool) (suffix : string) (prompt : string) : string :=
  if cond then prompt +:+ PyStr.nl +:+ PyStr.nl +:+ suffix else prompt.

Definition mentions (word prompt : string) : bool :=
  PyStr.contains word (PyStr.lower prompt).

Definition _optimize_devops_prompt (prompt : string) : string :=
  let prompt :=
    append_if (mentions "analyze" prompt && negb (mentions "json" prompt))
      "Provide response in structured JSON format with clear sections for analysis, recommendations, and implementation steps."
      prompt in
  append_if (mentions "recommend" prompt)
    "Focus on actionable, production-ready solutions with specific commands and configurations."
    prompt.

Definition _optimize_sre_prompt (prompt : string) : string :=
  let prompt :=
    append_if (mentions "incident" prompt || mentions "outage" prompt)
      "Include SLO impact analysis and error budget implications in your response."
      prompt in
  append_if (mentions "performance" prompt)
    "Provide quantitative metrics and measurable targets in your analysis."
    prompt.

Definition _optimize_cloud_prompt (prompt : string) : string :=
  let prompt :=
    append_if (mentions "architecture" prompt || mentions "design" prompt)
      "Include cost implications and optimization opportunities in your recommendations."
      prompt in
  append_if (mentions "migration" prompt || mentions "deployment" prompt)
    "Address security, compliance, and governance considerations."
    prompt.

Definition _optimize_platform_prompt (prompt : string) : string :=
  let prompt :=
    append_if (mentions "platform" prompt || mentions "developer" prompt)
      "Prioritize developer experience and productivity in your recommendations."
      prompt in
  append_if (mentions "tool" prompt || mentions "service" prompt)
    "Focus on self-service capabilities and automation opportunities."
    prompt.

(** The [if domain == ... elif ...] chain. *)
Definition apply_domain (domain : string) (p : progress) : progress :=
  let '(optimized, applied) := p in
  if decide (domain = "devops") then
    (_optimize_devops_prompt optimized, applied ++ ["applied_devops_optimizations"])
  else if decide (domain = "sre") then
    (_optimize_sre_prompt optimized, applied ++ ["applied_sre_optimizations"])
  else if decide (domain = "cloud") then
    (_optimize_cloud_prompt optimized, applied ++ ["applied_cloud_optimizations"])
  else if decide (domain = "platform") then
    (_optimize_platform_prompt optimized, applied ++ ["applied_platform_optimizations"])
  else p.

(** The rewriting between [start_time] and the whitespace clean-up, which
    reads neither the clock nor the cache. *)
Definition rewrite (prompt domain : string) : progress :=
  let p := (prompt, []) in
  let p := fold_left remove_redundant redundant_phrases p in
  let p := fold_left remove_filler filler_words p in
  let p := fold_left simplify_verbose verbose_patterns p in
  let '(optimized, applied) := apply_domain domain p in
  (PyStr.join " " (PyStr.split optimized), applied).

(** [1 - (optimized_length / original_length)] *)
Definition ratio {St} (optimized_length original_length : nat) : M St float :=
  (quotient <- PyFloat.true_div (Z.of_nat optimized_length)
                 (Z.of_nat original_length) ;;
   ret (PrimFloat.sub 1%float quotient))%py.

Section Environment.
Variable clock : nat -> Q.
Variable md5_hexdigest : string -> outcome string.

(** [optimize_prompt] *)
Definition optimize_prompt (prompt domain : string) : M (Timed t) (string * Metrics) :=
  (cache_key <- hexdigest md5_hexdigest (prompt +:+ ":" +:+ domain) ;;
   cached_result <- cache_get clock optimization_cache_field cache_key ;;
   match cached_result with
   | Some r => ret (optimized_prompt r, metrics r)
   | None =>
       start_time <- time_time clock ;;
       let original_length := PyStr.len prompt in
       let '(optimized, applied) := rewrite prompt domain in
       end_time <- time_time clock ;;
       let optimization_time := (end_time - start_time)%Q in
       let optimized_length := PyStr.len optimized in
       compression_ratio <- ratio optimized_length original_length ;;
       let metrics :=
         {| original_length := original_length;
            optimized_length := optimized_length;
            compression_ratio := compression_ratio;
            optimization_time := optimization_time;
            optimizations_applied := applied;
            domain := domain |} in
       cache_put clock optimization_cache_field cache_key
         {| optimized_prompt := optimized; metrics := metrics |} ;;;
       recorded_at <- time_time clock ;;
       within untimed (modify (record_history
         {| operation := "prompt_optimization";
            duration := optimization_time;
            memory_usage := 0;
            cpu_usage := 0;
            cache_hit := false;
            timestamp := recorded_at;
            success := true;
            error_message := None |})) ;;;
       ret (optimized, metrics)
   end)%py.

End Environment.
End PromptOptimizer.

(** ** [ResponseStreamer] *)

Module ResponseStreamer.

(** [list(range(start, stop, step))] *)
Definition range (start stop step : Z) : outcome (list Z) :=
  if step =? 0 then Raises (ValueError "range() arg 3 must not be zero")
  else
    let count :=
      if 0 <? step then (stop - start + step - 1) / step
      else (start - stop - step - 1) / (- step) in
    Returns (map (fun k => start + Z.of_nat k * step) (seq 0 (Z.to_nat count))).

(** [text[i:j]]: a negative index counts from the end, and both indices
    are clipped to the text. *)
Definition slice (text : string) (i j : Z) : string :=
  let n := Z.of_nat (PyStr.len text) in
  let clip k := if k <? 0 then Z.max 0 (k + n) else Z.min k n in
  substring (Z.to_nat (clip i)) (Z.to_nat (clip j - clip i)) text.

Record t : Type := {
  chunk_size : Z;
  delay : float
}.

(** [__init__]; the delay is the double 0.05. *)
Definition init : t :=
  {| chunk_size := 100; delay := 0x1.999999999999ap-5%float |}.

(** [[response[i:i+self.chunk_size]
      for i in range(0, len(response), self.chunk_size)]] *)
Definition chunks (self : t) (response : string) : outcome (list string) :=
  match range 0 (Z.of_nat (PyStr.len response)) (chunk_size self) with
  | Returns starts =>
      Returns (map (fun i => slice response i (i + chunk_size self)) starts)
  | Raises e => Raises e
  end.

Section Streaming.

(** The state the callback works on, and [await asyncio.sleep(seconds)]. *)
Context {St : Type}.
Variable asyncio_sleep : float -> M St unit.

(** The loop over the chunks. *)
Fixpoint deliver (self : t) (chunks : list string)
  (callback : string -> M St unit) : M St unit :=
  match chunks with
  | [] => ret tt
  | chunk :: rest =>
      (callback chunk ;;;
       asyncio_sleep (delay self) ;;;
       deliver self rest callback)%py
  end.

(** [stream_response] *)
Definition stream_response (self : t) (response : string)
  (callback : string -> M St unit) : M St unit :=
  match chunks self response with
  | Returns chunks => deliver self chunks callback
  | Raises e => raise e
  end.

End Streaming.
End ResponseStreamer.

(** ** [ContextCompressor] *)

Module ContextCompressor.

(** The [metrics] dictionary. *)
Record Metrics : Type := {
  original_length : nat;
  compressed_length : nat;
  reduction_ratio : float;
  target_reduction : float;
  compression_time : Q;
  key_phrases_count : nat;
  structured_info_categories : nat
}.

(** The dictionary stored in the cache. *)
Record CachedResult : Type := {
  compressed : string;
  metrics : Metrics
}.

Record t : Type := { compression_cache : LRUCache.t CachedResult }.

(** [__init__] *)
Definition init : t := {| compression_cache := LRUCache.init 200 1800 |}.

Definition compression_cache_field : Field t (LRUCache.t CachedResult) :=
  {| view := compression_cache;
     update := fun c _ => {| compression_cache := c |} |}.

(** [any(word in text.lower() for word in words)] *)
Definition any_in (words : list string) (text : string) : bool :=
  existsb (fun word => PyStr.contains word (PyStr.lower text)) words.

Definition important_indicators : list string :=
  ["error"; "critical"; "high"; "urgent"; "failed"; "down";
   "performance"; "latency"; "throughput"; "availability";
   "security"; "vulnerability"; "breach"; "compliance";
   "cost"; "optimization"; "scaling"; "capacity"].

(** [_extract_key_phrases] *)
Definition _extract_key_phrases (text : string) : list string :=
  let sentences := map PyStr.strip (PyStr.split_on "." text) in
  take 15
    (List.filter
       (fun sentence =>
          any_in important_indicators sentence
          && (PyStr.len sentence <? 200)%nat)
       sentences).

(** The dictionary built by [_extract_structured_info], its four keys in
    insertion order; [metric_lines] is the key ['metrics']. *)
Record StructuredInfo : Type := {
  services : list string;
  metric_lines : list string;
  errors : list string;
  recommendations : list string
}.

(** The words kept as service names on one line. *)
Definition service_words (line : string) : list string :=
  if PyStr.contains "service" (PyStr.lower line)
  then List.filter
         (fun word =>
            PyStr.contains "service" (PyStr.lower word)
            && (7 <? PyStr.len word)%nat)
         (PyStr.split line)
  else [].

Definition is_recommendation (line : string) : bool :=
  PyStr.startswith "-" line || PyStr.startswith "*" line
  || PyStr.contains "recommend" (PyStr.lower line).

Section Environment.

(** The readings of [time.time()] and the MD5 digest, as before. *)
Variable clock : nat -> Q.
Variable md5_hexdigest : string -> outcome string.

(** [list(set(l))]: the elements of [l] once each, in the iteration order
    of the set, which varies with the hash seed of the process. *)
Variable list_of_set : list string -> list string.

(** [str(x)] for a double *)
Variable str_float : float -> string.

(** [_extract_structured_info] *)
Definition _extract_structured_info (text : string) : StructuredInfo :=
  let lines :=
    List.filter (fun line => negb (PyStr.len line =? 0)%nat)
      (map PyStr.strip (PyStr.split_on (ascii_of_nat 10) text)) in
  {| services := take 5 (list_of_set (flat_map service_words lines));
     metric_lines :=
       take 5 (list_of_set
         (List.filter (any_in ["cpu"; "memory"; "disk"; "network"; "latency"])
            lines));
     errors :=
       take 5 (list_of_set
         (List.filter (any_in ["error"; "failed"; "exception"; "timeout"]) lines));
     recommendations :=
       take 5 (list_of_set (List.filter is_recommendation lines)) |}.

(** [_aggressive_compress] *)
Definition _aggressive_compress (text : string) (target_reduction : float) : string :=
  let shorten line :=
    PyStr.replace "at this point in time" "now"
      (PyStr.replace "due to the fact that" "because"
         (PyStr.replace "in order to" "to" line)) in
  PyStr.join PyStr.nl
    (List.filter (fun line => (10 <? PyStr.len (PyStr.strip line))%nat)
       (map shorten (PyStr.split_on (ascii_of_nat 10) text))).

(** The line of one category, when it has items. *)
Definition category_line (category : string) (items : list string) : list string :=
  match items with
  | [] => []
  | _ => ["- " +:+ category +:+ ": " +:+ PyStr.join ", " (take 3 items)]
  end.

(** The text assembled from the structured information and the key
    phrases. *)
Definition assemble (structured_info : StructuredInfo) (key_phrases : list string)
  : string :=
  PyStr.join PyStr.nl
    (["Key Information:"]
     ++ category_line "services" (services structured_info)
     ++ category_line "metrics" (metric_lines structured_info)
     ++ category_line "errors" (errors structured_info)
     ++ category_line "recommendations" (recommendations structured_info)
     ++ match key_phrases with
        | [] => []
        | _ => (PyStr.nl +:+ "Important Details:")
               :: map (fun phrase => "- " +:+ phrase) (take 10 key_phrases)
        end).

(** [1 - (length / original_length)] *)
Definition reduction {St} (length original_length : nat) : M St float :=
  (quotient <- PyFloat.true_div (Z.of_nat length) (Z.of_nat original_length) ;;
   ret (PrimFloat.sub 1%float quotient))%py.

(** [compress_context] *)
Definition compress_context (context : string) (target_reduction : float)
  : M (Timed t) (string * Metrics) :=
  (cache_key <- hexdigest md5_hexdigest
                  (context +:+ ":" +:+ str_float target_reduction) ;;
   cached_result <- cache_get clock compression_cache_field cache_key ;;
   match cached_result with
   | Some r => ret (compressed r, metrics r)
   | None =>
       start_time <- time_time clock ;;
       let original_length := PyStr.len context in
       let key_phrases := _extract_key_phrases context in
       let structured_info := _extract_structured_info context in
       let compressed := assemble structured_info key_phrases in
       current_reduction <- reduction (PyStr.len compressed) original_length ;;
       let compressed :=
         if PrimFloat.ltb current_reduction target_reduction
         then _aggressive_compress compressed target_reduction
         else compressed in
       end_time <- time_time clock ;;
       let compression_time := (end_time - start_time)%Q in
       let final_length := PyStr.len compressed in
       actual_reduction <- reduction final_length original_length ;;
       let metrics :=
         {| original_length := original_length;
            compressed_length := final_length;
            reduction_ratio := actual_reduction;
            target_reduction := target_reduction;
            compression_time := compression_time;
            key_phrases_count := length key_phrases;
            structured_info_categories := 4 |} in
       cache_put clock compression_cache_field cache_key
         {| compressed := compressed; metrics := metrics |} ;;;
       ret (compressed, metrics)
   end)%py.

End Environment.
End ContextCompressor.

(** ** [PerformanceMonitor] *)

Module PerformanceMonitor.

(** [sorted(data)]: a stable insertion sort, [leb] being [<=] on the
    elements. *)
Section Sorting.
Context {A : Type} (leb : A -> A -> bool).

Fixpoint insert_sorted (x : A) (l : list A) : list A :=
  match l with
  | [] => [x]
  | y :: l' => if leb x y then x :: l else y :: insert_sorted x l'
  end.

Definition sorted (data : list A) : list A := foldr insert_sorted [] data.

End Sorting.

(** [int((percentile / 100) * n)], in double precision as Python computes
    it. *)
Definition percentile_index (percentile : Z) (n : nat) : outcome Z :=
  PyFloat.int_of_float
    (PrimFloat.mul
       (PrimFloat.div (PyFloat.float_of_int percentile) (PyFloat.float_of_int 100))
       (PyFloat.float_of_int (Z.of_nat n))).

(** [l[i]], a negative [i] counting from the right end. *)
Definition getitem {A} (l : list A) (i : Z) : outcome A :=
  let j := if i <? 0 then i + Z.of_nat (length l) else i in
  if j <? 0 then Raises (IndexError "list index out of range")
  else match l !! Z.to_nat j with
       | Some x => Returns x
       | None => Raises (IndexError "list index out of range")
       end.

(** [_percentile]; [zero] stands for the [0.0] returned on empty data. *)
Definition _percentile {A} (leb : A -> A -> bool) (zero : A)
  (data : list A) (percentile : Z) : outcome A :=
  match data with
  | [] => Returns zero
  | _ :: _ =>
      let sorted_data := sorted leb data in
      match percentile_index percentile (length sorted_data) with
      | Returns index =>
          getitem sorted_data (Z.min index (Z.of_nat (length sorted_data) - 1))
      | Raises e => Raises e
      end
  end.

(** [self.metrics_history]; the alert thresholds only feed the log. *)
Record t : Type := { metrics_history : list PerformanceMetrics }.

Definition init : t := {| metrics_history := [] |}.

(** [record_metric]; the warnings of [_check_alerts] go to the log, which
    is not part of the state. *)
Definition record_metric (metric : PerformanceMetrics) (m : t) : t :=
  {| metrics_history := deque_append 10000 metric (metrics_history m) |}.

Record OperationStats : Type := {
  count : nat;
  avg_duration : Q;
  op_success_rate : float
}.

Record Summary : Type := {
  time_window : Z;
  total_requests : nat;
  successful_requests : nat;
  success_rate : float;
  cache_hit_rate : float;
  avg_response_time : Q;
  min_response_time : Q;
  max_response_time : Q;
  p95_response_time : Q;
  p99_response_time : Q;
  operations : gmap string OperationStats
}.

Definition Qsum (l : list Q) : Q := foldr Qplus 0%Q l.
Definition Qmin (x y : Q) : Q := if Qle_bool x y then x else y.
Definition Qmax (x y : Q) : Q := if Qle_bool x y then y else x.

(** [a / b] for a duration [a] and a positive count [b] *)
Definition Qover (a : Q) (b : nat) : Q := (a / inject_Z (Z.of_nat b))%Q.

Definition count_if (p : PerformanceMetrics -> bool) (l : list PerformanceMetrics) : nat :=
  length (List.filter p l).

(** One entry of [_get_operation_breakdown]. *)
Definition operation_stats (op_metrics : list PerformanceMetrics) : OperationStats :=
  {| count := length op_metrics;
     avg_duration := Qover (Qsum (map duration op_metrics)) (length op_metrics);
     op_success_rate :=
       PyFloat.quotient (Z.of_nat (count_if success op_metrics))
         (Z.of_nat (length op_metrics)) |}.

(** [_get_operation_breakdown]: the metrics grouped by [operation], in
    recording order. *)
Definition _get_operation_breakdown (metrics : list PerformanceMetrics)
  : gmap string OperationStats :=
  let groups : gmap string (list PerformanceMetrics) :=
    fold_left
      (fun g m => <[operation m := default [] (g !! operation m) ++ [m]]> g)
      metrics ∅ in
  operation_stats <$> groups.

(** [get_performance_summary], [now] being the reading of [time.time()];
    [None] is the answer that no metric falls in the window. *)
Definition get_performance_summary (now : Q) (time_window : Z) (m : t)
  : outcome (option Summary) :=
  let cutoff_time := (now - inject_Z time_window)%Q in
  let recent_metrics :=
    List.filter (fun x => Qle_bool cutoff_time (timestamp x)) (metrics_history m) in
  match recent_metrics with
  | [] => Returns None
  | first :: others =>
      let response_times := map duration recent_metrics in
      let cache_hits := count_if cache_hit recent_metrics in
      let total_requests := length recent_metrics in
      let successful_requests := count_if success recent_metrics in
      match _percentile Qle_bool 0%Q response_times 95 with
      | Raises e => Raises e
      | Returns p95 =>
          match _percentile Qle_bool 0%Q response_times 99 with
          | Raises e => Raises e
          | Returns p99 =>
              Returns (Some
                {| time_window := time_window;
                   total_requests := total_requests;
                   successful_requests := successful_requests;
                   success_rate :=
                     PyFloat.quotient (Z.of_nat successful_requests)
                       (Z.of_nat total_requests);
                   cache_hit_rate :=
                     PyFloat.quotient (Z.of_nat cache_hits)
                       (Z.of_nat total_requests);
                   avg_response_time :=
                     Qover (Qsum response_times) (length response_times);
                   min_response_time :=
                     foldr Qmin (duration first) (map duration others);
                   max_response_time :=
                     foldr Qmax (duration first) (map duration others);
                   p95_response_time := p95;
                   p99_response_time := p99;
                   operations := _get_operation_breakdown recent_metrics |})
          end
      end
  end.

End PerformanceMonitor.

(** ** [CursorAIOptimizer] *)

Module CursorAIOptimizer.

(** The metric recorded by [optimize_request]. *)
Definition request_metric (duration : Q) (cache_hit : bool) (timestamp : Q)
  (success : bool) (error_message : option string) : PerformanceMetrics :=
  {| operation := "optimize_request";
     duration := duration;
     memory_usage := 0;
     cpu_usage := 0;
     cache_hit := cache_hit;
     timestamp := timestamp;
     success := success;
     error_message := error_message |}.

(** The [optimization_results] dictionary: a key that is not set is
    [None]. *)
Module OptimizationResults.
Section Results.
Context {CompressionMetrics : Type}.

Record t : Type := {
  original_prompt_length : option nat;
  original_context_length : option nat;
  optimizations_applied : option (list string);
  prompt_optimization : option PromptOptimizer.Metrics;
  context_compression : option CompressionMetrics;
  cache_hit : option bool;
  final_prompt_length : option nat;
  final_context_length : option nat;
  optimization_time : option Q;
  error : option string
}.

Definition empty : t :=
  {| original_prompt_length := None; original_context_length := None;
     optimizations_applied := None; prompt_optimization := None;
     context_compression := None; cache_hit := None;
     final_prompt_length := None; final_context_length := None;
     optimization_time := None; error := None |}.

(** The dictionary built before [try]. *)
Definition initial (prompt context : string) : t :=
  {| original_prompt_length := Some (PyStr.len prompt);
     original_context_length := Some (PyStr.len context);
     optimizations_applied := Some [];
     prompt_optimization := None; context_compression := None;
     cache_hit := None; final_prompt_length := None;
     final_context_length := None; optimization_time := None;
     error := None |}.

(** [{'error': str(e)}] *)
Definition failure (message : string) : t :=
  {| original_prompt_length := None; original_context_length := None;
     optimizations_applied := None; prompt_optimization := None;
     context_compression := None; cache_hit := None;
     final_prompt_length := None; final_context_length := None;
     optimization_time := None; error := Some message |}.

(** [results['optimizations_applied'].append(tag)] *)
Definition append_applied (tag : string) (r : t) : t :=
  {| original_prompt_length := original_prompt_length r;
     original_context_length := original_context_length r;
     optimizations_applied := (fun l => l ++ [tag]) <$> optimizations_applied r;
     prompt_optimization := prompt_optimization r;
     context_compression := context_compression r;
     cache_hit := cache_hit r;
     final_prompt_length := final_prompt_length r;
     final_context_length := final_context_length r;
     optimization_time := optimization_time r;
     error := error r |}.

Definition set_prompt_optimization (m : PromptOptimizer.Metrics) (r : t) : t :=
  {| original_prompt_length := original_prompt_length r;
     original_context_length := original_context_length r;
     optimizations_applied := optimizations_applied r;
     prompt_optimization := Some m;
     context_compression := context_compression r;
     cache_hit := cache_hit r;
     final_prompt_length := final_prompt_length r;
     final_context_length := final_context_length r;
     optimization_time := optimization_time r;
     error := error r |}.

Definition set_context_compression (m : CompressionMetrics) (r : t) : t :=
  {| original_prompt_length := original_prompt_length r;
     original_context_length := original_context_length r;
     optimizations_applied := optimizations_applied r;
     prompt_optimization := prompt_optimization r;
     context_compression := Some m;
     cache_hit := cache_hit r;
     final_prompt_length := final_prompt_length r;
     final_context_length := final_context_length r;
     optimization_time := optimization_time r;
     error := error r |}.

Definition set_cache_hit (b : bool) (r : t) : t :=
  {| original_prompt_length := original_prompt_length r;
     original_context_length := original_context_length r;
     optimizations_applied := optimizations_applied r;
     prompt_optimization := prompt_optimization r;
     context_compression := context_compression r;
     cache_hit := Some b;
     final_prompt_length := final_prompt_length r;
     final_context_length := final_context_length r;
     optimization_time := optimization_time r;
     error := error r |}.

Definition set_final_lengths (prompt_length context_length : nat) (r : t) : t :=
  {| original_prompt_length := original_prompt_length r;
     original_context_length := original_context_length r;
     optimizations_applied := optimizations_applied r;
     prompt_optimization := prompt_optimization r;
     context_compression := context_compression r;
     cache_hit := cache_hit r;
     final_prompt_length := Some prompt_length;
     final_context_length := Some context_length;
     optimization_time := optimization_time r;
     error := error r |}.

Definition set_optimization_time (d : Q) (r : t) : t :=
  {| original_prompt_length := original_prompt_length r;
     original_context_length := original_context_length r;
     optimizations_applied := optimizations_applied r;
     prompt_optimization := prompt_optimization r;
     context_compression := context_compression r;
     cache_hit := cache_hit r;
     final_prompt_length := final_prompt_length r;
     final_context_length := final_context_length r;
     optimization_time := Some d;
     error := error r |}.

End Results.
Arguments t CompressionMetrics : clear implicits.
End OptimizationResults.

(** The [optimized_request] dictionary. *)
Record OptimizedRequest : Type := {
  prompt : string;
  context : string;
  domain : string;
  cache_key : option string
}.

Section Pipeline.

(** The context compressor: its state, the metrics it reports and its
    [compress_context] method. *)
Context {Compressor CompressionMetrics : Type}.
Variable clock : nat -> Q.
Variable md5_hexdigest : string -> outcome string.
Variable compress_context :
  string -> M (Timed Compressor) (string * CompressionMetrics).

(** The stateful components; the response streamer and the parallel
    processor take no part in [optimize_request]. *)
Record t : Type := {
  prompt_optimizer : PromptOptimizer.t;
  context_compressor : Compressor;
  performance_monitor : PerformanceMonitor.t;
  global_cache : LRUCache.t string
}.

Definition prompt_optimizer_field : Field t PromptOptimizer.t :=
  {| view := prompt_optimizer;
     update := fun x o =>
       {| prompt_optimizer := x; context_compressor := context_compressor o;
          performance_monitor := performance_monitor o;
          global_cache := global_cache o |} |}.
Definition context_compressor_field : Field t Compressor :=
  {| view := context_compressor;
     update := fun x o =>
       {| prompt_optimizer := prompt_optimizer o; context_compressor := x;
          performance_monitor := performance_monitor o;
          global_cache := global_cache o |} |}.
Definition performance_monitor_field : Field t PerformanceMonitor.t :=
  {| view := performance_monitor;
     update := fun x o =>
       {| prompt_optimizer := prompt_optimizer o;
          context_compressor := context_compressor o;
          performance_monitor := x; global_cache := global_cache o |} |}.
Definition global_cache_field : Field t (LRUCache.t string) :=
  {| view := global_cache;
     update := fun x o =>
       {| prompt_optimizer := prompt_optimizer o;
          context_compressor := context_compressor o;
          performance_monitor := performance_monitor o; global_cache := x |} |}.

(** [__init__], given the compressor's initial state. *)
Definition init (compressor : Compressor) : t :=
  {| prompt_optimizer := PromptOptimizer.init;
     context_compressor := compressor;
     performance_monitor := PerformanceMonitor.init;
     global_cache := LRUCache.init 2000 7200 |}.

(** The dictionary returned by [optimize_request]. *)
Record Result : Type := {
  response : option string;
  optimized_request : option OptimizedRequest;
  optimization_results : OptimizationResults.t CompressionMetrics;
  processing_time : Q;
  cache_hit : bool
}.

(** The activation of [optimize_request]: the object, and the two local
    variables that are assigned inside [try]. *)
Record Frame : Type := {
  self : Timed t;
  var_context : string;
  var_optimization_results : OptimizationResults.t CompressionMetrics
}.

Definition self_field : Field Frame (Timed t) :=
  {| view := self;
     update := fun w f =>
       {| self := w; var_context := var_context f;
          var_optimization_results := var_optimization_results f |} |}.

Definition assign_context (context : string) (f : Frame) : Frame :=
  {| self := self f; var_context := context;
     var_optimization_results := var_optimization_results f |}.

Definition update_results
  (g : OptimizationResults.t CompressionMetrics -> OptimizationResults.t CompressionMetrics)
  (f : Frame) : Frame :=
  {| self := self f; var_context := var_context f;
     var_optimization_results := g (var_optimization_results f) |}.

(** [self.performance_monitor.record_metric(metric)] *)
Definition record_metric (metric : PerformanceMetrics) : M Frame unit :=
  within self_field (within untimed (within performance_monitor_field
    (modify (PerformanceMonitor.record_metric metric)))).

(** The truth value of [cached_response]: [None] and the empty text are
    false. *)
Definition truthy (cached_response : option string) : option string :=
  match cached_response with
  | Some EmptyString => None
  | other => other
  end.

(** The body of [try]. *)
Definition optimize_request_body (prompt domain : string)
  (enable_compression : bool) (start_time : Q) : M Frame Result :=
  (optimized <- within self_field (within (timed prompt_optimizer_field)
                 (PromptOptimizer.optimize_prompt clock md5_hexdigest prompt domain)) ;;
   let '(optimized_prompt, prompt_metrics) := optimized in
   modify (update_results (OptimizationResults.set_prompt_optimization prompt_metrics)) ;;;
   modify (update_results (OptimizationResults.append_applied "prompt_optimization")) ;;;
   f <- read ;;
   (if enable_compression && (5000 <? Z.of_nat (PyStr.len (var_context f)))
    then
      compressed <- within self_field (within (timed context_compressor_field)
                      (compress_context (var_context f))) ;;
      let '(compressed_context, compression_metrics) := compressed in
      modify (update_results
                (OptimizationResults.set_context_compression compression_metrics)) ;;;
      modify (update_results (OptimizationResults.append_applied "context_compression")) ;;;
      modify (assign_context compressed_context)
    else ret tt) ;;;
   f <- read ;;
   let context := var_context f in
   cache_key <- hexdigest md5_hexdigest
                  (optimized_prompt +:+ ":" +:+ context +:+ ":" +:+ domain) ;;
   cached_response <- within self_field (cache_get clock global_cache_field cache_key) ;;
   match truthy cached_response with
   | Some cached =>
       modify (update_results (OptimizationResults.set_cache_hit true)) ;;;
       modify (update_results (OptimizationResults.append_applied "cache_hit")) ;;;
       finished <- within self_field (time_time clock) ;;
       let total_time := (finished - start_time)%Q in
       recorded_at <- within self_field (time_time clock) ;;
       record_metric (request_metric total_time true recorded_at true None) ;;;
       f <- read ;;
       ret {| response := Some cached;
              optimized_request := None;
              optimization_results := var_optimization_results f;
              processing_time := total_time;
              cache_hit := true |}
   | None =>
       let optimized_request :=
         {| prompt := optimized_prompt; context := context; domain := domain;
            cache_key := Some cache_key |} in
       modify (update_results (OptimizationResults.set_cache_hit false)) ;;;
       modify (update_results (OptimizationResults.set_final_lengths
                 (PyStr.len optimized_prompt) (PyStr.len context))) ;;;
       finished <- within self_field (time_time clock) ;;
       let total_optimization_time := (finished - start_time)%Q in
       modify (update_results
                 (OptimizationResults.set_optimization_time total_optimization_time)) ;;;
       recorded_at <- within self_field (time_time clock) ;;
       record_metric
         (request_metric total_optimization_time false recorded_at true None) ;;;
       f <- read ;;
       ret {| response := None;
              optimized_request := Some optimized_request;
              optimization_results := var_optimization_results f;
              processing_time := total_optimization_time;
              cache_hit := false |}
   end)%py.

(** The [except Exception as e] clause. *)
Definition optimize_request_handler (prompt domain : string) (start_time : Q)
  (e : exn) : M Frame Result :=
  (failed_at <- within self_field (time_time clock) ;;
   recorded_at <- within self_field (time_time clock) ;;
   record_metric
     (request_metric (failed_at - start_time)%Q false recorded_at false
        (Some (str_exn e))) ;;;
   f <- read ;;
   returned_at <- within self_field (time_time clock) ;;
   ret {| response := None;
          optimized_request :=
            Some {| prompt := prompt; context := var_context f; domain := domain;
                    cache_key := None |};
          optimization_results := OptimizationResults.failure (str_exn e);
          processing_time := (returned_at - start_time)%Q;
          cache_hit := false |})%py.

(** [optimize_request]; [enable_streaming] is accepted and not used. *)
Definition optimize_request (prompt context domain : string)
  (enable_streaming enable_compression : bool) : M (Timed t) Result :=
  fun w =>
    let call : M Frame Result :=
      (start_time <- within self_field (time_time clock) ;;
       try_except
         (optimize_request_body prompt domain enable_compression start_time)
         (optimize_request_handler prompt domain start_time))%py in
    match call {| self := w; var_context := context;
                  var_optimization_results :=
                    OptimizationResults.initial prompt context |} with
    | (r, f) => (r, self f)
    end.

(** [cache_response]: nothing is stored under an empty key. *)
Definition cache_response (cache_key response : string) : M (Timed t) unit :=
  match cache_key with
  | EmptyString => ret tt
  | _ => cache_put clock global_cache_field cache_key response
  end.

End Pipeline.

(** The method the pipeline is given in the source:
    [self.context_compressor.compress_context(context)], the target
    reduction taking its default of 0.3. *)
Definition context_compressor_method (clock : nat -> Q)
  (md5_hexdigest : string -> outcome string)
  (list_of_set : list string -> list string) (str_float : float -> string)
  (context : string)
  : M (Timed ContextCompressor.t) (string * ContextCompressor.Metrics) :=
  ContextCompressor.compress_context clock md5_hexdigest list_of_set str_float
    context 0x1.3333333333333p-2%float.

End CursorAIOptimizer.

(** * Properties *)

(** ** The cache *)

Section CacheProperties.
Context {V : Type}.
Implicit Types (c : LRUCache.t V) (key : string) (l : list string).

Import LRUCache.

Lemma remove_first_present key l :
  key ∈ l → ∃ l', remove_first key l = Some l'.
Proof.
  induction l as [|x l IH]; intros Hin.
  - by apply elem_of_nil in Hin.
  - simpl. destruct (decide (x = key)) as [->|Hne]; [by eexists|].
    apply elem_of_cons in Hin as [->|Hin]; [done|].
    destruct (IH Hin) as [l' ->]. by eexists.
Qed.

Lemma remove_first_absent key l :
  key ∉ l → remove_first key l = None.
Proof.
  induction l as [|x l IH]; intros Hin; [done|].
  simpl. apply not_elem_of_cons in Hin as [Hne Hin].
  destruct (decide (x = key)); [congruence|]. by rewrite IH.
Qed.

Lemma remove_first_spec key l l' :
  NoDup l → remove_first key l = Some l' →
  NoDup l' ∧ length l = S (length l') ∧ ∀ x, x ∈ l' ↔ x ∈ l ∧ x ≠ key.
Proof.
  revert l'. induction l as [|x l IH]; intros l' Hnd Hrm; [done|].
  simpl in Hrm. apply NoDup_cons in Hnd as [Hx Hnd].
  destruct (decide (x = key)) as [->|Hne].
  - injection Hrm as <-. split_and!; [done..|].
    intros y. rewrite elem_of_cons. split.
    + intros Hy. split; [by right|]. intros ->. done.
    + intros [[->|Hy] Hney]; done.
  - destruct (remove_first key l) as [r|] eqn:Hr; [|done].
    injection Hrm as <-. destruct (IH r Hnd eq_refl) as (Hnd' & Hlen & Hel).
    split_and!.
    + apply NoDup_cons. split; [|done]. rewrite Hel. tauto.
    + simpl. by rewrite Hlen.
    + intros y. rewrite !elem_of_cons, Hel. split.
      * intros [->|[Hy Hney]]; split; auto.
      * intros [[->|Hy] Hney]; auto.
Qed.

Lemma well_formed_size c :
  well_formed c → size (cache c) = length (access_order c).
Proof.
  intros [Hnd Hkeys _].
  rewrite <- size_dom, <- (size_list_to_set (C:=gset string)) by done.
  f_equal. apply set_eq. intros k.
  rewrite elem_of_dom, elem_of_list_to_set. symmetry. apply Hkeys.
Qed.

Lemma count_key_NoDup key l :
  NoDup l → key ∈ l → count_key key l = 1%nat.
Proof.
  unfold count_key. induction 1 as [|x l Hx Hnd IH]; intros Hin.
  - by apply elem_of_nil in Hin.
  - simpl. apply elem_of_cons in Hin as [->|Hin].
    + rewrite bool_decide_eq_true_2 by done. simpl. f_equal.
      clear IH Hnd. induction l as [|y l IHl]; [done|].
      apply not_elem_of_cons in Hx as [Hne Hx]. simpl.
      rewrite bool_decide_eq_false_2 by done. auto.
    + rewrite bool_decide_eq_false_2; [auto|]. intros ->. done.
Qed.

Lemma well_formed_consistent c : well_formed c → consistent c.
Proof.
  intros Hwf. split; [by apply well_formed_size|].
  intros key Hkey. apply count_key_NoDup; [apply Hwf|]. by apply Hwf.
Qed.

Lemma init_well_formed maxsize ttl : well_formed (init (V:=V) maxsize ttl).
Proof.
  split; simpl.
  - constructor.
  - intros key. rewrite lookup_empty, elem_of_nil.
    split; [done|]. by intros [? ?].
  - intros key. by rewrite !lookup_empty.
Qed.

(** The last three assignments of [put]. *)
Definition store (now : Q) key (value : V) c : LRUCache.t V :=
  set_access_order (fun l => l ++ [key])
    (set_timestamps (insert key now) (set_cache (insert key value) c)).

Lemma store_well_formed now key (value : V) c :
  NoDup (access_order c) → key ∉ access_order c →
  (∀ k, k ≠ key → k ∈ access_order c ↔ is_Some (cache c !! k)) →
  (∀ k, k ≠ key → is_Some (cache c !! k) ↔ is_Some (timestamps c !! k)) →
  well_formed (store now key value c).
Proof.
  intros Hnd Hfresh Hkeys Hstamps. split; simpl.
  - apply NoDup_app. split_and!; [done| |apply NoDup_singleton].
    intros x Hx ->%list_elem_of_singleton. done.
  - intros k. rewrite elem_of_app, list_elem_of_singleton.
    destruct (decide (k = key)) as [->|Hne].
    + rewrite lookup_insert_eq. split; [by eexists|by right].
    + rewrite lookup_insert_ne by done. rewrite <- Hkeys by done. tauto.
  - intros k. destruct (decide (k = key)) as [->|Hne].
    + rewrite !lookup_insert_eq. split; by eexists.
    + rewrite !lookup_insert_ne by done. by apply Hstamps.
Qed.

Lemma put_result now key (value : V) c :
  well_formed c →
  1 ≤ maxsize c → Z.of_nat (size (cache c)) ≤ maxsize c →
  ∃ c', put now key value c = (Returns tt, c') ∧
        well_formed c' ∧
        Z.of_nat (size (cache c')) ≤ maxsize c' ∧
        maxsize c' = maxsize c ∧ ttl c' = ttl c ∧
        cache c' !! key = Some value ∧ timestamps c' !! key = Some now.
Proof.
  intros Hwf Hcap Hsize.
  pose proof (well_formed_size c Hwf) as Hlen.
  destruct Hwf as [Hnd Hkeys Hstamps].
  unfold put, bind, read. simpl.
  destruct (cache c !! key) as [old|] eqn:Hkey.
  - (* the key is present: its node is moved to the right end *)
    assert (key ∈ access_order c) as Hin by (apply Hkeys; by eexists).
    destruct (remove_first_present key _ Hin) as [l' Hrm].
    destruct (remove_first_spec key _ l' Hnd Hrm) as (Hnd' & Hlen' & Hel).
    unfold deque_remove. rewrite Hrm. unfold modify. simpl.
    eexists. split; [reflexivity|].
    assert (well_formed (store now key value (set_access_order (λ _, l') c)))
      as Hwf'.
    { apply store_well_formed; simpl.
      - done.
      - rewrite Hel. tauto.
      - intros k Hne. rewrite Hel, <- Hkeys. tauto.
      - intros k _. apply Hstamps. }
    pose proof (well_formed_size _ Hwf') as Hsz. simpl in Hsz.
    split_and!; [exact Hwf'| |done|done| |]; simpl.
    + rewrite Hsz, length_app. simpl. lia.
    + apply lookup_insert_eq.
    + apply lookup_insert_eq.
  - destruct (Z.of_nat (size (cache c)) >=? maxsize c) eqn:Hfull.
    + (* the cache is full: the left end of the access order is evicted *)
      destruct (access_order c) as [|oldest rest] eqn:Horder.
      { simpl in Hlen. lia. }
      assert (is_Some (cache c !! oldest)) as [vo Hvo].
      { apply Hkeys. by left. }
      assert (is_Some (timestamps c !! oldest)) as [to Hto].
      { apply Hstamps. by eexists. }
      apply NoDup_cons in Hnd as [Hold Hnd'].
      assert (key ≠ oldest) as Hne by (intros ->; congruence).
      unfold deque_popleft, _remove_key, del_timestamp, bind, read, modify.
      rewrite Horder. simpl. rewrite Hvo. simpl. rewrite Hto. simpl.
      eexists. split; [reflexivity|].
      match goal with |- well_formed ?c' ∧ _ =>
        assert (well_formed c') as Hwf' end.
      { apply (store_well_formed now key value
                 (set_stats incr_evictions
                    (set_timestamps (delete oldest)
                       (set_cache (delete oldest)
                          (set_access_order (λ _, rest) c))))); simpl.
        - done.
        - intros Hin. assert (is_Some (cache c !! key)) as [? ?]; [|congruence].
          apply Hkeys. by right.
        - intros k _. destruct (decide (k = oldest)) as [->|Hk].
          + rewrite lookup_delete_eq. split; [done|by intros [? ?]].
          + rewrite lookup_delete_ne by done. rewrite <- Hkeys.
            rewrite elem_of_cons. tauto.
        - intros k _. destruct (decide (k = oldest)) as [->|Hk].
          + rewrite !lookup_delete_eq. done.
          + rewrite !lookup_delete_ne by done. apply Hstamps. }
      pose proof (well_formed_size _ Hwf') as Hsz. simpl in Hsz.
      split_and!; [exact Hwf'| |done|done| |]; simpl.
      * rewrite Hsz, length_app. simpl. simpl in Hlen. lia.
      * apply lookup_insert_eq.
      * apply lookup_insert_eq.
    + (* there is room *)
      unfold modify, ret. simpl.
      eexists. split; [reflexivity|].
      assert (well_formed (store now key value c)) as Hwf'.
      { apply store_well_formed.
        - done.
        - intros Hin. apply Hkeys in Hin as [? ?]. congruence.
        - intros k _. apply Hkeys.
        - intros k _. apply Hstamps. }
      pose proof (well_formed_size _ Hwf') as Hsz. simpl in Hsz.
      split_and!; [exact Hwf'| |done|done| |]; simpl.
      * rewrite Hsz, length_app. simpl. lia.
      * apply lookup_insert_eq.
      * apply lookup_insert_eq.
Qed.

Lemma Qltb_true (x y : Q) : (x < y)%Q → Qltb x y = true.
Proof.
  intros Hlt. unfold Qltb. destruct (Qle_bool y x) eqn:Hle; [|done].
  apply Qle_bool_iff in Hle. by apply Qlt_not_le in Hlt.
Qed.

Lemma Qltb_false (x y : Q) : ¬ (x < y)%Q → Qltb x y = false.
Proof.
  intros Hge. unfold Qltb. destruct (Qle_bool y x) eqn:Hle; [done|].
  exfalso. apply Hge. apply Qnot_le_lt. intros Hyx.
  apply Qle_bool_iff in Hyx. congruence.
Qed.

(** The three ways through [get]. *)
Lemma get_absent now key c :
  cache c !! key = None →
  get now key c = (Returns None, set_stats incr_misses c).
Proof. intros Hkey. unfold get, bind, read. simpl. by rewrite Hkey. Qed.

Lemma get_fresh now key c (v : V) ts l' :
  cache c !! key = Some v → timestamps c !! key = Some ts →
  (now - ts < inject_Z (ttl c))%Q →
  remove_first key (access_order c) = Some l' →
  get now key c =
    (Returns (Some v),
     set_stats incr_hits (set_access_order (λ _, l' ++ [key]) c)).
Proof.
  intros Hkey Hts Hlt Hrm. unfold get, bind, read, timestamp_of. simpl.
  rewrite Hkey, Hts. simpl. rewrite (Qltb_true _ _ Hlt).
  unfold deque_remove. rewrite Hrm. simpl. by rewrite Hkey.
Qed.

Lemma get_expired now key c (v : V) ts :
  cache c !! key = Some v → timestamps c !! key = Some ts →
  ¬ (now - ts < inject_Z (ttl c))%Q →
  get now key c =
    (Returns None,
     set_stats incr_misses (set_stats incr_expired
       (set_timestamps (delete key) (set_cache (delete key) c)))).
Proof.
  intros Hkey Hts Hge. unfold get, bind, read, timestamp_of. simpl.
  rewrite Hkey, Hts. simpl. rewrite (Qltb_false _ _ Hge).
  unfold _remove_key, del_timestamp, bind, read, modify. simpl.
  by rewrite Hkey, Hts.
Qed.

(** A cache with no room at all refuses every new key. *)
Lemma put_no_room now key (value : V) c :
  maxsize c ≤ 0 → cache c = ∅ → access_order c = [] →
  put now key value c = (Raises (IndexError "pop from an empty deque"), c).
Proof.
  intros Hcap Hempty Horder. unfold put, bind, read. simpl.
  rewrite Hempty, lookup_empty, map_size_empty.
  destruct (Z.of_nat 0 >=? maxsize c) eqn:Hfull.
  - unfold deque_popleft. by rewrite Horder.
  - rewrite Z.geb_leb in Hfull. apply Z.leb_gt in Hfull. simpl in Hfull. lia.
Qed.

(** What a trace of [put]s keeps true of a cache of capacity at least 1. *)
Definition bounded (m : Z) c : Prop :=
  well_formed c ∧ maxsize c = m ∧ Z.of_nat (size (cache c)) ≤ m.

Lemma puts_bounded m (ops : list (op V)) c :
  1 ≤ m → forallb is_put ops = true → bounded m c →
  bounded m (exec ops c) ∧ all_returned ops c = true.
Proof.
  intros Hm. revert c. induction ops as [|o ops IH]; intros c Hputs Hc.
  - done.
  - simpl in Hputs. apply andb_true_iff in Hputs as [Ho Hputs].
    destruct o as [| now key value |]; try done.
    destruct Hc as (Hwf & Hmax & Hsize).
    destruct (put_result now key value c Hwf) as (c' & Hput & Hwf' & Hsize' & Hmax' & _);
      [lia..|].
    simpl. rewrite Hput. simpl. apply IH; [done|].
    split_and!; [done|congruence|lia].
Qed.

Lemma puts_no_room (ops : list (op V)) c :
  forallb is_put ops = true →
  maxsize c ≤ 0 → cache c = ∅ → access_order c = [] →
  exec ops c = c.
Proof.
  induction ops as [|o ops IH]; intros Hputs Hcap Hempty Horder; [done|].
  simpl in Hputs. apply andb_true_iff in Hputs as [Ho Hputs].
  destruct o as [| now key value |]; try done.
  simpl. rewrite put_no_room by done. simpl. by apply IH.
Qed.

(** The counters of [self.stats], compared one by one. *)
Definition counters_le (s s' : Stats) : Prop :=
  hits s ≤ hits s' ∧ misses s ≤ misses s' ∧
  evictions s ≤ evictions s' ∧ expired s ≤ expired s'.

Lemma counters_le_refl s : counters_le s s.
Proof. unfold counters_le. lia. Qed.

Lemma counters_le_trans s1 s2 s3 :
  counters_le s1 s2 → counters_le s2 s3 → counters_le s1 s3.
Proof. unfold counters_le. lia. Qed.

Ltac run_cache :=
  unfold get, put, _remove_key, deque_remove, deque_popleft, timestamp_of,
    del_timestamp, bind, read, modify, ret, raise; simpl.

Lemma step_counters c (o : op V) : counters_le (stats c) (stats (step c o)).
Proof.
  destruct o as [now key | now key value |]; simpl.
  - run_cache. repeat (case_match; simplify_eq/=); unfold counters_le; simpl; lia.
  - run_cache. repeat (case_match; simplify_eq/=); unfold counters_le; simpl; lia.
  - apply counters_le_refl.
Qed.

Lemma exec_counters (ops : list (op V)) c :
  counters_le (stats c) (stats (exec ops c)).
Proof.
  revert c. induction ops as [|o ops IH]; intros c; simpl.
  - apply counters_le_refl.
  - eapply counters_le_trans; [apply step_counters|apply IH].
Qed.

(** [put] leaves the counters of lookups alone. *)
Lemma put_lookup_counters now key (value : V) c :
  hits (stats (snd (put now key value c))) = hits (stats c) ∧
  misses (stats (snd (put now key value c))) = misses (stats c) ∧
  expired (stats (snd (put now key value c))) = expired (stats c).
Proof. run_cache. repeat (case_match; simplify_eq/=); done. Qed.

(** C2 (the code departs from it). A [get] that finds an expired entry
    deletes the key from the mapping and from the timestamps, and leaves its
    node in the access order: the cache then has fewer keys than the access
    order has nodes, and the invariant of the specification is lost. *)
Theorem expired_get_keeps_access_order_node now key c (v : V) ts :
  well_formed c →
  cache c !! key = Some v → timestamps c !! key = Some ts →
  ¬ (now - ts < inject_Z (ttl c))%Q →
  let c' := snd (get now key c) in
  fst (get now key c) = Returns None ∧
  cache c' !! key = None ∧
  access_order c' = access_order c ∧
  key ∈ access_order c' ∧
  S (size (cache c')) = length (access_order c') ∧
  ¬ consistent c'.
Proof.
  intros Hwf Hkey Hts Hexp. rewrite (get_expired now key c v ts) by done.
  simpl.
  assert (key ∈ access_order c) as Hin by (apply Hwf; by eexists).
  assert (S (size (delete key (cache c))) = length (access_order c)) as Hsz.
  { rewrite <- (well_formed_size c Hwf).
    rewrite map_size_delete_Some by (by eexists).
    assert (size (cache c) ≠ 0%nat); [|lia].
    apply (map_size_ne_0_lookup_2 _ key). by eexists. }
  split_and!; [done|apply lookup_delete_eq|done|done|done|].
  intros [Hsize _]. simpl in Hsize. lia.
Qed.

(** C6. From the empty cache, after any trace of [put]s the number of
    entries is at most [maxsize]; with room for at least one entry no
    [put] raises; and a [put] of a new key at capacity evicts the key at
    the left end of the access order. *)
Theorem put_only_size_bounded (maxsize ttl : Z) (ops : list (op V)) :
  0 ≤ maxsize → forallb is_put ops = true →
  let c := exec ops (init maxsize ttl) in
  Z.of_nat (size (cache c)) ≤ maxsize ∧
  (1 ≤ maxsize → all_returned ops (init maxsize ttl) = true) ∧
  (∀ now key value oldest rest,
     cache c !! key = None →
     Z.of_nat (size (cache c)) = maxsize →
     access_order c = oldest :: rest →
     fst (put now key value c) = Returns tt ∧
     cache (snd (put now key value c)) = <[key:=value]> (delete oldest (cache c)) ∧
     access_order (snd (put now key value c)) = rest ++ [key] ∧
     evictions (stats (snd (put now key value c))) = evictions (stats c) + 1).
Proof.
  intros Hcap Hputs c.
  destruct (decide (maxsize = 0)) as [->|Hpos].
  - (* no room: every put raises and the cache stays empty *)
    assert (c = init 0 ttl) as Hc by (by apply puts_no_room).
    rewrite Hc. simpl. split_and!; [done|lia|].
    intros ??????? Horder. done.
  - assert (bounded maxsize (init maxsize ttl)) as Hinit.
    { split_and!; [apply init_well_formed|done|].
      simpl. rewrite map_size_empty. lia. }
    destruct (puts_bounded maxsize ops _ ltac:(lia) Hputs Hinit)
      as [(Hwf & Hmax & Hsize) Hret].
    fold c in Hwf, Hmax, Hsize. split_and!; [done|done|].
    intros now key value oldest rest Hkey Hfull Horder.
    destruct Hwf as [Hnd Hkeys Hstamps].
    assert (is_Some (cache c !! oldest)) as [vo Hvo].
    { apply Hkeys. rewrite Horder. by left. }
    assert (is_Some (timestamps c !! oldest)) as [to Hto].
    { apply Hstamps. by eexists. }
    run_cache. rewrite Hkey, Hmax.
    destruct (Z.of_nat (size (cache c)) >=? maxsize) eqn:Hge; [|lia].
    rewrite Horder. simpl. rewrite Hvo. simpl. rewrite Hto. simpl. done.
Qed.

(** C7. Putting a key that is present overwrites its value and its
    timestamp.  With a TTL of 10 s: after [put(k, 1)] at 0 s and
    [put(k, 2)] at 9 s, [get(k)] at 15 s is a hit returning 2, although the
    entry written at 0 s alone would have expired by then. *)
Theorem reput_refreshes_ttl (maxsize : Z) key (v1 v2 : V) :
  1 ≤ maxsize →
  (∀ c now (value : V),
     is_Some (cache c !! key) → key ∈ access_order c →
     fst (put now key value c) = Returns tt ∧
     cache (snd (put now key value c)) !! key = Some value ∧
     timestamps (snd (put now key value c)) !! key = Some now) ∧
  let c1 := snd (put 0 key v1 (init maxsize 10)) in
  let c2 := snd (put 9 key v2 c1) in
  fst (put 0 key v1 (init maxsize 10)) = Returns tt ∧
  fst (put 9 key v2 c1) = Returns tt ∧
  timestamps c2 !! key = Some 9%Q ∧
  fst (get 15 key c2) = Returns (Some v2) ∧
  hits (stats (snd (get 15 key c2))) = 1 ∧
  expired (stats (snd (get 15 key c2))) = 0 ∧
  fst (get 15 key c1) = Returns None.
Proof.
  intros Hcap. split.
  - intros c now value [old Hold] Hin.
    destruct (remove_first_present key _ Hin) as [l' Hrm].
    run_cache. rewrite Hold. simpl. rewrite Hrm. simpl.
    by rewrite !lookup_insert_eq.
  - intros c1 c2.
    destruct (put_result 0 key v1 (init maxsize 10) (init_well_formed _ _))
      as (c1' & Hput1 & Hwf1 & Hsize1 & Hmax1 & Httl1 & Hv1 & Hts1);
      [simpl; rewrite ?map_size_empty; lia..|].
    assert (c1 = c1') as Hc1 by (unfold c1; by rewrite Hput1).
    destruct (put_result 9 key v2 c1' Hwf1)
      as (c2' & Hput2 & Hwf2 & Hsize2 & Hmax2 & Httl2 & Hv2 & Hts2);
      [simpl in *; lia..|].
    assert (c2 = c2') as Hc2 by (unfold c2; by rewrite Hc1, Hput2).
    assert (key ∈ access_order c2') as Hin by (apply Hwf2; by eexists).
    destruct (remove_first_present key _ Hin) as [l' Hrm].
    assert (ttl c2' = 10) as Httl by (simpl in *; congruence).
    rewrite Hput1, Hc1, Hput2, Hc2. simpl.
    rewrite (get_fresh 15 key c2' v2 9 l') by (by rewrite ?Httl).
    rewrite (get_expired 15 key c1' v1 0)
      by (rewrite ?Httl1; simpl; done).
    simpl.
    destruct (put_lookup_counters 9 key v2 c1') as (Hh2 & _ & He2).
    destruct (put_lookup_counters 0 key v1 (init maxsize 10)) as (Hh1 & _ & He1).
    rewrite Hput2 in Hh2, He2. rewrite Hput1 in Hh1, He1. simpl in *.
    split_and!; [done..| | |done]; lia.
Qed.

(** C10. [clear] empties the mapping, the timestamps and the access
    order and leaves the four counters as they are; no call ever lowers a
    counter; so [get_stats] after [clear] reports the counts of before the
    call: its hits, misses, evictions and expirations are the four
    counters the cache had, its total and its hit rate are the ones
    computed from them, as [get_stats] reported them before, and the cache
    size is 0. *)
Theorem clear_keeps_counters c :
  cache (clear c) = ∅ ∧ timestamps (clear c) = ∅ ∧ access_order (clear c) = [] ∧
  stats (clear c) = stats c ∧
  (∀ (c0 : LRUCache.t V) o, counters_le (stats c0) (stats (step c0 o))) ∧
  (∀ (c0 : LRUCache.t V) ops, counters_le (stats c0) (stats (exec ops c0))) ∧
  r_hits (get_stats (clear c)) = hits (stats c) ∧
  r_misses (get_stats (clear c)) = misses (stats c) ∧
  r_evictions (get_stats (clear c)) = evictions (stats c) ∧
  r_expired (get_stats (clear c)) = expired (stats c) ∧
  r_total_requests (get_stats (clear c)) = hits (stats c) + misses (stats c) ∧
  r_hit_rate (get_stats (clear c))
  = (if hits (stats c) + misses (stats c) >? 0
     then PyFloat.quotient (hits (stats c)) (hits (stats c) + misses (stats c))
     else 0%float) ∧
  r_cache_size (get_stats (clear c)) = 0%nat ∧
  r_hits (get_stats c) = hits (stats c) ∧
  r_misses (get_stats c) = misses (stats c) ∧
  r_evictions (get_stats c) = evictions (stats c) ∧
  r_expired (get_stats c) = expired (stats c) ∧
  r_total_requests (get_stats (clear c)) = r_total_requests (get_stats c) ∧
  r_hit_rate (get_stats (clear c)) = r_hit_rate (get_stats c).
Proof.
  split_and!; try done.
  - apply step_counters.
  - intros c0 ops. apply exec_counters.
Qed.

End CacheProperties.

(** C8. With room for two entries, [put(a, 1); put(b, 2); put(c, 3)]
    evicts [a]: afterwards [get(a)] is a miss, and [get(b)] and [get(c)],
    made before their entries expire, return 2 and 3. *)
Theorem third_put_evicts_least_recent (ttl : Z) (t1 t2 t3 t4 t5 t6 : Q) :
  (t5 - t2 < inject_Z ttl)%Q → (t6 - t3 < inject_Z ttl)%Q →
  let c3 := LRUCache.exec
              [LRUCache.Put t1 "a" 1; LRUCache.Put t2 "b" 2; LRUCache.Put t3 "c" 3]
              (LRUCache.init 2 ttl) in
  let c4 := snd (LRUCache.get t4 "a" c3) in
  let c5 := snd (LRUCache.get t5 "b" c4) in
  LRUCache.all_returned
    [LRUCache.Put t1 "a" 1; LRUCache.Put t2 "b" 2; LRUCache.Put t3 "c" 3]
    (LRUCache.init 2 ttl) = true ∧
  LRUCache.cache c3 !! "a" = None ∧
  LRUCache.access_order c3 = ["b"; "c"] ∧
  LRUCache.evictions (LRUCache.stats c3) = 1 ∧
  fst (LRUCache.get t4 "a" c3) = Returns None ∧
  fst (LRUCache.get t5 "b" c4) = Returns (Some 2) ∧
  fst (LRUCache.get t6 "c" c5) = Returns (Some 3).
Proof.
  intros Hb Hc c3 c4 c5.
  assert (LRUCache.cache c3 !! "a" = None) as Ha3 by (vm_compute; reflexivity).
  assert (c4 = LRUCache.set_stats LRUCache.incr_misses c3) as Hc4.
  { unfold c4. by rewrite get_absent. }
  assert (LRUCache.get t5 "b" c4 =
            (Returns (Some 2),
             LRUCache.set_stats LRUCache.incr_hits
               (LRUCache.set_access_order (λ _, ["c"] ++ ["b"]) c4))) as Hget5.
  { apply (get_fresh t5 "b" c4 2 t2 ["c"]); rewrite Hc4.
    - vm_compute; reflexivity.
    - vm_compute; reflexivity.
    - exact Hb.
    - vm_compute; reflexivity. }
  assert (LRUCache.get t6 "c" c5 =
            (Returns (Some 3),
             LRUCache.set_stats LRUCache.incr_hits
               (LRUCache.set_access_order (λ _, ["b"] ++ ["c"]) c5))) as Hget6.
  { apply (get_fresh t6 "c" c5 3 t3 ["b"]); unfold c5; rewrite Hget5, Hc4.
    - vm_compute; reflexivity.
    - vm_compute; reflexivity.
    - exact Hc.
    - vm_compute; reflexivity. }
  split_and!.
  - vm_compute; reflexivity.
  - exact Ha3.
  - vm_compute; reflexivity.
  - vm_compute; reflexivity.
  - by rewrite get_absent.
  - by rewrite Hget5.
  - by rewrite Hget6.
Qed.

(** *** The cache on concrete traces *)

Definition one_entry : LRUCache.t Z :=
  LRUCache.exec [LRUCache.Put 0 "k" 1] (LRUCache.init 2 10).

Lemma one_entry_well_formed : LRUCache.well_formed one_entry.
Proof.
  apply (puts_bounded 2 [LRUCache.Put 0 "k" 1] (LRUCache.init 2 10)).
  - lia.
  - reflexivity.
  - split_and!; [apply init_well_formed|reflexivity|by vm_compute].
Qed.

Lemma expired_get_keeps_access_order_node_witness :
  let c' := snd (LRUCache.get 10 "k" one_entry) in
  fst (LRUCache.get 10 "k" one_entry) = Returns None ∧
  LRUCache.cache c' !! "k" = None ∧
  LRUCache.access_order c' = LRUCache.access_order one_entry ∧
  "k" ∈ LRUCache.access_order c' ∧
  S (size (LRUCache.cache c')) = length (LRUCache.access_order c') ∧
  ¬ LRUCache.consistent c'.
Proof.
  apply (expired_get_keeps_access_order_node 10 "k" one_entry 1 0).
  - exact one_entry_well_formed.
  - vm_compute; reflexivity.
  - vm_compute; reflexivity.
  - vm_compute. intros H; discriminate H.
Defined.

(** The state in full: [put("k", 1)] at 0 s and [get("k")] at 10 s, the
    TTL being 10 s. *)
Example expired_get_state :
  let c' := LRUCache.exec [LRUCache.Put 0 "k" 1; LRUCache.Get 10 "k"]
              (LRUCache.init 2 10) in
  LRUCache.cache c' = ∅ ∧ LRUCache.timestamps c' = ∅ ∧
  LRUCache.access_order c' = ["k"] ∧
  LRUCache.expired (LRUCache.stats c') = 1 ∧
  LRUCache.misses (LRUCache.stats c') = 1.
Proof. vm_compute. done. Qed.

(** The stale node later lets the cache grow past its capacity: the
    eviction of a fourth call pops it and deletes nothing. *)
Example stale_node_defeats_eviction :
  let ops := [LRUCache.Put 0 "a" 1; LRUCache.Get 10 "a"; LRUCache.Put 11 "a" 1;
              LRUCache.Put 12 "b" 2; LRUCache.Put 13 "c" 3] in
  let c' := LRUCache.exec ops (LRUCache.init 1 10) in
  LRUCache.all_returned ops (LRUCache.init 1 10) = true ∧
  size (LRUCache.cache c') = 2%nat ∧
  LRUCache.maxsize c' = 1 ∧
  LRUCache.access_order c' = ["b"; "c"].
Proof. vm_compute. done. Qed.

Lemma put_only_size_bounded_witness :
  let ops := [LRUCache.Put 0 "a" 1; LRUCache.Put 1 "b" 2; LRUCache.Put 2 "c" 3] in
  (0 ≤ 2 ∧ forallb LRUCache.is_put ops = true) ∧
  Z.of_nat (size (LRUCache.cache (LRUCache.exec ops (LRUCache.init 2 10)))) ≤ 2.
Proof.
  split; [split; [lia|reflexivity]|].
  apply (put_only_size_bounded (V:=Z) 2 10); [lia|reflexivity].
Defined.

Lemma reput_refreshes_ttl_witness :
  let c1 := snd (LRUCache.put 0 "k" 1 (LRUCache.init 1000 10)) in
  let c2 := snd (LRUCache.put 9 "k" 2 c1) in
  1 ≤ 1000 ∧
  fst (LRUCache.get 15 "k" c2) = Returns (Some 2) ∧
  fst (LRUCache.get 15 "k" c1) = Returns None.
Proof.
  split; [lia|].
  destruct (reput_refreshes_ttl (V:=Z) 1000 "k" 1 2 ltac:(lia))
    as (_ & _ & _ & _ & Hhit & _ & _ & Hmiss).
  exact (conj Hhit Hmiss).
Defined.

Lemma third_put_evicts_least_recent_witness :
  let c3 := LRUCache.exec
              [LRUCache.Put 0 "a" 1; LRUCache.Put 1 "b" 2; LRUCache.Put 2 "c" 3]
              (LRUCache.init 2 3600) in
  let c4 := snd (LRUCache.get 3 "a" c3) in
  let c5 := snd (LRUCache.get 4 "b" c4) in
  ((4 - 1 < inject_Z 3600)%Q ∧ (5 - 2 < inject_Z 3600)%Q) ∧
  fst (LRUCache.get 3 "a" c3) = Returns None ∧
  fst (LRUCache.get 4 "b" c4) = Returns (Some 2) ∧
  fst (LRUCache.get 5 "c" c5) = Returns (Some 3).
Proof.
  split; [split; reflexivity|].
  destruct (third_put_evicts_least_recent 3600 0 1 2 3 4 5
              ltac:(reflexivity) ltac:(reflexivity))
    as (_ & _ & _ & _ & Ha & Hb & Hc).
  exact (conj Ha (conj Hb Hc)).
Defined.

(** ** The percentile *)

Section PercentileProperties.
Context {A : Type} (leb : A → A → bool) (zero : A).

Import PerformanceMonitor.

Abbreviation le := (λ x y, leb x y = true).

Lemma insert_sorted_perm x (l : list A) : insert_sorted leb x l ≡ₚ x :: l.
Proof.
  induction l as [|y l IH]; simpl; [done|].
  destruct (leb x y); [done|]. rewrite IH. apply Permutation_swap.
Qed.

Lemma sorted_perm (l : list A) : sorted leb l ≡ₚ l.
Proof.
  induction l as [|x l IH]; simpl; [done|].
  unfold sorted in *. simpl. by rewrite insert_sorted_perm, IH.
Qed.

Lemma sorted_length (l : list A) : length (sorted leb l) = length l.
Proof. by rewrite sorted_perm. Qed.

Section Ascending.
Hypothesis leb_total : ∀ x y, leb x y = true ∨ leb y x = true.

Lemma insert_sorted_ascending x (l : list A) :
  Sorted le l → Sorted le (insert_sorted leb x l).
Proof.
  induction 1 as [|y l Hl IH Hy]; simpl.
  - by repeat constructor.
  - destruct (leb x y) eqn:Hxy.
    + by repeat constructor.
    + constructor; [done|].
      assert (leb y x = true) as Hyx by (destruct (leb_total x y); congruence).
      destruct Hy as [|z l Hyz]; simpl; [by constructor|].
      destruct (leb x z); by constructor.
Qed.

Lemma sorted_ascending (l : list A) : Sorted le (sorted leb l).
Proof.
  induction l as [|x l IH]; [constructor|].
  unfold sorted in *. simpl. by apply insert_sorted_ascending.
Qed.

End Ascending.

(** For the two percentiles the monitor asks for, and every history the
    monitor can hold, the index computed in double precision is the exact
    integer quotient. *)
Definition index_is_exact (percentile : Z) (n : nat) : bool :=
  match percentile_index percentile n with
  | Returns index => index =? percentile * Z.of_nat n / 100
  | Raises _ => false
  end.

Lemma percentile_index_95_99 :
  forallb (λ n, index_is_exact 95 n && index_is_exact 99 n)
    (seq 0 (Z.to_nat 10001)) = true.
Proof. vm_compute. reflexivity. Qed.

Lemma percentile_index_exact (percentile : Z) (n : nat) :
  percentile = 95 ∨ percentile = 99 → Z.of_nat n ≤ 10000 →
  percentile_index percentile n = Returns (percentile * Z.of_nat n / 100).
Proof.
  intros Hp Hn.
  pose proof percentile_index_95_99 as Hall.
  rewrite forallb_forall in Hall.
  specialize (Hall n). rewrite in_seq in Hall.
  specialize (Hall ltac:(lia)). apply andb_true_iff in Hall as [H95 H99].
  unfold index_is_exact in H95, H99.
  destruct Hp as [-> | ->].
  - destruct (percentile_index 95 n); [|done]. f_equal. lia.
  - destruct (percentile_index 99 n); [|done]. f_equal. lia.
Qed.

(** In other cases the double-precision product falls short of the exact
    one: 0.29 * 100 is 28.999999999999996. *)
Example percentile_index_29 : percentile_index 29 100 = Returns 28.
Proof. vm_compute. reflexivity. Qed.

(** The indexing rule of [_percentile]. *)
Lemma percentile_floor_rule (data : list A) (percentile : Z) :
  (∀ x y, leb x y = true ∨ leb y x = true) →
  percentile = 95 ∨ percentile = 99 →
  1 ≤ Z.of_nat (length data) ≤ 10000 →
  let n := Z.of_nat (length data) in
  _percentile leb zero data percentile =
    Returns (nth (Z.to_nat (Z.min (percentile * n / 100) (n - 1)))
               (sorted leb data) zero) ∧
  sorted leb data ≡ₚ data ∧
  Sorted le (sorted leb data).
Proof.
  intros Htotal Hp [Hlo Hhi] n.
  split_and!; [|apply sorted_perm|by apply sorted_ascending].
  unfold _percentile. destruct data as [|x data']; [simpl in Hlo; lia|].
  rewrite sorted_length.
  rewrite percentile_index_exact by done. fold n.
  set (index := Z.min (percentile * n / 100) (n - 1)).
  assert (0 ≤ percentile * n / 100) as Hnonneg.
  { apply Z.div_pos; [|done]. destruct Hp as [-> | ->]; lia. }
  assert (0 ≤ index < n) as Hrange by (unfold index, n in *; lia).
  unfold getitem.
  destruct (index <? 0) eqn:Hneg; [lia|]. rewrite Hneg.
  destruct (lookup_lt_is_Some_2 (sorted leb (x :: data')) (Z.to_nat index))
    as [y Hy].
  { rewrite sorted_length. unfold n in Hrange. lia. }
  rewrite Hy. f_equal. symmetry. by apply nth_lookup_Some.
Qed.

End PercentileProperties.

Lemma Qle_bool_total (x y : Q) : Qle_bool x y = true ∨ Qle_bool y x = true.
Proof.
  rewrite !Qle_bool_iff.
  destruct (Qlt_le_dec x y) as [Hlt|Hle]; [left; by apply Qlt_le_weak|by right].
Qed.

(** The durations 1, 2, ..., 100 s. *)
Definition durations_1_100 : list Q :=
  map (λ i, inject_Z (Z.of_nat i)) (seq 1 100).

(** A monitor that has recorded one metric for each of them, at time 0. *)
Definition monitor_1_100 : PerformanceMonitor.t :=
  foldl
    (λ m d, PerformanceMonitor.record_metric
              (CursorAIOptimizer.request_metric d false 0 true None) m)
    PerformanceMonitor.init durations_1_100.

(** The [k]-th value of the durations in ascending order, counting from 1. *)
Definition kth_ascending (k : nat) (data : list Q) : Q :=
  nth (k - 1) (PerformanceMonitor.sorted Qle_bool data) 0%Q.

(** C4, the claim as stated fails. For the durations 1..100 the 95th
    percentile is 96 s, the value at index 95 counting from 0, whereas the
    95th value in ascending order is 95 s. *)
Lemma p95_is_not_the_95th_value :
  ∃ p95,
    PerformanceMonitor._percentile Qle_bool 0%Q durations_1_100 95 = Returns p95 ∧
    kth_ascending 95 durations_1_100 = 95%Q ∧
    ¬ (p95 == kth_ascending 95 durations_1_100)%Q.
Proof.
  exists 96%Q. split_and!.
  - vm_compute. reflexivity.
  - vm_compute. reflexivity.
  - vm_compute. intros H; discriminate H.
Qed.

(** C4, as amended. The 95th and the 99th percentile of [n] durations,
    [n] between 1 and the capacity of the history, are the element of the
    ascending list at index [floor(p * n / 100)], or at the last index if
    that is smaller, the ascending list being a permutation of the
    durations in order. For the 100 durations 1..100 the 95th percentile,
    alone and in the summary, is the value at index 95, that is the 96th
    value in ascending order, 96 s. *)
Theorem percentile_is_floor_index :
  (∀ (A : Type) (leb : A → A → bool) (zero : A) (data : list A) (percentile : Z),
     (∀ x y, leb x y = true ∨ leb y x = true) →
     percentile = 95 ∨ percentile = 99 →
     1 ≤ Z.of_nat (length data) ≤ 10000 →
     let n := Z.of_nat (length data) in
     PerformanceMonitor._percentile leb zero data percentile =
       Returns (nth (Z.to_nat (Z.min (percentile * n / 100) (n - 1)))
                  (PerformanceMonitor.sorted leb data) zero) ∧
     PerformanceMonitor.sorted leb data ≡ₚ data ∧
     Sorted (λ x y, leb x y = true) (PerformanceMonitor.sorted leb data)) ∧
  PerformanceMonitor._percentile Qle_bool 0%Q durations_1_100 95 = Returns 96%Q ∧
  kth_ascending 96 durations_1_100 = 96%Q ∧
  match PerformanceMonitor.get_performance_summary 10 3600 monitor_1_100 with
  | Returns (Some summary) =>
      PerformanceMonitor.total_requests summary = 100%nat ∧
      PerformanceMonitor.p95_response_time summary = 96%Q ∧
      PerformanceMonitor.p99_response_time summary = 100%Q
  | _ => False
  end.
Proof.
  split_and!.
  - intros A leb zero data percentile. apply percentile_floor_rule.
  - vm_compute. reflexivity.
  - vm_compute. reflexivity.
  - vm_compute. done.
Qed.

Lemma percentile_is_floor_index_witness :
  ((95 = 95 ∨ 95 = 99) ∧ 1 ≤ Z.of_nat (length [3; 1; 2]%Q) ≤ 10000) ∧
  PerformanceMonitor._percentile Qle_bool 0%Q [3; 1; 2]%Q 95 =
    Returns (nth (Z.to_nat (Z.min (95 * 3 / 100) (3 - 1)))
               (PerformanceMonitor.sorted Qle_bool [3; 1; 2]%Q) 0%Q).
Proof.
  split; [split; [by left|simpl; lia]|].
  destruct percentile_is_floor_index as [Hrule _].
  apply (Hrule Q Qle_bool 0%Q [3; 1; 2]%Q 95 Qle_bool_total).
  - by left.
  - simpl; lia.
Defined.

(** ** The prompt optimizer *)

Section PromptOptimizerProperties.
Variable clock : nat → Q.
Variable md5_hexdigest : string → outcome string.

Import PromptOptimizer.

(** The cache calls, run from a state [w]. *)
Lemma cache_get_run {St V} (f : Field St (LRUCache.t V)) key (w : Timed St) :
  cache_get clock f key w =
    (fst (LRUCache.get (clock (ticks w)) key (view f (obj w))),
     {| ticks := S (ticks w);
        obj := update f (snd (LRUCache.get (clock (ticks w)) key (view f (obj w))))
                 (obj w) |}).
Proof.
  unfold cache_get, bind, time_time, within. simpl.
  by destruct (LRUCache.get _ _ _) as [[?|?] ?].
Qed.

Lemma cache_put_run {St V} (f : Field St (LRUCache.t V)) key (value : V)
  (w : Timed St) :
  cache_put clock f key value w =
    (fst (LRUCache.put (clock (ticks w)) key value (view f (obj w))),
     {| ticks := S (ticks w);
        obj := update f
                 (snd (LRUCache.put (clock (ticks w)) key value (view f (obj w))))
                 (obj w) |}).
Proof.
  unfold cache_put, bind, time_time, within. simpl.
  by destruct (LRUCache.put _ _ _ _) as [[?|?] ?].
Qed.

Lemma put_room {V} now key (value : V) (c : LRUCache.t V) :
  LRUCache.cache c !! key = None →
  Z.of_nat (size (LRUCache.cache c)) < LRUCache.maxsize c →
  LRUCache.put now key value c = (Returns tt, store now key value c).
Proof.
  intros Hkey Hroom. unfold LRUCache.put, bind, read. simpl. rewrite Hkey.
  destruct (Z.of_nat (size (LRUCache.cache c)) >=? LRUCache.maxsize c) eqn:Hge;
    [lia|done].
Qed.

Lemma ratio_of_empty {St} optimized_length (s : St) :
  ratio optimized_length 0 s = (Raises (ZeroDivisionError "division by zero"), s).
Proof. reflexivity. Qed.

Lemma ratio_of_nonempty {St} optimized_length original_length (s : St) :
  original_length ≠ 0%nat →
  ratio optimized_length original_length s =
    (Returns (PrimFloat.sub 1%float
                (PyFloat.quotient (Z.of_nat optimized_length)
                   (Z.of_nat original_length))), s).
Proof.
  intros Hlen. unfold ratio, PyFloat.true_div, bind.
  destruct (Z.of_nat original_length =? 0) eqn:Hz; [lia|done].
Qed.

(** The metrics of a first call. *)
Definition fresh_metrics (prompt domain : string) (optimization_time : Q) : Metrics :=
  {| original_length := PyStr.len prompt;
     optimized_length := PyStr.len (fst (rewrite prompt domain));
     compression_ratio :=
       PrimFloat.sub 1%float
         (PyFloat.quotient (Z.of_nat (PyStr.len (fst (rewrite prompt domain))))
            (Z.of_nat (PyStr.len prompt)));
     optimization_time := optimization_time;
     optimizations_applied := snd (rewrite prompt domain);
     domain := domain |}.

(** A call that misses the cache, on a prompt that is not empty: the
    rewritten prompt is returned and stored under the key. *)
Lemma optimize_prompt_miss prompt domain cache_key (w : Timed t) :
  md5_hexdigest (prompt +:+ ":" +:+ domain) = Returns cache_key →
  LRUCache.cache (optimization_cache (obj w)) !! cache_key = None →
  Z.of_nat (size (LRUCache.cache (optimization_cache (obj w))))
    < LRUCache.maxsize (optimization_cache (obj w)) →
  prompt ≠ EmptyString →
  let i := ticks w in
  let metrics :=
    fresh_metrics prompt domain (clock (2 + i)%nat - clock (1 + i)%nat)%Q in
  let result :=
    {| optimized_prompt := fst (rewrite prompt domain); metrics := metrics |} in
  optimize_prompt clock md5_hexdigest prompt domain w =
    (Returns (fst (rewrite prompt domain), metrics),
     {| ticks := (5 + i)%nat;
        obj := record_history
                 {| operation := "prompt_optimization";
                    duration := (clock (2 + i)%nat - clock (1 + i)%nat)%Q;
                    memory_usage := 0; cpu_usage := 0; cache_hit := false;
                    timestamp := clock (4 + i)%nat;
                    success := true; error_message := None |}
                 (update optimization_cache_field
                    (store (clock (3 + i)%nat) cache_key result
                       (LRUCache.set_stats LRUCache.incr_misses
                          (optimization_cache (obj w))))
                    (obj w)) |}).
Proof.
  intros Hkey Hmiss Hroom Hprompt i metrics result.
  unfold optimize_prompt, hexdigest, bind. cbv beta.
  rewrite Hkey, cache_get_run. cbn [fst snd].
  rewrite get_absent by done. cbn [fst snd].
  destruct (rewrite prompt domain) as [optimized applied] eqn:Hrw.
  unfold time_time. cbn [ticks obj fst snd].
  rewrite ratio_of_nonempty by (by destruct prompt).
  rewrite cache_put_run. simpl.
  rewrite put_room by done. simpl.
  unfold result, metrics, fresh_metrics. rewrite Hrw. done.
Qed.

(** A call that finds a cached result that has not expired returns it. *)
Lemma optimize_prompt_hit prompt domain cache_key (w : Timed t) r ts l' :
  md5_hexdigest (prompt +:+ ":" +:+ domain) = Returns cache_key →
  LRUCache.cache (optimization_cache (obj w)) !! cache_key = Some r →
  LRUCache.timestamps (optimization_cache (obj w)) !! cache_key = Some ts →
  (clock (ticks w) - ts < inject_Z (LRUCache.ttl (optimization_cache (obj w))))%Q →
  LRUCache.remove_first cache_key
    (LRUCache.access_order (optimization_cache (obj w))) = Some l' →
  optimize_prompt clock md5_hexdigest prompt domain w =
    (Returns (optimized_prompt r, metrics r),
     {| ticks := S (ticks w);
        obj := update optimization_cache_field
                 (LRUCache.set_stats LRUCache.incr_hits
                    (LRUCache.set_access_order (λ _, l' ++ [cache_key])
                       (optimization_cache (obj w))))
                 (obj w) |}).
Proof.
  intros Hkey Hcached Hts Hfresh Hrm.
  unfold optimize_prompt, hexdigest, bind. cbv beta.
  rewrite Hkey, cache_get_run. cbn [fst snd].
  by rewrite (get_fresh _ _ _ r ts l').
Qed.

(** C5 (the code departs from it). On an empty prompt that is not in the
    cache, [optimize_prompt] raises [ZeroDivisionError] at the compression
    ratio, and stores nothing: a later call raises again. *)
Theorem empty_prompt_raises domain cache_key (w : Timed t) :
  md5_hexdigest (EmptyString +:+ ":" +:+ domain) = Returns cache_key →
  LRUCache.cache (optimization_cache (obj w)) !! cache_key = None →
  fst (optimize_prompt clock md5_hexdigest EmptyString domain w) =
    Raises (ZeroDivisionError "division by zero") ∧
  LRUCache.cache
    (optimization_cache
       (obj (snd (optimize_prompt clock md5_hexdigest EmptyString domain w))))
    !! cache_key = None.
Proof.
  intros Hkey Hmiss.
  unfold optimize_prompt, hexdigest, bind. cbv beta.
  rewrite Hkey, cache_get_run. cbn [fst snd].
  rewrite get_absent by done. cbn [fst snd].
  destruct (rewrite EmptyString domain) as [optimized applied].
  unfold time_time. cbn [ticks obj fst snd PyStr.len String.length].
  by rewrite ratio_of_empty.
Qed.

(** Reading a field through the record operations, without touching the
    texts. *)
Ltac project :=
  cbn [fst snd obj ticks view update app
       optimization_cache performance_history optimization_cache_field init
       LRUCache.init LRUCache.cache LRUCache.timestamps LRUCache.access_order
       LRUCache.ttl LRUCache.maxsize LRUCache.stats LRUCache.set_cache
       LRUCache.set_timestamps LRUCache.set_access_order LRUCache.set_stats
       LRUCache.incr_hits LRUCache.incr_misses LRUCache.hits LRUCache.misses
       LRUCache.remove_first].

(** The text returned for "Could you please analyze my pipeline". *)
Definition analyze_prompt : string := "Could you please analyze my pipeline".

Definition analyze_optimized : string :=
  "Could you analyze my pipeline Provide response in structured JSON format with clear sections for analysis, recommendations, and implementation steps. Focus on actionable, production-ready solutions with specific commands and configurations.".

(** C3 (the code departs from it). On a new optimizer,
    [optimize_prompt("Could you please analyze my pipeline", "devops")]
    removes "please" and appends the JSON instruction, but the returned
    text still starts with "Could you", although the tag of its removal is
    recorded: the phrase is looked for in the lowered text and replaced in
    the text as written. A second call made before the entry expires is a
    cache hit and returns the same text and metrics. *)
Theorem could_you_survives_optimization cache_key :
  md5_hexdigest (analyze_prompt +:+ ":" +:+ "devops") = Returns cache_key →
  (clock 5 - clock 3 < inject_Z 7200)%Q →
  let w0 := {| ticks := 0; obj := PromptOptimizer.init |} in
  let first := optimize_prompt clock md5_hexdigest analyze_prompt "devops" w0 in
  let second :=
    optimize_prompt clock md5_hexdigest analyze_prompt "devops" (snd first) in
  ∃ metrics,
    fst first = Returns (analyze_optimized, metrics) ∧
    optimizations_applied metrics =
      ["removed_redundant: please"; "removed_redundant: could you";
       "applied_devops_optimizations"] ∧
    PyStr.contains "please" (PyStr.lower analyze_optimized) = false ∧
    PyStr.contains "could you" (PyStr.lower analyze_optimized) = true ∧
    PyStr.startswith "Could you" analyze_optimized = true ∧
    PyStr.contains "structured JSON format" analyze_optimized = true ∧
    fst second = fst first ∧
    LRUCache.hits (LRUCache.stats (optimization_cache (obj (snd second)))) = 1 ∧
    LRUCache.misses (LRUCache.stats (optimization_cache (obj (snd second)))) = 1.
Proof.
  intros Hkey Hfresh w0 first second.
  assert (rewrite analyze_prompt "devops" =
            (analyze_optimized,
             ["removed_redundant: please"; "removed_redundant: could you";
              "applied_devops_optimizations"])) as Hrw
    by (vm_compute; reflexivity).
  pose proof (optimize_prompt_miss analyze_prompt "devops" cache_key w0 Hkey)
    as Hfirst.
  cbn zeta in Hfirst. fold first in Hfirst.
  assert (LRUCache.cache (optimization_cache (obj w0)) !! cache_key = None)
    as Hempty by apply lookup_empty.
  assert (Z.of_nat (size (LRUCache.cache (optimization_cache (obj w0))))
          < LRUCache.maxsize (optimization_cache (obj w0))) as Hroom.
  { change (Z.of_nat (size (∅ : gmap string CachedResult)) < 500).
    rewrite map_size_empty. lia. }
  assert (analyze_prompt ≠ EmptyString) as Hprompt
    by (unfold analyze_prompt; discriminate).
  specialize (Hfirst Hempty Hroom Hprompt). clear Hempty Hroom Hprompt.
  unfold fresh_metrics in Hfirst. rewrite Hrw in Hfirst.
  cbn [fst snd ticks w0 Nat.add] in Hfirst.
  clearbody first.
  set (m1 := {| original_length := _ |}) in Hfirst.
  set (stored := {| optimized_prompt := _; metrics := m1 |}) in Hfirst.
  assert (second =
            (Returns (optimized_prompt stored, metrics stored),
             {| ticks := S (ticks first.2);
                obj := update optimization_cache_field
                         (LRUCache.set_stats LRUCache.incr_hits
                            (LRUCache.set_access_order (λ _, [] ++ [cache_key])
                               (optimization_cache (obj first.2))))
                         (obj first.2) |})) as Hsecond.
  { unfold second.
    apply (optimize_prompt_hit analyze_prompt "devops" cache_key first.2
             stored (clock 3) []);
      [done|rewrite Hfirst; unfold record_history, store, w0; project..].
    - apply lookup_insert_eq.
    - apply lookup_insert_eq.
    - exact Hfresh.
    - by rewrite decide_True. }
  clearbody second. subst first second.
  exists m1. split_and!.
  - reflexivity.
  - reflexivity.
  - vm_compute; reflexivity.
  - vm_compute; reflexivity.
  - vm_compute; reflexivity.
  - vm_compute; reflexivity.
  - reflexivity.
  - unfold record_history, store, w0. project. reflexivity.
  - unfold record_history, store, w0. project. reflexivity.
Qed.

End PromptOptimizerProperties.

Lemma empty_prompt_raises_witness :
  let clock := λ i : nat, inject_Z (Z.of_nat i) in
  let md5 := λ text : string, Returns text in
  let w0 := {| ticks := 0; obj := PromptOptimizer.init |} in
  fst (PromptOptimizer.optimize_prompt clock md5 EmptyString "devops" w0) =
    Raises (ZeroDivisionError "division by zero").
Proof.
  intros clock md5 w0.
  apply (empty_prompt_raises clock md5 "devops" ":devops" w0).
  - reflexivity.
  - apply lookup_empty.
Defined.

Lemma could_you_survives_optimization_witness :
  let clock := λ i : nat, inject_Z (Z.of_nat i) in
  let md5 := λ text : string, Returns text in
  let w0 := {| ticks := 0; obj := PromptOptimizer.init |} in
  let first := PromptOptimizer.optimize_prompt clock md5 analyze_prompt "devops" w0 in
  (clock 5%nat - clock 3%nat < inject_Z 7200)%Q ∧
  ∃ metrics, fst first = Returns (analyze_optimized, metrics).
Proof.
  intros clock md5 w0 first.
  split; [reflexivity|].
  destruct (could_you_survives_optimization clock md5
              (analyze_prompt +:+ ":" +:+ "devops") eq_refl ltac:(reflexivity))
    as (metrics & Hfirst & _).
  exists metrics. exact Hfirst.
Defined.

(** ** The pipeline *)

Section PipelineProperties.
Context {Compressor CompressionMetrics : Type}.
Variable clock : nat → Q.
Variable md5_hexdigest : string → outcome string.
Variable compress_context :
  string → M (Timed Compressor) (string * CompressionMetrics).

Import CursorAIOptimizer.

Abbreviation pipeline := (optimize_request clock md5_hexdigest compress_context).

Ltac run_pipeline :=
  unfold optimize_request, try_except, optimize_request_body,
    optimize_request_handler, record_metric, hexdigest, bind, within, read,
    modify, ret, time_time;
  cbn [view update self_field self var_context var_optimization_results
       update_results assign_context untimed timed obj ticks fst snd
       prompt_optimizer_field context_compressor_field
       performance_monitor_field global_cache_field
       prompt_optimizer context_compressor performance_monitor global_cache].

(** No exception leaves [optimize_request]. *)
Lemma optimize_request_returns prompt context domain streaming compression
  (w : Timed (t (Compressor:=Compressor))) :
  ∃ result, fst (pipeline prompt context domain streaming compression w)
            = Returns result.
Proof.
  run_pipeline.
  repeat (case_match; simplify_eq; cbn [fst snd] in *); eauto.
Qed.

Lemma skip_condition (compression : bool) (context : string) :
  compression = false ∨ Z.of_nat (PyStr.len context) ≤ 5000 →
  compression && (5000 <? Z.of_nat (PyStr.len context)) = false.
Proof.
  intros [-> | Hlen]; [done|].
  apply andb_false_iff. right. by apply Z.ltb_ge.
Qed.

(** C9. With compression disabled, or a context of at most 5000
    characters, the compressor is not run: the call does what it would do
    with any other compressor, the compressor's state is the one it had,
    and the result has no compression metrics and no "context_compression"
    among the optimizations applied. *)
Theorem short_context_is_not_compressed prompt context domain streaming
  compression (w : Timed (t (Compressor:=Compressor))) :
  compression = false ∨ Z.of_nat (PyStr.len context) ≤ 5000 →
  (∀ other : string → M (Timed Compressor) (string * CompressionMetrics),
     optimize_request clock md5_hexdigest other
       prompt context domain streaming compression w =
     pipeline prompt context domain streaming compression w) ∧
  context_compressor
    (obj (snd (pipeline prompt context domain streaming compression w)))
    = context_compressor (obj w) ∧
  ∃ result,
    fst (pipeline prompt context domain streaming compression w) = Returns result ∧
    OptimizationResults.context_compression (optimization_results result) = None ∧
    ∀ applied,
      OptimizationResults.optimizations_applied (optimization_results result)
        = Some applied →
      "context_compression" ∉ applied.
Proof.
  intros Hskip. apply skip_condition in Hskip.
  split_and!.
  - intros other. run_pipeline.
    destruct (PromptOptimizer.optimize_prompt _ _ _ _ _) as [[[op pm]|e] w1];
      cbn [fst snd]; [|done].
    run_pipeline. rewrite Hskip. done.
  - run_pipeline.
    destruct (PromptOptimizer.optimize_prompt _ _ _ _ _) as [[[op pm]|e] w1];
      cbn [fst snd]; [|done].
    run_pipeline. rewrite Hskip. run_pipeline.
    destruct (md5_hexdigest _) as [key|e]; [|done].
    rewrite cache_get_run. run_pipeline.
    destruct (LRUCache.get _ _ _) as [[cached|e] c']; cbn [fst snd]; [|done].
    destruct (truthy cached); done.
  - run_pipeline.
    destruct (PromptOptimizer.optimize_prompt _ _ _ _ _) as [[[op pm]|e] w1];
      cbn [fst snd]; [|by eexists].
    run_pipeline. rewrite Hskip. run_pipeline.
    destruct (md5_hexdigest _) as [key|e]; [|by eexists].
    rewrite cache_get_run. run_pipeline.
    destruct (LRUCache.get _ _ _) as [[cached|e] c']; cbn [fst snd];
      [|by eexists].
    destruct (truthy cached); (eexists; split; [reflexivity|]);
      (split; [reflexivity|]); cbn; intros applied [= <-] Hin;
      repeat (apply elem_of_cons in Hin as [Hin|Hin]; [discriminate Hin|]);
      by apply elem_of_nil in Hin.
Qed.


(** The text a call returned, if it returned. *)
Definition returned_text {A} (r : outcome (string * A)) : option string :=
  match r with
  | Returns (text, _) => Some text
  | Raises _ => None
  end.

(** X24. What a failure returns: the prompt as given, no cached response, and
    either the context as given or, when the compressor had returned, the
    text it returned. *)
Lemma failure_keeps_prompt prompt context domain streaming compression
  (w : Timed (t (Compressor:=Compressor))) :
  ∃ result,
    fst (pipeline prompt context domain streaming compression w) = Returns result ∧
    ∀ message,
      OptimizationResults.error (optimization_results result) = Some message →
      response result = None ∧ cache_hit result = false ∧
      ∃ returned_context,
        optimized_request result =
          Some {| prompt := prompt; context := returned_context;
                  domain := domain; cache_key := None |} ∧
        (returned_context = context ∨
         compression = true ∧ 5000 < Z.of_nat (PyStr.len context) ∧
         ∃ w1, returned_text (fst (compress_context context w1))
               = Some returned_context).
Proof.
  run_pipeline.
  destruct (PromptOptimizer.optimize_prompt _ _ _ _ _) as [[[op pm]|e] w1];
    cbn [fst snd]; run_pipeline.
  2:{ eexists. split; [reflexivity|]. intros message _. cbn. eauto 10. }
  destruct (compression && (5000 <? Z.of_nat (PyStr.len context))) eqn:Hcond.
  - apply andb_true_iff in Hcond as [-> Hlong%Z.ltb_lt]. run_pipeline.
    destruct (compress_context context _) as [[[cc cm]|e] w2] eqn:Hcompress;
      run_pipeline.
    2:{ eexists. split; [reflexivity|]. intros message _. cbn. eauto 10. }
    assert (∃ w1, returned_text (fst (compress_context context w1)) = Some cc)
      as Hran by (eexists; by rewrite Hcompress).
    destruct (md5_hexdigest _) as [key|e].
    2:{ eexists. split; [reflexivity|]. intros message _. cbn. eauto 10. }
    rewrite cache_get_run. run_pipeline.
    destruct (LRUCache.get _ _ _) as [[cached|e] c']; cbn [fst snd].
    2:{ eexists. split; [reflexivity|]. intros message _. cbn. eauto 10. }
    destruct (truthy cached); eexists; (split; [reflexivity|]);
      intros message Hmsg; cbn in Hmsg; discriminate Hmsg.
  - run_pipeline.
    destruct (md5_hexdigest _) as [key|e].
    2:{ eexists. split; [reflexivity|]. intros message _. cbn. eauto 10. }
    rewrite cache_get_run. run_pipeline.
    destruct (LRUCache.get _ _ _) as [[cached|e] c']; cbn [fst snd].
    2:{ eexists. split; [reflexivity|]. intros message _. cbn. eauto 10. }
    destruct (truthy cached); eexists; (split; [reflexivity|]);
      intros message Hmsg; cbn in Hmsg; discriminate Hmsg.
Qed.

End PipelineProperties.

(** *** The pipeline on concrete requests *)

(** A clock that advances by one second at every reading. *)
Definition example_clock (i : nat) : Q := inject_Z (Z.of_nat i).

(** A digest that fails on the key of the response cache once the context
    has been compressed, and is the text itself otherwise. *)
Definition failing_md5 (text : string) : outcome string :=
  if PyStr.contains ":Key Information:" text
  then Raises (Exception "injected failure")
  else Returns text.

Definition example_str_float (x : float) : string := "0.3".

(** The compressor of the source in this environment. *)
Definition example_compressor
  : string → M (Timed ContextCompressor.t) (string * ContextCompressor.Metrics) :=
  CursorAIOptimizer.context_compressor_method example_clock failing_md5
    remove_dups example_str_float.


Definition new_optimizer : Timed CursorAIOptimizer.t :=
  {| ticks := 0; obj := CursorAIOptimizer.init ContextCompressor.init |}.

Lemma short_context_is_not_compressed_witness :
  let call :=
    CursorAIOptimizer.optimize_request example_clock failing_md5
      example_compressor "Check the logs" "three services are down" "devops"
      true true new_optimizer in
  (true = false ∨ Z.of_nat (PyStr.len "three services are down") ≤ 5000) ∧
  CursorAIOptimizer.context_compressor (obj (snd call)) = ContextCompressor.init ∧
  ∃ result,
    fst call = Returns result ∧
    ∀ applied,
      CursorAIOptimizer.OptimizationResults.optimizations_applied
        (CursorAIOptimizer.optimization_results result) = Some applied →
      "context_compression" ∉ applied.
Proof.
  intros call.
  assert (true = false ∨ Z.of_nat (PyStr.len "three services are down") ≤ 5000)
    as Hshort by (right; by vm_compute).
  split; [exact Hshort|].
  destruct (short_context_is_not_compressed example_clock failing_md5
              example_compressor "Check the logs" "three services are down"
              "devops" true true new_optimizer Hshort)
    as (_ & Hstate & result & Hresult & _ & Happlied).
  split; [exact Hstate|].
  exists result. split; [exact Hresult|exact Happlied].
Defined.

(** ** More on the cache *)

Section CacheTraces.
Context {V : Type}.
Implicit Types (c : LRUCache.t V) (key : string) (l : list string).

Import LRUCache.

Ltac run_calls :=
  unfold get, put, _remove_key, deque_remove, deque_popleft, timestamp_of,
    del_timestamp, bind, read, modify, ret, raise; simpl.

(** What every trace keeps, expired reads included: the mapping and the
    timestamps have the same keys, and every key has a node. *)
Definition sound c : Prop :=
  (∀ key, is_Some (cache c !! key) ↔ is_Some (timestamps c !! key)) ∧
  (∀ key, is_Some (cache c !! key) → key ∈ access_order c).

Lemma remove_first_keeps key l l' :
  remove_first key l = Some l' → ∀ x, x ∈ l → x ∈ l' ∨ x = key.
Proof.
  revert l'. induction l as [|y l IH]; intros l' Hrm x Hx; [done|].
  simpl in Hrm. destruct (decide (y = key)) as [->|Hne].
  - injection Hrm as <-. apply elem_of_cons in Hx as [->|Hx]; auto.
  - destruct (remove_first key l) as [r|] eqn:Hr; [|done].
    injection Hrm as <-. apply elem_of_cons in Hx as [->|Hx].
    + left. by left.
    + destruct (IH r eq_refl x Hx) as [Hin| ->]; [left; by right|by right].
Qed.

Lemma init_sound maxsize ttl : sound (init (V:=V) maxsize ttl).
Proof.
  split; intros key; simpl; rewrite ?lookup_empty; [done|by intros [? ?]].
Qed.

Lemma get_sound now key c :
  sound c →
  returned c (Get now key) = true ∧ sound (step c (Get now key)) ∧
  maxsize (step c (Get now key)) = maxsize c.
Proof.
  intros [Hstamps Hnodes]. simpl. run_calls.
  destruct (cache c !! key) as [v|] eqn:Hkey; simpl.
  - destruct (proj1 (Hstamps key) ltac:(by eexists)) as [ts Hts].
    rewrite Hts. simpl.
    destruct (Qltb (now - ts) (inject_Z (ttl c))); simpl.
    + destruct (remove_first_present key (access_order c)) as [l' Hrm].
      { apply Hnodes. by eexists. }
      rewrite Hrm. simpl. rewrite Hkey. simpl.
      split_and!; [done| |done]. split; simpl; [done|].
      intros k Hk. apply Hnodes in Hk.
      destruct (remove_first_keeps key _ _ Hrm k Hk) as [Hin| ->];
        apply elem_of_app; [by left|right; by left].
    + rewrite Hkey. simpl. rewrite Hts. simpl.
      split_and!; [done| |done]. split; simpl.
      * intros k. destruct (decide (k = key)) as [->|Hne].
        -- rewrite !lookup_delete_eq. split; by intros [? ?].
        -- rewrite !lookup_delete_ne by done. apply Hstamps.
      * intros k Hk. apply Hnodes.
        destruct (decide (k = key)) as [->|Hne].
        -- rewrite lookup_delete_eq in Hk. by destruct Hk.
        -- by rewrite lookup_delete_ne in Hk.
  - split_and!; done.
Qed.

Lemma put_sound now key (value : V) c :
  sound c → 1 ≤ maxsize c →
  returned c (Put now key value) = true ∧ sound (step c (Put now key value)) ∧
  maxsize (step c (Put now key value)) = maxsize c.
Proof.
  intros [Hstamps Hnodes] Hcap. simpl. run_calls.
  assert (∀ (m : gmap string V) (ts : gmap string Q) l,
            (∀ k, k ≠ key → is_Some (m !! k) ↔ is_Some (ts !! k)) →
            (∀ k, k ≠ key → is_Some (m !! k) → k ∈ l) →
            (∀ k, is_Some (<[key:=value]> m !! k)
                  ↔ is_Some (<[key:=now]> ts !! k)) ∧
            (∀ k, is_Some (<[key:=value]> m !! k) → k ∈ l ++ [key]))
    as Hstore.
  { intros m ts l Hm Hl. split; intros k; destruct (decide (k = key)) as [->|Hne].
    - rewrite !lookup_insert_eq. split; by eexists.
    - rewrite !lookup_insert_ne by done. by apply Hm.
    - intros _. apply elem_of_app. right. by left.
    - rewrite lookup_insert_ne by done. intros Hk.
      apply elem_of_app. left. by apply Hl. }
  destruct (cache c !! key) as [old|] eqn:Hkey; simpl.
  - destruct (remove_first_present key (access_order c)) as [l' Hrm].
    { apply Hnodes. by eexists. }
    rewrite Hrm. simpl. split_and!; [done| |done].
    apply Hstore.
    + intros k _. apply Hstamps.
    + intros k Hne Hk. apply Hnodes in Hk.
      by destruct (remove_first_keeps key _ _ Hrm k Hk).
  - destruct (Z.of_nat (size (cache c)) >=? maxsize c) eqn:Hfull; simpl.
    + destruct (access_order c) as [|oldest rest] eqn:Horder; simpl.
      { exfalso. assert (size (cache c) ≠ 0%nat) as Hne by lia.
        apply map_size_ne_0_lookup_1 in Hne as [k Hk].
        apply Hnodes in Hk. by apply elem_of_nil in Hk. }
      destruct (cache c !! oldest) as [vo|] eqn:Hold; simpl.
      * destruct (proj1 (Hstamps oldest) ltac:(by eexists)) as [to Hto].
        rewrite Hto. simpl. split_and!; [done| |done].
        apply Hstore.
        -- intros k _. simpl. destruct (decide (k = oldest)) as [->|Hne].
           ++ rewrite !lookup_delete_eq. split; by intros [? ?].
           ++ rewrite !lookup_delete_ne by done. apply Hstamps.
        -- intros k _ Hk. simpl in *. destruct (decide (k = oldest)) as [->|Hne].
           ++ rewrite lookup_delete_eq in Hk. by destruct Hk.
           ++ rewrite lookup_delete_ne in Hk by done.
              apply Hnodes in Hk. by apply elem_of_cons in Hk as [?|?].
      * split_and!; [done| |done].
        apply Hstore.
        -- intros k _. apply Hstamps.
        -- intros k _ Hk. simpl in Hk. pose proof (Hnodes k Hk) as Hin.
           apply elem_of_cons in Hin as [->|?]; [|done].
           rewrite Hold in Hk. by destruct Hk.
    + split_and!; [done| |done].
      apply Hstore; [intros k _; apply Hstamps|intros k _; apply Hnodes].
Qed.

Lemma step_sound c (o : op V) :
  sound c → 1 ≤ maxsize c →
  returned c o = true ∧ sound (step c o) ∧ maxsize (step c o) = maxsize c.
Proof.
  intros Hc Hcap. destruct o as [now key|now key value|].
  - by apply get_sound.
  - by apply put_sound.
  - split_and!; [done| |done]. split; intros key; simpl;
      rewrite ?lookup_empty; [done|by intros [? ?]].
Qed.

Lemma exec_sound (ops : list (op V)) c :
  sound c → 1 ≤ maxsize c →
  all_returned ops c = true ∧ sound (exec ops c) ∧
  maxsize (exec ops c) = maxsize c.
Proof.
  revert c. induction ops as [|o ops IH]; intros c Hc Hcap; [done|].
  destruct (step_sound c o Hc Hcap) as (Hret & Hc' & Hmax).
  destruct (IH (step c o) Hc' ltac:(lia)) as (Hrets & Hfinal & Hmax').
  simpl. rewrite Hret. simpl. split_and!; [done|done|congruence].
Qed.

(** X1. No call on a cache with room for at least one entry ever raises,
    whatever the calls and their times. *)
Theorem no_call_raises (maxsize ttl : Z) (ops : list (op V)) :
  1 ≤ maxsize → all_returned ops (init maxsize ttl) = true.
Proof.
  intros Hcap. by apply exec_sound; [apply init_sound|].
Qed.

Lemma exec_ttl (ops : list (op V)) c : ttl (exec ops c) = ttl c.
Proof.
  revert c. induction ops as [|o ops IH]; intros c; [done|].
  simpl. rewrite IH. destruct o as [now key|now key value|]; simpl; [| |done].
  - run_calls. by repeat (case_match; simplify_eq/=).
  - run_calls. by repeat (case_match; simplify_eq/=).
Qed.

Lemma put_stores now key (value : V) c :
  returned c (Put now key value) = true →
  cache (snd (put now key value c)) !! key = Some value ∧
  timestamps (snd (put now key value c)) !! key = Some now ∧
  ttl (snd (put now key value c)) = ttl c.
Proof.
  simpl. run_calls.
  repeat (case_match; simplify_eq/=); intros; try done;
    by rewrite !lookup_insert_eq.
Qed.

(** X2. An entry can be read back until [ttl] seconds after it was put, and
    not later: on a cache with room for an entry, whatever happened before,
    [get] at [now'] after [put] at [now] returns the value if
    [now' - now < ttl] and [None] otherwise. *)
Theorem put_then_get (capacity lifetime : Z) (ops : list (op V)) now now' key
  (value : V) :
  1 ≤ capacity →
  let c := exec ops (init capacity lifetime) in
  let c' := snd (put now key value c) in
  fst (put now key value c) = Returns tt ∧
  ((now' - now < inject_Z lifetime)%Q → fst (get now' key c') = Returns (Some value)) ∧
  (¬ (now' - now < inject_Z lifetime)%Q → fst (get now' key c') = Returns None).
Proof.
  intros Hcap c c'.
  destruct (exec_sound ops (init capacity lifetime) (init_sound _ _) Hcap)
    as (_ & Hc & Hmax).
  fold c in Hc, Hmax.
  destruct (put_sound now key value c Hc) as (Hret & Hc' & _);
    [simpl in Hmax; lia|].
  destruct (put_stores now key value c Hret) as (Hv & Hts & Httl).
  fold c' in Hv, Hts, Httl. simpl in Hret, Hc'. fold c' in Hc'.
  assert (ttl c' = lifetime) as Httl'.
  { rewrite Httl. unfold c. by rewrite exec_ttl. }
  split_and!.
  - by destruct (put now key value c) as [[[]|e] c1].
  - intros Hfresh.
    destruct (remove_first_present key (access_order c')) as [l' Hrm].
    { apply Hc'. by eexists. }
    by rewrite (get_fresh now' key c' value now l') by (by rewrite ?Httl').
  - intros Hold.
    by rewrite (get_expired now' key c' value now) by (by rewrite ?Httl').
Qed.

Lemma remove_first_length key l l' :
  remove_first key l = Some l' → length l = S (length l').
Proof.
  revert l'. induction l as [|y l IH]; intros l' Hrm; [done|].
  simpl in Hrm. destruct (decide (y = key)); [by injection Hrm as <-|].
  destruct (remove_first key l) as [r|]; [|done].
  injection Hrm as <-. simpl. by rewrite (IH r).
Qed.

(** X3. A hit changes the recency of the key and the hit counter, nothing
    else: the entries and their timestamps are the ones before, so reading
    an entry does not prolong its life; the key is at the most recently
    used end, and the access order has as many nodes as before. *)
Theorem hit_changes_recency_only now key c (v : V) :
  fst (get now key c) = Returns (Some v) →
  let c' := snd (get now key c) in
  cache c !! key = Some v ∧
  cache c' = cache c ∧ timestamps c' = timestamps c ∧
  last (access_order c') = Some key ∧
  length (access_order c') = length (access_order c) ∧
  hits (stats c') = hits (stats c) + 1 ∧
  misses (stats c') = misses (stats c) ∧
  expired (stats c') = expired (stats c) ∧
  evictions (stats c') = evictions (stats c).
Proof.
  run_calls.
  destruct (cache c !! key) as [v0|] eqn:Hkey; simpl; [|done].
  destruct (timestamps c !! key) as [ts|]; simpl; [|done].
  destruct (Qltb (now - ts) (inject_Z (ttl c))); simpl.
  - destruct (remove_first key (access_order c)) as [l'|] eqn:Hrm; simpl;
      [|done].
    rewrite Hkey. simpl. intros [= ->].
    split_and!; try done.
    + apply last_snoc.
    + rewrite length_app. simpl. rewrite (remove_first_length _ _ _ Hrm). lia.
  - rewrite Hkey. simpl. destruct (timestamps c !! key); simpl; done.
Qed.

(** X4. Every [get] that returns is counted once: the total of hits and misses
    grows by one, a value comes with a hit and [None] with a miss, and
    nothing is evicted. *)
Theorem get_is_counted_once now key c :
  returned c (Get (V:=V) now key) = true →
  let c' := snd (get now key c) in
  r_total_requests (get_stats c') = r_total_requests (get_stats c) + 1 ∧
  evictions (stats c') = evictions (stats c) ∧
  match fst (get now key c) with
  | Returns (Some _) =>
      hits (stats c') = hits (stats c) + 1 ∧ expired (stats c') = expired (stats c)
  | Returns None =>
      misses (stats c') = misses (stats c) + 1 ∧
      (expired (stats c') = expired (stats c) ∨
       expired (stats c') = expired (stats c) + 1 ∧ is_Some (cache c !! key))
  | Raises _ => False
  end.
Proof.
  simpl. run_calls.
  repeat (case_match; simplify_eq/=); intros; try done;
    split_and!; eauto; lia.
Qed.

(** X5. A [put] that finds its key, or finds room, evicts nothing: every other
    entry keeps its value and its timestamp. *)
Theorem put_keeps_other_entries now key (value : V) c :
  is_Some (cache c !! key) ∨ Z.of_nat (size (cache c)) < maxsize c →
  let c' := snd (put now key value c) in
  evictions (stats c') = evictions (stats c) ∧
  ∀ other, other ≠ key →
    cache c' !! other = cache c !! other ∧
    timestamps c' !! other = timestamps c !! other.
Proof.
  intros Hroom. run_calls.
  destruct (cache c !! key) as [old|] eqn:Hkey; simpl.
  - destruct (remove_first key (access_order c)); simpl; [|done].
    split; [done|]. intros other Hne. by rewrite !lookup_insert_ne.
  - destruct Hroom as [[? ?]|Hroom]; [done|].
    destruct (Z.of_nat (size (cache c)) >=? maxsize c) eqn:Hfull; [lia|].
    simpl. split; [done|]. intros other Hne. by rewrite !lookup_insert_ne.
Qed.

(** X6. A cache made with a capacity of 0 or less stores nothing: every [put]
    raises [IndexError] from the empty access order, and the cache stays as
    it was made. *)
Theorem no_capacity_no_entry (maxsize ttl : Z) (ops : list (op V)) :
  maxsize ≤ 0 → forallb is_put ops = true →
  exec ops (init maxsize ttl) = init maxsize ttl ∧
  ∀ now key (value : V),
    fst (put now key value (init maxsize ttl))
      = Raises (IndexError "pop from an empty deque").
Proof.
  intros Hcap Hputs. split.
  - by apply puts_no_room.
  - intros now key value. by rewrite put_no_room.
Qed.

End CacheTraces.

(** A trace with an expired read in it. *)
Definition mixed_trace : list (LRUCache.op Z) :=
  [LRUCache.Put 0 "a" 1; LRUCache.Get 10 "a"; LRUCache.Put 11 "a" 1;
   LRUCache.Put 12 "b" 2; LRUCache.Clear; LRUCache.Get 13 "b"].

Lemma no_call_raises_witness :
  1 ≤ 1 ∧ LRUCache.all_returned mixed_trace (LRUCache.init 1 10) = true.
Proof. split; [lia|]. apply (no_call_raises 1 10 mixed_trace). lia. Defined.

Lemma put_then_get_witness :
  1 ≤ 2 ∧
  fst (LRUCache.get 9 "a"
         (snd (LRUCache.put 3 "a" 7
                 (LRUCache.exec mixed_trace (LRUCache.init 2 10)))))
    = Returns (Some 7).
Proof.
  split; [lia|].
  destruct (put_then_get 2 10 mixed_trace 3 9 "a" 7 ltac:(lia)) as (_ & Hfresh & _).
  apply Hfresh. reflexivity.
Defined.

Lemma hit_changes_recency_only_witness :
  fst (LRUCache.get 5 "k" one_entry) = Returns (Some 1) ∧
  LRUCache.timestamps (snd (LRUCache.get 5 "k" one_entry))
    = LRUCache.timestamps one_entry.
Proof.
  assert (fst (LRUCache.get 5 "k" one_entry) = Returns (Some 1)) as Hhit
    by (vm_compute; reflexivity).
  split; [exact Hhit|].
  destruct (hit_changes_recency_only 5 "k" one_entry 1 Hhit) as (_ & _ & Hts & _).
  exact Hts.
Defined.

Lemma get_is_counted_once_witness :
  LRUCache.returned one_entry (LRUCache.Get 10 "k") = true ∧
  LRUCache.r_total_requests
    (LRUCache.get_stats (snd (LRUCache.get 10 "k" one_entry)))
    = LRUCache.r_total_requests (LRUCache.get_stats one_entry) + 1.
Proof.
  assert (LRUCache.returned one_entry (LRUCache.Get 10 "k") = true) as Hret
    by (vm_compute; reflexivity).
  split; [exact Hret|].
  destruct (get_is_counted_once 10 "k" one_entry Hret) as (Htotal & _).
  exact Htotal.
Defined.

Lemma put_keeps_other_entries_witness :
  (is_Some (LRUCache.cache one_entry !! "j")
   ∨ Z.of_nat (size (LRUCache.cache one_entry)) < LRUCache.maxsize one_entry) ∧
  LRUCache.cache (snd (LRUCache.put 4 "j" 2 one_entry)) !! "k"
    = LRUCache.cache one_entry !! "k".
Proof.
  assert (is_Some (LRUCache.cache one_entry !! "j")
          ∨ Z.of_nat (size (LRUCache.cache one_entry)) < LRUCache.maxsize one_entry)
    as Hroom by (right; by vm_compute).
  split; [exact Hroom|].
  destruct (put_keeps_other_entries 4 "j" 2 one_entry Hroom) as (_ & Hothers).
  apply (Hothers "k"). discriminate.
Defined.

Lemma no_capacity_no_entry_witness :
  (0 ≤ 0 ∧ forallb LRUCache.is_put [LRUCache.Put 0 "a" 1] = true) ∧
  LRUCache.exec [LRUCache.Put 0 "a" 1] (LRUCache.init 0 10) = LRUCache.init 0 10.
Proof.
  split; [split; [lia|reflexivity]|].
  apply (no_capacity_no_entry (V:=Z) 0 10 [LRUCache.Put 0 "a" 1]);
    [lia|reflexivity].
Defined.

(** ** More on the monitor *)

(** The monitor after [record_metric] was called on each metric in turn. *)
Definition recorded (metrics : list PerformanceMetrics) : PerformanceMonitor.t :=
  foldl (λ m metric, PerformanceMonitor.record_metric metric m)
    PerformanceMonitor.init metrics.

Lemma recorded_snoc metrics metric :
  recorded (metrics ++ [metric])
  = PerformanceMonitor.record_metric metric (recorded metrics).
Proof. unfold recorded. by rewrite foldl_app. Qed.

Lemma tail_drop {A} (n : nat) (l : list A) : tail (drop n l) = drop (S n) l.
Proof.
  revert l. induction n as [|n IH]; intros [|x l]; simpl; done.
Qed.

(** X7. The history is a ring buffer: after any number of recordings it
    holds the last 10000 metrics recorded, in order, and no more. *)
Theorem history_keeps_the_last_10000 (metrics : list PerformanceMetrics) :
  PerformanceMonitor.metrics_history (recorded metrics)
    = drop (length metrics - Z.to_nat 10000) metrics ∧
  Z.of_nat (length (PerformanceMonitor.metrics_history (recorded metrics)))
    ≤ 10000.
Proof.
  assert (PerformanceMonitor.metrics_history (recorded metrics)
          = drop (length metrics - Z.to_nat 10000) metrics) as Hhist.
  { induction metrics as [|metric metrics IH] using rev_ind; [done|].
    rewrite recorded_snoc. unfold PerformanceMonitor.record_metric. simpl.
    rewrite IH. unfold deque_append. rewrite length_drop, length_app. simpl.
    destruct (10000 <=? Z.of_nat (length metrics - (length metrics - Z.to_nat 10000)))
      eqn:Hfull.
    - apply Z.leb_le in Hfull. rewrite tail_drop.
      rewrite drop_app_le by lia. f_equal. f_equal. lia.
    - apply Z.leb_gt in Hfull.
      replace (length metrics - Z.to_nat 10000)%nat with 0%nat by lia.
      replace (length metrics + 1 - Z.to_nat 10000)%nat with 0%nat by lia.
      done. }
  split; [done|]. rewrite Hhist, length_drop. lia.
Qed.

Lemma List_filter_length {A} (p : A → bool) (l : list A) :
  (length (List.filter p l) ≤ length l)%nat.
Proof.
  induction l as [|x l IH]; simpl; [done|]. destruct (p x); simpl; lia.
Qed.

Lemma Qle_bool_refl (x : Q) : Qle_bool x x = true.
Proof. apply Qle_bool_iff, Qle_refl. Qed.

Lemma Qle_bool_trans (x y z : Q) :
  Qle_bool x y = true → Qle_bool y z = true → Qle_bool x z = true.
Proof. rewrite !Qle_bool_iff. apply Qle_trans. Qed.

(** In an ascending list an earlier element is at most a later one. *)
Lemma ascending_lookup (l : list Q) (i j : nat) (x y : Q) :
  Sorted (λ a b, Qle_bool a b = true) l →
  (i ≤ j)%nat → l !! i = Some x → l !! j = Some y → (x <= y)%Q.
Proof.
  intros Hsorted%Sorted_StronglySorted; [|intros a b c; apply Qle_bool_trans].
  revert i j. induction Hsorted as [|a l Hl IH Ha]; intros i j Hij Hi Hj; [done|].
  destruct i as [|i], j as [|j]; simpl in *; simplify_eq.
  - apply Qle_refl.
  - apply Qle_bool_iff. rewrite Forall_forall in Ha. apply Ha.
    by eapply list_elem_of_lookup_2.
  - lia.
  - apply (IH i j); [lia|done..].
Qed.

Lemma Qmax_upper (d : Q) (l : list Q) (x : Q) :
  x ∈ d :: l → (x <= foldr PerformanceMonitor.Qmax d l)%Q.
Proof.
  induction l as [|a l IH]; simpl; intros Hx.
  - apply elem_of_cons in Hx as [->|Hx]; [apply Qle_refl|by apply elem_of_nil in Hx].
  - unfold PerformanceMonitor.Qmax at 1.
    destruct (Qle_bool a (foldr PerformanceMonitor.Qmax d l)) eqn:Hle.
    + apply Qle_bool_iff in Hle.
      apply elem_of_cons in Hx as [->|Hx]; [by apply IH; left|].
      apply elem_of_cons in Hx as [->|Hx]; [done|]. apply IH. by right.
    + assert (foldr PerformanceMonitor.Qmax d l <= a)%Q as Hge.
      { destruct (Qle_bool_total a (foldr PerformanceMonitor.Qmax d l)) as [H|H];
          [congruence|by apply Qle_bool_iff]. }
      apply elem_of_cons in Hx as [->|Hx];
        [eapply Qle_trans; [apply IH; by left|done]|].
      apply elem_of_cons in Hx as [->|Hx]; [apply Qle_refl|].
      eapply Qle_trans; [apply IH; by right|done].
Qed.

Lemma Qmin_lower (d : Q) (l : list Q) (x : Q) :
  x ∈ d :: l → (foldr PerformanceMonitor.Qmin d l <= x)%Q.
Proof.
  induction l as [|a l IH]; simpl; intros Hx.
  - apply elem_of_cons in Hx as [->|Hx]; [apply Qle_refl|by apply elem_of_nil in Hx].
  - unfold PerformanceMonitor.Qmin at 1.
    destruct (Qle_bool a (foldr PerformanceMonitor.Qmin d l)) eqn:Hle.
    + apply Qle_bool_iff in Hle.
      apply elem_of_cons in Hx as [->|Hx];
        [eapply Qle_trans; [done|apply IH; by left]|].
      apply elem_of_cons in Hx as [->|Hx]; [apply Qle_refl|].
      eapply Qle_trans; [done|apply IH; by right].
    + apply elem_of_cons in Hx as [->|Hx]; [by apply IH; left|].
      apply elem_of_cons in Hx as [->|Hx]; [|apply IH; by right].
      destruct (Qle_bool_total a (foldr PerformanceMonitor.Qmin d l)) as [H|H];
        [congruence|by apply Qle_bool_iff].
Qed.

(** The metrics of the window [now - time_window, now]. *)
Definition recent (now : Q) (time_window : Z) (m : PerformanceMonitor.t)
  : list PerformanceMetrics :=
  List.filter (λ x, Qle_bool (now - inject_Z time_window) (timestamp x))
    (PerformanceMonitor.metrics_history m).

Lemma recent_length now time_window metrics :
  Z.of_nat (length (recent now time_window (recorded metrics))) ≤ 10000.
Proof.
  unfold recent.
  pose proof (List_filter_length
                (λ x, Qle_bool (now - inject_Z time_window) (timestamp x))
                (PerformanceMonitor.metrics_history (recorded metrics))).
  destruct (history_keeps_the_last_10000 metrics) as [_ Hlen]. lia.
Qed.

(** The summary of a window, laid out. *)
Lemma summary_run now time_window metrics first others :
  recent now time_window (recorded metrics) = first :: others →
  let durations := map duration (first :: others) in
  let n := Z.of_nat (length durations) in
  let at_index i := nth (Z.to_nat (Z.min i (n - 1)))
                      (PerformanceMonitor.sorted Qle_bool durations) 0%Q in
  ∃ s, PerformanceMonitor.get_performance_summary now time_window (recorded metrics)
       = Returns (Some s) ∧
       PerformanceMonitor.time_window s = time_window ∧
       PerformanceMonitor.total_requests s = length (first :: others) ∧
       PerformanceMonitor.successful_requests s
         = PerformanceMonitor.count_if success (first :: others) ∧
       PerformanceMonitor.min_response_time s
         = foldr PerformanceMonitor.Qmin (duration first) (map duration others) ∧
       PerformanceMonitor.max_response_time s
         = foldr PerformanceMonitor.Qmax (duration first) (map duration others) ∧
       PerformanceMonitor.p95_response_time s = at_index (95 * n / 100) ∧
       PerformanceMonitor.p99_response_time s = at_index (99 * n / 100).
Proof.
  intros Hrecent durations n at_index.
  pose proof (recent_length now time_window metrics) as Hlen.
  rewrite Hrecent in Hlen.
  assert (1 ≤ Z.of_nat (length durations) ≤ 10000) as Hn.
  { unfold durations. rewrite length_map. simpl in *. lia. }
  destruct (percentile_floor_rule Qle_bool 0%Q durations 95 Qle_bool_total
              ltac:(by left) Hn) as (H95 & _).
  destruct (percentile_floor_rule Qle_bool 0%Q durations 99 Qle_bool_total
              ltac:(by right) Hn) as (H99 & _).
  unfold PerformanceMonitor.get_performance_summary.
  fold (recent now time_window (recorded metrics)). rewrite Hrecent.
  fold durations. rewrite H95, H99.
  eexists. split; [reflexivity|]. simpl. done.
Qed.

(** X8. A summary is refused exactly when no recorded metric falls in the
    window; otherwise it is returned, never an exception, and it counts the
    metrics of the window: all of them as requests, those with [success]
    as successful. *)
Theorem summary_counts_the_window (metrics : list PerformanceMetrics)
  (now : Q) (time_window : Z) :
  match PerformanceMonitor.get_performance_summary now time_window
          (recorded metrics) with
  | Returns None => recent now time_window (recorded metrics) = []
  | Returns (Some s) =>
      recent now time_window (recorded metrics) ≠ [] ∧
      PerformanceMonitor.time_window s = time_window ∧
      PerformanceMonitor.total_requests s
        = length (recent now time_window (recorded metrics)) ∧
      PerformanceMonitor.successful_requests s
        = PerformanceMonitor.count_if success
            (recent now time_window (recorded metrics)) ∧
      (PerformanceMonitor.successful_requests s
       ≤ PerformanceMonitor.total_requests s)%nat
  | Raises _ => False
  end.
Proof.
  destruct (recent now time_window (recorded metrics)) as [|first others]
    eqn:Hrecent.
  - unfold PerformanceMonitor.get_performance_summary.
    fold (recent now time_window (recorded metrics)). by rewrite Hrecent.
  - destruct (summary_run now time_window metrics first others Hrecent)
      as (s & -> & Hwindow & Htotal & Hok & _).
    split_and!; [done|done|done|done|].
    rewrite Hok, Htotal. apply List_filter_length.
Qed.

(** X9. In every summary the percentiles lie between the extremes and in
    order: minimum <= p95 <= p99 <= maximum. *)
Theorem percentiles_are_ordered (metrics : list PerformanceMetrics)
  (now : Q) (time_window : Z) (s : PerformanceMonitor.Summary) :
  PerformanceMonitor.get_performance_summary now time_window (recorded metrics)
    = Returns (Some s) →
  (PerformanceMonitor.min_response_time s <= PerformanceMonitor.p95_response_time s)%Q ∧
  (PerformanceMonitor.p95_response_time s <= PerformanceMonitor.p99_response_time s)%Q ∧
  (PerformanceMonitor.p99_response_time s <= PerformanceMonitor.max_response_time s)%Q.
Proof.
  intros Hsummary.
  destruct (recent now time_window (recorded metrics)) as [|first others]
    eqn:Hrecent.
  { unfold PerformanceMonitor.get_performance_summary in Hsummary.
    fold (recent now time_window (recorded metrics)) in Hsummary.
    by rewrite Hrecent in Hsummary. }
  destruct (summary_run now time_window metrics first others Hrecent)
    as (s' & Hs' & _ & _ & _ & Hmin & Hmax & H95 & H99).
  rewrite Hsummary in Hs'. injection Hs' as <-.
  rewrite Hmin, Hmax, H95, H99. clear Hmin Hmax H95 H99 Hsummary.
  set (durations := map duration (first :: others)).
  set (n := Z.of_nat (length durations)).
  set (ascending := PerformanceMonitor.sorted Qle_bool durations).
  assert (length ascending = length durations) as Hlen by apply sorted_length.
  assert (1 ≤ n) as Hn by (unfold n, durations; simpl; lia).
  assert (∀ i, 0 ≤ i →
            ascending !! Z.to_nat (Z.min i (n - 1))
            = Some (nth (Z.to_nat (Z.min i (n - 1))) ascending 0%Q)) as Hat.
  { intros i Hi.
    destruct (nth_lookup_or_length ascending (Z.to_nat (Z.min i (n - 1))) 0%Q)
      as [Hsome|Hout]; [done|]. unfold n in *. lia. }
  assert (∀ x, x ∈ ascending → x ∈ duration first :: map duration others)
    as Hmember.
  { intros x Hx. unfold ascending in Hx. by rewrite sorted_perm in Hx. }
  pose proof (Hat (95 * n / 100) ltac:(apply Z.div_pos; lia)) as H95.
  pose proof (Hat (99 * n / 100) ltac:(apply Z.div_pos; lia)) as H99.
  split_and!.
  - apply Qmin_lower, Hmember. by eapply list_elem_of_lookup_2.
  - eapply (ascending_lookup ascending); [| |exact H95|exact H99].
    + apply sorted_ascending, Qle_bool_total.
    + assert (95 * n / 100 ≤ 99 * n / 100) by (apply Z.div_le_mono; lia). lia.
  - apply Qmax_upper, Hmember. by eapply list_elem_of_lookup_2.
Qed.

(** X10. The breakdown has one entry for each operation that occurs among
    the metrics and none for the others; the entry's count is the number of
    metrics of that operation. *)
Theorem breakdown_counts_each_operation (metrics : list PerformanceMetrics)
  (tag : string) :
  PerformanceMonitor._get_operation_breakdown metrics !! tag =
    match List.filter (λ m, bool_decide (operation m = tag)) metrics with
    | [] => None
    | group => Some (PerformanceMonitor.operation_stats group)
    end ∧
  match PerformanceMonitor._get_operation_breakdown metrics !! tag with
  | Some stats =>
      PerformanceMonitor.count stats
        = PerformanceMonitor.count_if (λ m, bool_decide (operation m = tag)) metrics
      ∧ PerformanceMonitor.count stats ≠ 0%nat
  | None => ∀ m, m ∈ metrics → operation m ≠ tag
  end.
Proof.
  set (same := λ m : PerformanceMetrics, bool_decide (operation m = tag)).
  assert (∀ (g : gmap string (list PerformanceMetrics)),
            fold_left
              (λ g m, <[operation m := default [] (g !! operation m) ++ [m]]> g)
              metrics g !! tag
            = match List.filter same metrics with
              | [] => g !! tag
              | group => Some (default [] (g !! tag) ++ group)
              end) as Hgroups.
  { induction metrics as [|m metrics IH]; intros g; [done|].
    simpl. rewrite IH. unfold same at 2 4.
    destruct (bool_decide (operation m = tag)) eqn:Hm.
    - apply bool_decide_eq_true in Hm. rewrite Hm, lookup_insert_eq. simpl.
      destruct (List.filter same metrics); [done|]. by rewrite <- app_assoc.
    - apply bool_decide_eq_false in Hm. by rewrite lookup_insert_ne. }
  assert (PerformanceMonitor._get_operation_breakdown metrics !! tag =
            match List.filter same metrics with
            | [] => None
            | group => Some (PerformanceMonitor.operation_stats group)
            end) as Hlookup.
  { unfold PerformanceMonitor._get_operation_breakdown.
    rewrite lookup_fmap, Hgroups, lookup_empty.
    by destruct (List.filter same metrics). }
  split; [exact Hlookup|]. rewrite Hlookup.
  destruct (List.filter same metrics) as [|m group] eqn:Hfilter.
  - intros m Hm Htag.
    assert (In m (List.filter same metrics)) as Hin.
    { apply filter_In. split; [by apply list_elem_of_In|].
      by apply bool_decide_eq_true. }
    by rewrite Hfilter in Hin.
  - unfold PerformanceMonitor.count_if. rewrite Hfilter. by simpl.
Qed.

(** Three requests recorded at time 0. *)
Definition three_metrics : list PerformanceMetrics :=
  [CursorAIOptimizer.request_metric 3 false 0 true None;
   CursorAIOptimizer.request_metric 1 true 0 true None;
   CursorAIOptimizer.request_metric 2 false 0 false (Some "failed")].

Lemma percentiles_are_ordered_witness :
  ∃ s,
    PerformanceMonitor.get_performance_summary 10 3600 (recorded three_metrics)
      = Returns (Some s) ∧
    (PerformanceMonitor.p95_response_time s
     <= PerformanceMonitor.p99_response_time s)%Q.
Proof.
  destruct (PerformanceMonitor.get_performance_summary 10 3600
              (recorded three_metrics)) as [[s|]|e] eqn:Hsummary.
  - exists s. split; [reflexivity|].
    destruct (percentiles_are_ordered three_metrics 10 3600 s Hsummary)
      as (_ & Hle & _).
    exact Hle.
  - vm_compute in Hsummary. discriminate Hsummary.
  - vm_compute in Hsummary. discriminate Hsummary.
Defined.

(** ** More on the prompt optimizer *)

Lemma lower_char_not_I (a : ascii) : PyStr.lower_char a ≠ "I"%char.
Proof. destruct a as [[] [] [] [] [] [] [] []]; vm_compute; discriminate. Qed.

(** A phrase that begins with a capital I is not found in a lowered
    text. *)
Lemma capital_I_not_in_lowered (rest text : string) :
  PyStr.contains (String "I" rest) (PyStr.lower text) = false.
Proof.
  induction text as [|a text IH]; [done|].
  simpl. rewrite IH.
  destruct (decide ("I"%char = PyStr.lower_char a)) as [Heq|]; [|done].
  symmetry in Heq. by apply lower_char_not_I in Heq.
Qed.

(** X11. Two phrases of the redundant list, "I need you to" and
    "I would like", are never removed: they are looked for in the lowered
    prompt, where no capital I occurs. The loop over the list does what it
    would do without them. *)
Theorem capital_I_phrases_are_never_removed (p : PromptOptimizer.progress) :
  PromptOptimizer.remove_redundant p "I need you to" = p ∧
  PromptOptimizer.remove_redundant p "I would like" = p ∧
  fold_left PromptOptimizer.remove_redundant PromptOptimizer.redundant_phrases p
  = fold_left PromptOptimizer.remove_redundant
      ["please"; "could you"; "would you mind"; "if possible"; "can you help me"] p.
Proof.
  assert (∀ q rest, PromptOptimizer.remove_redundant q (String "I" rest) = q)
    as Hskip.
  { intros [text tags] rest. unfold PromptOptimizer.remove_redundant.
    by rewrite capital_I_not_in_lowered. }
  split_and!; [apply Hskip..|].
  unfold PromptOptimizer.redundant_phrases. cbn [fold_left].
  by rewrite !Hskip.
Qed.

(** *** The shape of the optimized prompt *)

#[local] Arguments String.append : simpl nomatch.

Fixpoint spaceless (s : string) : bool :=
  match s with
  | EmptyString => true
  | String a s' => negb (PyStr.isspace a) && spaceless s'
  end.

(** A word: not empty, and free of whitespace. *)
Definition word (w : string) : Prop := w ≠ EmptyString ∧ spaceless w = true.

Lemma string_app_assoc (a b c : string) : (a +:+ b) +:+ c = a +:+ (b +:+ c).
Proof. induction a as [|x a IH]; simpl; [done|]. by rewrite IH. Qed.

Lemma string_app_empty (a : string) : a +:+ EmptyString = a.
Proof. induction a as [|x a IH]; simpl; [done|]. by rewrite IH. Qed.

Lemma string_app_length (a b : string) :
  String.length (a +:+ b) = (String.length a + String.length b)%nat.
Proof. induction a as [|x a IH]; simpl; [done|]. by rewrite IH. Qed.

Lemma spaceless_snoc (w : string) (a : ascii) :
  spaceless w = true → PyStr.isspace a = false →
  spaceless (w +:+ String a EmptyString) = true.
Proof.
  induction w as [|x w IH]; simpl; intros Hw Ha.
  - by rewrite Ha.
  - apply andb_true_iff in Hw as [-> Hw]. simpl. by apply IH.
Qed.

Lemma split_from_words (acc s : string) :
  spaceless acc = true → Forall word (PyStr.split_from acc s).
Proof.
  revert acc. induction s as [|a s IH]; intros acc Hacc; simpl.
  - destruct acc; [constructor|]. by repeat constructor.
  - destruct (PyStr.isspace a) eqn:Ha.
    + destruct acc; [by apply IH|]. constructor; [done|by apply IH].
    + apply IH. by apply spaceless_snoc.
Qed.

Lemma split_from_word (acc w s : string) :
  spaceless w = true →
  PyStr.split_from acc (w +:+ s) = PyStr.split_from (acc +:+ w) s.
Proof.
  revert acc. induction w as [|a w IH]; intros acc Hw; simpl.
  - by rewrite string_app_empty.
  - simpl in Hw. apply andb_true_iff in Hw as [Ha Hw].
    apply negb_true_iff in Ha. rewrite Ha, IH by done.
    by rewrite string_app_assoc.
Qed.

Lemma split_join (ws : list string) :
  Forall word ws → PyStr.split (PyStr.join " " ws) = ws.
Proof.
  unfold PyStr.split. induction 1 as [|w ws [Hne Hw] Hws IH]; [done|].
  destruct w as [|a w]; [done|].
  destruct ws as [|w' ws].
  - change (PyStr.join " " [String a w]) with (String a w).
    rewrite <- (string_app_empty (String a w)) at 1.
    by rewrite split_from_word.
  - change (PyStr.join " " (String a w :: w' :: ws))
      with (String a w +:+ " " +:+ PyStr.join " " (w' :: ws)).
    rewrite split_from_word by done.
    change (PyStr.split_from (EmptyString +:+ String a w)
              (" " +:+ PyStr.join " " (w' :: ws)))
      with (String a w :: PyStr.split_from EmptyString (PyStr.join " " (w' :: ws))).
    by rewrite IH.
Qed.

(** X12. The optimized prompt is made of words, non-empty and free of
    whitespace, separated by single spaces: it has no leading, trailing or
    repeated whitespace, and cleaning it again changes nothing. *)
Theorem optimized_prompt_is_clean (prompt domain : string) :
  let optimized := fst (PromptOptimizer.rewrite prompt domain) in
  Forall word (PyStr.split optimized) ∧
  optimized = PyStr.join " " (PyStr.split optimized).
Proof.
  unfold PromptOptimizer.rewrite.
  destruct (PromptOptimizer.apply_domain domain _) as [text tags]. simpl.
  assert (Forall word (PyStr.split text)) as Hwords
    by (by apply split_from_words).
  by rewrite split_join.
Qed.

(** *** The length of the optimized prompt *)

Lemma startswith_length (old s : string) :
  PyStr.startswith old s = true → (String.length old ≤ String.length s)%nat.
Proof.
  revert s. induction old as [|a old IH]; intros [|b s]; simpl; try done; [lia|].
  destruct (decide (a = b)); [|done]. intros H%IH. lia.
Qed.

Lemma replace_from_length (old new : string) (skip : nat) (s : string) :
  old ≠ EmptyString → (String.length new ≤ String.length old)%nat →
  (skip ≤ String.length s)%nat →
  (String.length (PyStr.replace_from old new skip s) + skip ≤ String.length s)%nat.
Proof.
  intros Hold Hnew. revert skip.
  induction s as [|a s IH]; intros skip Hskip; simpl in *; [lia|].
  destruct skip as [|k].
  - destruct (PyStr.startswith old (String a s)) eqn:Hstart.
    + apply startswith_length in Hstart. simpl in Hstart.
      assert (String.length old ≠ 0%nat) by (by destruct old).
      rewrite string_app_length.
      specialize (IH (String.length old - 1)%nat ltac:(lia)). lia.
    + simpl. specialize (IH 0%nat ltac:(lia)). lia.
  - specialize (IH k ltac:(lia)). lia.
Qed.

Lemma replace_length (old new s : string) :
  old ≠ EmptyString → (String.length new ≤ String.length old)%nat →
  (String.length (PyStr.replace old new s) ≤ String.length s)%nat.
Proof.
  intros Hold Hnew. destruct old as [|a old]; [done|].
  unfold PyStr.replace.
  pose proof (replace_from_length (String a old) new 0 s Hold Hnew ltac:(lia)).
  lia.
Qed.

Lemma join_cons_length (w : string) (ws : list string) :
  (String.length (PyStr.join " " (w :: ws))
   ≤ String.length w + 1 + String.length (PyStr.join " " ws))%nat.
Proof.
  destruct ws as [|w' ws]; [simpl; lia|].
  change (PyStr.join " " (w :: w' :: ws))
    with (w +:+ " " +:+ PyStr.join " " (w' :: ws)).
  rewrite !string_app_length. simpl. lia.
Qed.

Lemma split_from_length (acc s : string) :
  (String.length (PyStr.join " " (PyStr.split_from acc s))
   ≤ String.length acc + String.length s)%nat.
Proof.
  revert acc. induction s as [|a s IH]; intros acc.
  - simpl. destruct acc; simpl; lia.
  - simpl. destruct (PyStr.isspace a).
    + destruct acc as [|b acc].
      * specialize (IH EmptyString). simpl in *. lia.
      * pose proof (join_cons_length (String b acc)
                      (PyStr.split_from EmptyString s)).
        specialize (IH EmptyString). simpl in *. lia.
    + specialize (IH (acc +:+ String a EmptyString)).
      rewrite string_app_length in IH. simpl in IH. lia.
Qed.

Lemma fold_left_shorter {X} (f : PromptOptimizer.progress → X → PromptOptimizer.progress)
  (l : list X) (p : PromptOptimizer.progress) :
  Forall (λ x, ∀ q, (PyStr.len (fst (f q x)) ≤ PyStr.len (fst q))%nat) l →
  (PyStr.len (fst (fold_left f l p)) ≤ PyStr.len (fst p))%nat.
Proof.
  intros Hl. revert p. induction Hl as [|x l Hx Hl IH]; intros p; [done|].
  simpl. etrans; [apply IH|apply Hx].
Qed.

(** X13. For a domain other than the four known ones nothing is appended,
    and the optimized prompt is never longer than the prompt: every rule
    replaces a phrase by a shorter text or by nothing, and the clean-up only
    drops whitespace. *)
Theorem unknown_domain_never_lengthens (prompt domain : string) :
  domain ≠ "devops" → domain ≠ "sre" → domain ≠ "cloud" → domain ≠ "platform" →
  (∀ p, PromptOptimizer.apply_domain domain p = p) ∧
  (PyStr.len (fst (PromptOptimizer.rewrite prompt domain)) ≤ PyStr.len prompt)%nat.
Proof.
  intros Hdevops Hsre Hcloud Hplatform.
  assert (∀ p, PromptOptimizer.apply_domain domain p = p) as Hdomain.
  { intros [text tags]. unfold PromptOptimizer.apply_domain.
    by rewrite !decide_False. }
  split; [exact Hdomain|].
  unfold PromptOptimizer.rewrite. rewrite Hdomain.
  match goal with
  | |- context [let '(optimized, applied) := ?p in _] =>
      assert ((PyStr.len (fst p) ≤ PyStr.len prompt)%nat) as Hrules;
      [|destruct p as [text tags]]
  end.
  - etrans; [apply fold_left_shorter|]; [|etrans; [apply fold_left_shorter|]];
      [| |apply fold_left_shorter].
    + unfold PromptOptimizer.verbose_patterns.
      repeat apply Forall_cons_2; try apply Forall_nil_2; intros [text tags];
        unfold PromptOptimizer.simplify_verbose;
        (destruct (PyStr.contains _ _); [|done]);
        (apply replace_length; [discriminate|simpl; lia]).
    + unfold PromptOptimizer.filler_words.
      repeat apply Forall_cons_2; try apply Forall_nil_2; intros [text tags];
        unfold PromptOptimizer.remove_filler;
        (destruct (PyStr.contains _ _); [|done]);
        (apply replace_length; [discriminate|simpl; lia]).
    + unfold PromptOptimizer.redundant_phrases.
      repeat apply Forall_cons_2; try apply Forall_nil_2; intros [text tags];
        unfold PromptOptimizer.remove_redundant;
        (destruct (PyStr.contains _ _); [|done]);
        (apply replace_length; [discriminate|simpl; lia]).
  - simpl in *. unfold PyStr.len, PyStr.split in *.
    pose proof (split_from_length EmptyString text). simpl in *. lia.
Qed.

Lemma unknown_domain_never_lengthens_witness :
  ("security" ≠ "devops" ∧ "security" ≠ "sre" ∧ "security" ≠ "cloud"
   ∧ "security" ≠ "platform") ∧
  (PyStr.len (fst (PromptOptimizer.rewrite "please  audit  it" "security"))
   ≤ PyStr.len "please  audit  it")%nat.
Proof.
  split; [by split_and!|].
  by apply (unknown_domain_never_lengthens "please  audit  it" "security").
Defined.

(** *** The instructions appended for a domain *)

Lemma lower_app (a b : string) :
  PyStr.lower (a +:+ b) = PyStr.lower a +:+ PyStr.lower b.
Proof. induction a as [|x a IH]; simpl; [done|]. by rewrite IH. Qed.

Lemma contains_app_r (needle a b : string) :
  PyStr.contains needle b = true → PyStr.contains needle (a +:+ b) = true.
Proof.
  intros Hb. induction a as [|x a IH]; [done|].
  change (String x a +:+ b) with (String x (a +:+ b)).
  cbn [PyStr.contains]. rewrite IH. apply orb_true_r.
Qed.

Definition json_instruction : string :=
  "Provide response in structured JSON format with clear sections for analysis, recommendations, and implementation steps.".

Definition actionable_instruction : string :=
  "Focus on actionable, production-ready solutions with specific commands and configurations.".

(** X14. In the devops domain a prompt that mentions "analyze" and not
    "json" receives both instructions: the request for JSON, whose own text
    mentions "recommendations", then makes the test for "recommend" succeed
    on the extended prompt. *)
Theorem devops_analysis_gets_both_instructions (prompt : string) :
  PromptOptimizer.mentions "analyze" prompt = true →
  PromptOptimizer.mentions "json" prompt = false →
  PromptOptimizer._optimize_devops_prompt prompt
  = (prompt +:+ PyStr.nl +:+ PyStr.nl +:+ json_instruction)
    +:+ PyStr.nl +:+ PyStr.nl +:+ actionable_instruction.
Proof.
  intros Hanalyze Hjson.
  unfold PromptOptimizer._optimize_devops_prompt.
  rewrite Hanalyze, Hjson. cbn [negb andb PromptOptimizer.append_if].
  fold json_instruction.
  assert (PromptOptimizer.mentions "recommend"
            (prompt +:+ PyStr.nl +:+ PyStr.nl +:+ json_instruction) = true)
    as Hrecommend.
  { unfold PromptOptimizer.mentions. rewrite lower_app.
    apply contains_app_r. vm_compute. reflexivity. }
  rewrite Hrecommend. reflexivity.
Qed.

(** *** Memoization *)

Ltac read_fields :=
  cbn [fst snd obj ticks view update app Nat.add
       PromptOptimizer.optimization_cache PromptOptimizer.performance_history
       PromptOptimizer.optimization_cache_field PromptOptimizer.init
       PromptOptimizer.record_history PromptOptimizer.optimized_prompt
       PromptOptimizer.metrics
       LRUCache.init LRUCache.cache LRUCache.timestamps LRUCache.access_order
       LRUCache.ttl LRUCache.maxsize LRUCache.stats LRUCache.set_cache
       LRUCache.set_timestamps LRUCache.set_access_order LRUCache.set_stats
       LRUCache.incr_hits LRUCache.incr_misses LRUCache.hits LRUCache.misses
       LRUCache.remove_first].

(** X15. On a new optimizer, a second call with the same non-empty prompt
    and the same domain, made less than 7200 s after the first stored its
    result, is served from the cache: it returns the text and the metrics
    of the first call, the metrics' optimization time included, and adds no
    entry to the history. *)
Theorem second_call_is_served_from_cache (clock : nat → Q)
  (md5_hexdigest : string → outcome string) (prompt domain cache_key : string) :
  prompt ≠ EmptyString →
  md5_hexdigest (prompt +:+ ":" +:+ domain) = Returns cache_key →
  (clock 5%nat - clock 3%nat < inject_Z 7200)%Q →
  let w0 := {| ticks := 0; obj := PromptOptimizer.init |} in
  let first := PromptOptimizer.optimize_prompt clock md5_hexdigest prompt domain w0 in
  let second :=
    PromptOptimizer.optimize_prompt clock md5_hexdigest prompt domain (snd first) in
  ∃ text metrics,
    fst first = Returns (text, metrics) ∧
    fst second = Returns (text, metrics) ∧
    length (PromptOptimizer.performance_history (obj (snd first))) = 1%nat ∧
    PromptOptimizer.performance_history (obj (snd second))
      = PromptOptimizer.performance_history (obj (snd first)) ∧
    LRUCache.cache (PromptOptimizer.optimization_cache (obj (snd second)))
      = LRUCache.cache (PromptOptimizer.optimization_cache (obj (snd first))) ∧
    LRUCache.hits (LRUCache.stats
      (PromptOptimizer.optimization_cache (obj (snd second)))) = 1 ∧
    LRUCache.misses (LRUCache.stats
      (PromptOptimizer.optimization_cache (obj (snd second)))) = 1.
Proof.
  intros Hprompt Hkey Hfresh w0 first second.
  pose proof (optimize_prompt_miss clock md5_hexdigest prompt domain cache_key
                w0 Hkey) as Hfirst.
  cbn zeta in Hfirst. fold first in Hfirst.
  assert (Z.of_nat (size (LRUCache.cache
            (PromptOptimizer.optimization_cache (obj w0))))
          < LRUCache.maxsize (PromptOptimizer.optimization_cache (obj w0)))
    as Hroom.
  { change (Z.of_nat (size (∅ : gmap string PromptOptimizer.CachedResult)) < 500).
    rewrite map_size_empty. lia. }
  specialize (Hfirst (lookup_empty _) Hroom Hprompt). clear Hroom.
  cbn [ticks w0 Nat.add] in Hfirst.
  clearbody first.
  set (m1 := fresh_metrics prompt domain _) in Hfirst.
  set (text := fst (PromptOptimizer.rewrite prompt domain)) in Hfirst.
  set (stored := {| PromptOptimizer.optimized_prompt := text;
                    PromptOptimizer.metrics := m1 |}) in Hfirst.
  assert (second =
            (Returns (text, m1),
             {| ticks := S (ticks first.2);
                obj := update PromptOptimizer.optimization_cache_field
                         (LRUCache.set_stats LRUCache.incr_hits
                            (LRUCache.set_access_order (λ _, [] ++ [cache_key])
                               (PromptOptimizer.optimization_cache (obj first.2))))
                         (obj first.2) |})) as Hsecond.
  { unfold second.
    apply (optimize_prompt_hit clock md5_hexdigest prompt domain cache_key
             first.2 stored (clock 3%nat) []);
      [done|rewrite Hfirst; unfold store, w0; read_fields..].
    - apply lookup_insert_eq.
    - apply lookup_insert_eq.
    - exact Hfresh.
    - by rewrite decide_True. }
  clearbody second. subst first second.
  exists text, m1. unfold store, w0. read_fields.
  split_and!; reflexivity.
Qed.

Lemma devops_analysis_gets_both_instructions_witness :
  (PromptOptimizer.mentions "analyze" "Analyze my build" = true ∧
   PromptOptimizer.mentions "json" "Analyze my build" = false) ∧
  PromptOptimizer._optimize_devops_prompt "Analyze my build"
  = ("Analyze my build" +:+ PyStr.nl +:+ PyStr.nl +:+ json_instruction)
    +:+ PyStr.nl +:+ PyStr.nl +:+ actionable_instruction.
Proof.
  split; [split; vm_compute; reflexivity|].
  apply (devops_analysis_gets_both_instructions "Analyze my build");
    vm_compute; reflexivity.
Defined.

Lemma second_call_is_served_from_cache_witness :
  let md5 := λ text : string, Returns text in
  let w0 := {| ticks := 0; obj := PromptOptimizer.init |} in
  let first :=
    PromptOptimizer.optimize_prompt example_clock md5 "scale the cluster" "sre" w0 in
  let second :=
    PromptOptimizer.optimize_prompt example_clock md5 "scale the cluster" "sre"
      (snd first) in
  ("scale the cluster" ≠ EmptyString ∧
   (example_clock 5%nat - example_clock 3%nat < inject_Z 7200)%Q) ∧
  ∃ text metrics,
    fst first = Returns (text, metrics) ∧ fst second = Returns (text, metrics).
Proof.
  intros md5 w0 first second.
  split; [split; [discriminate|reflexivity]|].
  destruct (second_call_is_served_from_cache example_clock md5
              "scale the cluster" "sre" ("scale the cluster" +:+ ":" +:+ "sre")
              ltac:(discriminate) eq_refl ltac:(reflexivity))
    as (text & metrics & Hfirst & Hsecond & _).
  exists text, metrics. exact (conj Hfirst Hsecond).
Defined.

(** ** The context compressor *)

Section CompressorProperties.
Variable clock : nat → Q.
Variable md5_hexdigest : string → outcome string.
Variable list_of_set : list string → list string.
Variable str_float : float → string.

Import ContextCompressor.

Abbreviation compress :=
  (compress_context clock md5_hexdigest list_of_set str_float).

Definition header : string := "Key Information:".

Lemma startswith_app (x y : string) : PyStr.startswith x (x +:+ y) = true.
Proof.
  induction x as [|a x IH]; [done|].
  change (String a x +:+ y) with (String a (x +:+ y)).
  cbn [PyStr.startswith]. by rewrite decide_True.
Qed.

Lemma join_header (parts : list string) :
  ∃ rest, PyStr.join PyStr.nl (header :: parts) = header +:+ rest ∧
          (rest = EmptyString ∨ ∃ r, rest = PyStr.nl +:+ r).
Proof.
  destruct parts as [|p parts].
  - exists EmptyString. split; [done|by left].
  - exists (PyStr.nl +:+ PyStr.join PyStr.nl (p :: parts)).
    split; [done|right; by eexists].
Qed.

Lemma assemble_header structured_info key_phrases :
  ∃ rest, assemble structured_info key_phrases = header +:+ rest ∧
          (rest = EmptyString ∨ ∃ r, rest = PyStr.nl +:+ r).
Proof. unfold assemble. apply join_header. Qed.

Lemma aggressive_header rest target :
  rest = EmptyString ∨ (∃ r, rest = PyStr.nl +:+ r) →
  PyStr.startswith header (_aggressive_compress (header +:+ rest) target) = true.
Proof.
  intros Hrest. unfold _aggressive_compress.
  assert (∃ pieces, PyStr.split_on (ascii_of_nat 10) (header +:+ rest)
                    = header :: pieces) as [pieces ->].
  { destruct Hrest as [->|[r ->]].
    - exists []. vm_compute. reflexivity.
    - eexists. unfold PyStr.split_on, header, PyStr.nl. cbn. reflexivity. }
  cbn [map].
  match goal with
  | |- context [List.filter ?keep (?first :: ?others)] =>
      assert (first = header) as -> by (vm_compute; reflexivity);
      assert (keep header = true) as Hkeep by (vm_compute; reflexivity);
      cbn [List.filter]; rewrite Hkeep
  end.
  destruct (join_header (List.filter
    (λ line, (10 <? PyStr.len (PyStr.strip line))%nat)
    (map (λ line,
            PyStr.replace "at this point in time" "now"
              (PyStr.replace "due to the fact that" "because"
                 (PyStr.replace "in order to" "to" line))) pieces)))
    as (rest' & -> & _).
  apply startswith_app.
Qed.

Lemma reduction_of_empty {St} length (s : St) :
  reduction length 0 s = (Raises (ZeroDivisionError "division by zero"), s).
Proof. reflexivity. Qed.

Lemma reduction_of_nonempty {St} length original_length (s : St) :
  original_length ≠ 0%nat →
  reduction length original_length s =
    (Returns (PrimFloat.sub 1%float
                (PyFloat.quotient (Z.of_nat length) (Z.of_nat original_length))),
     s).
Proof.
  intros Hlen. unfold reduction, PyFloat.true_div, bind.
  destruct (Z.of_nat original_length =? 0) eqn:Hz; [lia|done].
Qed.

(** X16. On an empty context that is not in the cache, [compress_context]
    raises [ZeroDivisionError] at the reduction it has reached, and stores
    nothing. *)
Theorem empty_context_raises target cache_key (w : Timed t) :
  md5_hexdigest (EmptyString +:+ ":" +:+ str_float target) = Returns cache_key →
  LRUCache.cache (compression_cache (obj w)) !! cache_key = None →
  fst (compress EmptyString target w)
    = Raises (ZeroDivisionError "division by zero") ∧
  LRUCache.cache (compression_cache (obj (snd (compress EmptyString target w))))
    = LRUCache.cache (compression_cache (obj w)).
Proof.
  intros Hkey Hmiss.
  unfold compress_context, hexdigest, bind. cbv beta.
  rewrite Hkey, cache_get_run. cbn [fst snd].
  rewrite get_absent by done. cbn [fst snd].
  unfold time_time. cbn [ticks obj fst snd PyStr.len String.length].
  by rewrite reduction_of_empty.
Qed.

(** X17. A context that is not empty and not in the cache is compressed to
    a text that begins with "Key Information:", whether or not the second
    pass runs; the text has at least 16 characters, so a shorter context
    comes back longer. The text and its metrics are returned and stored
    under the key. *)
Theorem compressed_text_begins_with_header context target cache_key
  (w : Timed t) :
  context ≠ EmptyString →
  md5_hexdigest (context +:+ ":" +:+ str_float target) = Returns cache_key →
  LRUCache.cache (compression_cache (obj w)) !! cache_key = None →
  Z.of_nat (size (LRUCache.cache (compression_cache (obj w))))
    < LRUCache.maxsize (compression_cache (obj w)) →
  ∃ text metrics,
    fst (compress context target w) = Returns (text, metrics) ∧
    PyStr.startswith header text = true ∧
    (16 ≤ PyStr.len text)%nat ∧
    compressed_length metrics = PyStr.len text ∧
    original_length metrics = PyStr.len context ∧
    LRUCache.cache (compression_cache (obj (snd (compress context target w))))
      !! cache_key = Some {| compressed := text; metrics := metrics |}.
Proof.
  intros Hcontext Hkey Hmiss Hroom.
  assert (PyStr.len context ≠ 0%nat) as Hlen by (by destruct context).
  unfold compress_context, hexdigest, bind. cbv beta.
  rewrite Hkey, cache_get_run. cbn [fst snd].
  rewrite get_absent by done. cbn [fst snd].
  unfold time_time. cbn [ticks obj fst snd].
  rewrite reduction_of_nonempty by done.
  set (assembled := assemble (_extract_structured_info list_of_set context)
                      (_extract_key_phrases context)).
  assert (∀ test : bool,
            PyStr.startswith header
              (if test then _aggressive_compress assembled target else assembled)
            = true) as Hheader.
  { intros test. unfold assembled.
    destruct (assemble_header (_extract_structured_info list_of_set context)
                (_extract_key_phrases context)) as (rest & -> & Hrest).
    destruct test.
    - by apply aggressive_header.
    - apply startswith_app. }
  set (chosen := if PrimFloat.ltb _ target
                 then _aggressive_compress assembled target else assembled).
  specialize (Hheader (PrimFloat.ltb
    (PrimFloat.sub 1%float
       (PyFloat.quotient (Z.of_nat (PyStr.len assembled))
          (Z.of_nat (PyStr.len context)))) target)).
  fold chosen in Hheader.
  clearbody chosen.
  rewrite reduction_of_nonempty by done.
  rewrite cache_put_run. cbn [fst snd ticks obj view update compression_cache_field
    compression_cache].
  rewrite put_room by done. cbn [fst snd].
  eexists _, _. split; [reflexivity|].
  split_and!; [done| |done|done|].
  - apply startswith_length in Hheader. exact Hheader.
  - cbn. apply lookup_insert_eq.
Qed.

(** X18. [_extract_key_phrases] returns at most 15 phrases; each one is
    shorter than 200 characters and holds one of the indicator words. *)
Theorem key_phrases_are_few_and_short (text : string) :
  (length (_extract_key_phrases text) ≤ 15)%nat ∧
  Forall (λ phrase,
            (PyStr.len phrase < 200)%nat ∧
            any_in important_indicators phrase = true)
    (_extract_key_phrases text).
Proof.
  unfold _extract_key_phrases. split.
  - rewrite length_take. lia.
  - apply Forall_take, Forall_forall. intros phrase Hin.
    apply list_elem_of_In, filter_In in Hin as [_ Hkeep].
    apply andb_true_iff in Hkeep as [Hword Hshort].
    split; [by apply Nat.ltb_lt|done].
Qed.

End CompressorProperties.

Lemma empty_context_raises_witness :
  let md5 := λ text : string, Returns text in
  let w := {| ticks := 0; obj := ContextCompressor.init |} in
  let run :=
    ContextCompressor.compress_context example_clock md5 remove_dups
      example_str_float EmptyString 0x1.3333333333333p-2%float w in
  (md5 (EmptyString +:+ ":" +:+ "0.3") = Returns ":0.3" ∧
   LRUCache.cache (ContextCompressor.compression_cache (obj w)) !! ":0.3" = None) ∧
  fst run = Raises (ZeroDivisionError "division by zero") ∧
  LRUCache.cache (ContextCompressor.compression_cache (obj (snd run)))
  = LRUCache.cache (ContextCompressor.compression_cache (obj w)).
Proof.
  intros md5 w run.
  split; [split; reflexivity|].
  apply (empty_context_raises example_clock md5 remove_dups example_str_float
           0x1.3333333333333p-2%float ":0.3" w); reflexivity.
Defined.

Lemma compressed_text_begins_with_header_witness :
  let md5 := λ text : string, Returns text in
  let w := {| ticks := 0; obj := ContextCompressor.init |} in
  let run :=
    ContextCompressor.compress_context example_clock md5 remove_dups
      example_str_float "ok" 0x1.3333333333333p-2%float w in
  ("ok" ≠ EmptyString ∧
   md5 ("ok" +:+ ":" +:+ "0.3") = Returns "ok:0.3" ∧
   LRUCache.cache (ContextCompressor.compression_cache (obj w)) !! "ok:0.3" = None ∧
   Z.of_nat (size (LRUCache.cache (ContextCompressor.compression_cache (obj w))))
   < LRUCache.maxsize (ContextCompressor.compression_cache (obj w))) ∧
  ∃ text metrics,
    fst run = Returns (text, metrics) ∧
    PyStr.startswith header text = true ∧
    (16 ≤ PyStr.len text)%nat ∧
    ContextCompressor.compressed_length metrics = PyStr.len text ∧
    ContextCompressor.original_length metrics = PyStr.len "ok" ∧
    LRUCache.cache (ContextCompressor.compression_cache (obj (snd run)))
      !! "ok:0.3"
    = Some {| ContextCompressor.compressed := text;
              ContextCompressor.metrics := metrics |}.
Proof.
  intros md5 w run.
  split; [split_and!; [discriminate|reflexivity|reflexivity|reflexivity]|].
  apply (compressed_text_begins_with_header example_clock md5 remove_dups
           example_str_float "ok" 0x1.3333333333333p-2%float "ok:0.3" w);
    [discriminate|reflexivity|reflexivity|reflexivity].
Defined.

(** ** The pipeline and its response cache *)

Section RequestProperties.
Context {Compressor CompressionMetrics : Type}.
Variable clock : nat → Q.
Variable md5_hexdigest : string → outcome string.
Variable compress_context :
  string → M (Timed Compressor) (string * CompressionMetrics).

Abbreviation optimizer := (CursorAIOptimizer.t (Compressor:=Compressor)).
Abbreviation request :=
  (CursorAIOptimizer.optimize_request clock md5_hexdigest compress_context).

Ltac run_request :=
  unfold CursorAIOptimizer.optimize_request, try_except,
    CursorAIOptimizer.optimize_request_body,
    CursorAIOptimizer.optimize_request_handler,
    CursorAIOptimizer.record_metric, hexdigest, bind, within, read,
    modify, ret, time_time;
  cbn [view update CursorAIOptimizer.self_field CursorAIOptimizer.self
       CursorAIOptimizer.var_context
       CursorAIOptimizer.var_optimization_results
       CursorAIOptimizer.update_results CursorAIOptimizer.assign_context
       untimed timed obj ticks fst snd
       CursorAIOptimizer.prompt_optimizer_field
       CursorAIOptimizer.context_compressor_field
       CursorAIOptimizer.performance_monitor_field
       CursorAIOptimizer.global_cache_field
       CursorAIOptimizer.prompt_optimizer CursorAIOptimizer.context_compressor
       CursorAIOptimizer.performance_monitor CursorAIOptimizer.global_cache].

Ltac close_case :=
  eexists _, _; split; [reflexivity|]; cbn;
  split_and!; try done; split; intros; congruence.

(** The history of the monitor of an optimizer. *)
Definition history (w : Timed optimizer) : list PerformanceMetrics :=
  PerformanceMonitor.metrics_history
    (CursorAIOptimizer.performance_monitor (obj w)).

(** X19. Every call of [optimize_request] returns a result and appends
    exactly one metric to the monitor's history, whatever the prompt
    optimizer, the compressor, the digest and the cache do. The metric is
    named "optimize_request", carries the cache-hit flag of the result, and
    is marked failed exactly when the result reports an error; the metric
    of a call that succeeded has the processing time of the result as its
    duration. *)
Theorem every_request_is_recorded prompt context domain streaming compression
  (w : Timed optimizer) :
  ∃ result metric,
    fst (request prompt context domain streaming compression w) = Returns result ∧
    history (snd (request prompt context domain streaming compression w))
      = deque_append 10000 metric (history w) ∧
    operation metric = "optimize_request" ∧
    cache_hit metric = CursorAIOptimizer.cache_hit result ∧
    (success metric = false ↔
     CursorAIOptimizer.OptimizationResults.error (CursorAIOptimizer.optimization_results result)
       ≠ None) ∧
    (success metric = true →
     duration metric = CursorAIOptimizer.processing_time result).
Proof.
  unfold history. run_request.
  destruct (PromptOptimizer.optimize_prompt _ _ _ _ _) as [[[op pm]|e] w1];
    cbn [fst snd]; run_request.
  2:{ close_case. }
  destruct (compression && (5000 <? Z.of_nat (PyStr.len context))); run_request.
  - destruct (compress_context context _) as [[[cc cm]|e] w2]; run_request.
    2:{ close_case. }
    destruct (md5_hexdigest _) as [key|e].
    2:{ close_case. }
    rewrite cache_get_run. run_request.
    destruct (LRUCache.get _ _ _) as [[cached|e] c']; cbn [fst snd].
    2:{ close_case. }
    destruct (CursorAIOptimizer.truthy cached); close_case.
  - destruct (md5_hexdigest _) as [key|e].
    2:{ close_case. }
    rewrite cache_get_run. run_request.
    destruct (LRUCache.get _ _ _) as [[cached|e] c']; cbn [fst snd].
    2:{ close_case. }
    destruct (CursorAIOptimizer.truthy cached); close_case.
Qed.

(** The state after [cache_response] has stored [answer] under [key]. *)
Lemma cache_response_stores key answer (w : Timed optimizer) :
  key ≠ EmptyString →
  LRUCache.cache (CursorAIOptimizer.global_cache (obj w)) !! key = None →
  Z.of_nat (size (LRUCache.cache (CursorAIOptimizer.global_cache (obj w))))
    < LRUCache.maxsize (CursorAIOptimizer.global_cache (obj w)) →
  CursorAIOptimizer.cache_response clock key answer w =
    (Returns tt,
     {| ticks := S (ticks w);
        obj := update CursorAIOptimizer.global_cache_field
                 (store (clock (ticks w)) key answer
                    (CursorAIOptimizer.global_cache (obj w)))
                 (obj w) |}).
Proof.
  intros Hkey Hnew Hroom. unfold CursorAIOptimizer.cache_response.
  destruct key as [|a key]; [done|].
  rewrite cache_put_run. cbn [view CursorAIOptimizer.global_cache_field].
  by rewrite put_room.
Qed.

(** The lookup of a key that has just been stored. *)
Lemma stored_response_is_found key answer stamp now (c : LRUCache.t string) :
  (now - stamp < inject_Z (LRUCache.ttl c))%Q →
  ∃ l', LRUCache.get now key (store stamp key answer c) =
          (Returns (Some answer),
           LRUCache.set_stats LRUCache.incr_hits
             (LRUCache.set_access_order (λ _, l' ++ [key])
                (store stamp key answer c))).
Proof.
  intros Hfresh.
  destruct (remove_first_present key (LRUCache.access_order c ++ [key]))
    as [l' Hrm].
  { apply elem_of_app. right. by left. }
  exists l'. apply (get_fresh _ _ _ answer stamp l');
    [apply lookup_insert_eq|apply lookup_insert_eq|exact Hfresh|exact Hrm].
Qed.

(** The request that follows [cache_response key answer]: its prompt is
    optimized to [optimized_prompt], its context is not compressed, its
    key is [key], and the entry has not expired when it is looked up. *)
Definition follows (prompt context domain : string) (compression : bool)
  (key optimized_prompt : string) (w : Timed optimizer) : Prop :=
  let optimized :=
    PromptOptimizer.optimize_prompt clock md5_hexdigest prompt domain
      {| ticks := S (S (ticks w));
         obj := CursorAIOptimizer.prompt_optimizer (obj w) |} in
  returned_text (fst optimized) = Some optimized_prompt ∧
  (compression = false ∨ Z.of_nat (PyStr.len context) ≤ 5000) ∧
  md5_hexdigest (optimized_prompt +:+ ":" +:+ context +:+ ":" +:+ domain)
    = Returns key ∧
  (clock (ticks (snd optimized)) - clock (ticks w)
   < inject_Z (LRUCache.ttl (CursorAIOptimizer.global_cache (obj w))))%Q.

Ltac run_lookup Hkey Hnew Hroom Hnext :=
  destruct Hnext as (Hprompt & Hskip & Hdigest & Hfresh);
  rewrite (cache_response_stores _ _ _ Hkey Hnew Hroom); cbn [snd];
  run_request;
  destruct (PromptOptimizer.optimize_prompt _ _ _ _ _) as [[[op pm]|e] w1];
    [|done];
  injection Hprompt as ->; cbn [fst snd] in *; run_request;
  rewrite (skip_condition _ _ Hskip); run_request;
  rewrite Hdigest, cache_get_run; run_request;
  match goal with
  | |- context [LRUCache.get ?now ?k (store ?stamp ?k ?v ?c)] =>
      destruct (stored_response_is_found k v stamp now c Hfresh) as [l' ->]
  end;
  cbn [fst snd].

(** X20. A response stored with [cache_response] is served: when the key
    is not empty and the cache has room for it, the next request with that
    key, made before the entry expires, returns the stored response as a
    cache hit and prepares no request, provided the response is not the
    empty text. *)
Theorem cached_response_is_served prompt context domain streaming compression
  key answer optimized_prompt (w : Timed optimizer) :
  key ≠ EmptyString → answer ≠ EmptyString →
  LRUCache.cache (CursorAIOptimizer.global_cache (obj w)) !! key = None →
  Z.of_nat (size (LRUCache.cache (CursorAIOptimizer.global_cache (obj w))))
    < LRUCache.maxsize (CursorAIOptimizer.global_cache (obj w)) →
  follows prompt context domain compression key optimized_prompt w →
  ∃ result,
    fst (request prompt context domain streaming compression
           (snd (CursorAIOptimizer.cache_response clock key answer w)))
      = Returns result ∧
    CursorAIOptimizer.response result = Some answer ∧
    CursorAIOptimizer.cache_hit result = true ∧
    CursorAIOptimizer.optimized_request result = None.
Proof.
  intros Hkey Hanswer Hnew Hroom Hnext.
  run_lookup Hkey Hnew Hroom Hnext.
  destruct answer as [|a answer]; [done|].
  cbn [CursorAIOptimizer.truthy]. eexists. split; [reflexivity|]. done.
Qed.

(** X21. An empty response stored with [cache_response] is never served:
    the next request with that key finds the entry, and the cache counts a
    hit, but the request is answered as a miss, with the prepared request
    and no response. *)
Theorem empty_response_is_not_served prompt context domain streaming
  compression key optimized_prompt (w : Timed optimizer) :
  key ≠ EmptyString →
  LRUCache.cache (CursorAIOptimizer.global_cache (obj w)) !! key = None →
  Z.of_nat (size (LRUCache.cache (CursorAIOptimizer.global_cache (obj w))))
    < LRUCache.maxsize (CursorAIOptimizer.global_cache (obj w)) →
  follows prompt context domain compression key optimized_prompt w →
  let run :=
    request prompt context domain streaming compression
      (snd (CursorAIOptimizer.cache_response clock key EmptyString w)) in
  ∃ result,
    fst run = Returns result ∧
    CursorAIOptimizer.response result = None ∧
    CursorAIOptimizer.cache_hit result = false ∧
    CursorAIOptimizer.optimized_request result =
      Some {| CursorAIOptimizer.prompt := optimized_prompt;
              CursorAIOptimizer.context := context;
              CursorAIOptimizer.domain := domain;
              CursorAIOptimizer.cache_key := Some key |} ∧
    LRUCache.hits (LRUCache.stats (CursorAIOptimizer.global_cache (obj (snd run))))
    = LRUCache.hits (LRUCache.stats (CursorAIOptimizer.global_cache (obj w))) + 1.
Proof.
  intros Hkey Hnew Hroom Hnext run. unfold run.
  run_lookup Hkey Hnew Hroom Hnext.
  cbn [CursorAIOptimizer.truthy]. eexists. split; [reflexivity|]. done.
Qed.

End RequestProperties.

Lemma cached_response_is_served_witness :
  let md5 := λ text : string, Returns text in
  let key := "list the pods:no context:general" in
  let stored :=
    snd (CursorAIOptimizer.cache_response example_clock key "3 pods"
           new_optimizer) in
  (key ≠ EmptyString ∧ "3 pods" ≠ EmptyString ∧
   LRUCache.cache (CursorAIOptimizer.global_cache (obj new_optimizer)) !! key
     = None ∧
   Z.of_nat (size (LRUCache.cache
                     (CursorAIOptimizer.global_cache (obj new_optimizer))))
     < LRUCache.maxsize (CursorAIOptimizer.global_cache (obj new_optimizer)) ∧
   follows example_clock md5 "list the pods" "no context" "general" true key
     "list the pods" new_optimizer) ∧
  ∃ result,
    fst (CursorAIOptimizer.optimize_request example_clock md5 example_compressor
           "list the pods" "no context" "general" true true stored)
      = Returns result ∧
    CursorAIOptimizer.response result = Some "3 pods" ∧
    CursorAIOptimizer.cache_hit result = true ∧
    CursorAIOptimizer.optimized_request result = None.
Proof.
  intros md5 key stored.
  assert (follows example_clock md5 "list the pods" "no context" "general" true
            key "list the pods" new_optimizer) as Hnext.
  { unfold follows. split_and!; [vm_compute; reflexivity|right; simpl; lia|
      reflexivity|vm_compute; reflexivity]. }
  split; [split_and!; [discriminate|discriminate|reflexivity|reflexivity|
                       exact Hnext]|].
  apply (cached_response_is_served example_clock md5 example_compressor
           "list the pods" "no context" "general" true true key "3 pods"
           "list the pods" new_optimizer);
    [discriminate|discriminate|reflexivity|reflexivity|exact Hnext].
Defined.

Lemma empty_response_is_not_served_witness :
  let md5 := λ text : string, Returns text in
  let key := "list the pods:no context:general" in
  let run :=
    CursorAIOptimizer.optimize_request example_clock md5 example_compressor
      "list the pods" "no context" "general" true true
      (snd (CursorAIOptimizer.cache_response example_clock key EmptyString
              new_optimizer)) in
  (key ≠ EmptyString ∧
   LRUCache.cache (CursorAIOptimizer.global_cache (obj new_optimizer)) !! key
     = None ∧
   Z.of_nat (size (LRUCache.cache
                     (CursorAIOptimizer.global_cache (obj new_optimizer))))
     < LRUCache.maxsize (CursorAIOptimizer.global_cache (obj new_optimizer)) ∧
   follows example_clock md5 "list the pods" "no context" "general" true key
     "list the pods" new_optimizer) ∧
  ∃ result,
    fst run = Returns result ∧
    CursorAIOptimizer.response result = None ∧
    CursorAIOptimizer.cache_hit result = false ∧
    CursorAIOptimizer.optimized_request result =
      Some {| CursorAIOptimizer.prompt := "list the pods";
              CursorAIOptimizer.context := "no context";
              CursorAIOptimizer.domain := "general";
              CursorAIOptimizer.cache_key := Some key |} ∧
    LRUCache.hits
      (LRUCache.stats (CursorAIOptimizer.global_cache (obj (snd run))))
    = LRUCache.hits
        (LRUCache.stats (CursorAIOptimizer.global_cache (obj new_optimizer))) + 1.
Proof.
  intros md5 key run.
  assert (follows example_clock md5 "list the pods" "no context" "general" true
            key "list the pods" new_optimizer) as Hnext.
  { unfold follows. split_and!; [vm_compute; reflexivity|right; simpl; lia|
      reflexivity|vm_compute; reflexivity]. }
  split; [split_and!; [discriminate|reflexivity|reflexivity|exact Hnext]|].
  apply (empty_response_is_not_served example_clock md5 example_compressor
           "list the pods" "no context" "general" true true key
           "list the pods" new_optimizer);
    [discriminate|reflexivity|reflexivity|exact Hnext].
Defined.

(** ** The response streamer *)

Section StreamerProperties.

Import ResponseStreamer.

(** The text after its first [n] characters. *)
Fixpoint skip (n : nat) (s : string) : string :=
  match n, s with
  | S n', String _ s' => skip n' s'
  | _, _ => s
  end.

Lemma substring_skip (n i m : nat) (s : string) :
  substring (n + i) m s = substring i m (skip n s).
Proof.
  revert s. induction n as [|n IH]; intros s; [by destruct s|].
  destruct s as [|a s]; [|apply IH].
  simpl. by destruct i, m.
Qed.

Lemma substring_then_skip (m : nat) (s : string) :
  substring 0 m s +:+ skip m s = s.
Proof.
  revert s. induction m as [|m IH]; intros [|a s]; simpl; try done.
  all: by rewrite IH.
Qed.

Lemma skip_length (n : nat) (s : string) :
  String.length (skip n s) = (String.length s - n)%nat.
Proof.
  revert s. induction n as [|n IH]; intros [|a s]; simpl; try done.
  all: try apply IH. all: lia.
Qed.

Lemma substring_length (i m : nat) (s : string) :
  String.length (substring i m s) = (m `min` (String.length s - i))%nat.
Proof.
  revert i m. induction s as [|a s IH]; intros [|i] [|m]; simpl; try done.
  all: rewrite IH; simpl; lia.
Qed.

Lemma substring_nil (i m : nat) : substring i m EmptyString = EmptyString.
Proof. by destruct i, m. Qed.

Lemma substring_cons (i m : nat) (a : ascii) (s : string) :
  substring (S i) m (String a s) = substring i m s.
Proof. by destruct m. Qed.

(** A slice that runs past the end stops at the end. *)
Lemma substring_clip (i m : nat) (s : string) :
  substring i (m `min` (String.length s - i)) s = substring i m s.
Proof.
  revert i m. induction s as [|a s IH]; intros i m.
  - by rewrite !substring_nil.
  - destruct i as [|i].
    + destruct m as [|m]; [done|].
      change (String.length (String a s) - 0)%nat with (S (String.length s)).
      rewrite <- Nat.succ_min_distr.
      cbn [substring]. f_equal.
      specialize (IH 0%nat m). by rewrite Nat.sub_0_r in IH.
    + change (String.length (String a s) - S i)%nat
        with (String.length s - i)%nat.
      rewrite !substring_cons. apply IH.
Qed.

Lemma join_empty_cons (x : string) (l : list string) :
  PyStr.join EmptyString (x :: l) = x +:+ PyStr.join EmptyString l.
Proof. destruct l; simpl; [by rewrite string_app_empty|done]. Qed.

(** Consecutive pieces of [c] characters that cover the text rebuild it. *)
Lemma pieces_rebuild (c count : nat) (s : string) :
  (String.length s ≤ count * c)%nat →
  PyStr.join EmptyString
    (map (λ k, substring (k * c) c s) (seq 0 count)) = s.
Proof.
  revert s. induction count as [|count IH]; intros s Hlen.
  - destruct s; [done|simpl in Hlen; lia].
  - cbn [seq]. rewrite <- seq_shift. cbn [map]. rewrite map_map.
    rewrite join_empty_cons.
    etransitivity; [|apply (substring_then_skip c s)].
    change (0 * c)%nat with 0%nat. f_equal.
    etransitivity; [|apply (IH (skip c s)); rewrite skip_length; lia].
    f_equal. apply map_ext. intros k.
    rewrite <- substring_skip. f_equal; lia.
Qed.

(** The starts of the chunks, for a positive chunk size. *)
Lemma range_of_length (n : nat) (size : Z) :
  0 < size →
  range 0 (Z.of_nat n) size =
    Returns (map (λ k, 0 + Z.of_nat k * size)
               (seq 0 (Z.to_nat ((Z.of_nat n - 0 + size - 1) / size)))).
Proof.
  intros Hsize. unfold range.
  destruct (size =? 0) eqn:Hz; [lia|].
  destruct (0 <? size) eqn:Hpos; [done|lia].
Qed.

(** A chunk that starts inside the text. *)
Lemma chunk_inside (response : string) (size : Z) (k : nat) :
  0 < size → Z.of_nat k * size < Z.of_nat (PyStr.len response) →
  slice response (0 + Z.of_nat k * size) (0 + Z.of_nat k * size + size)
  = substring (k * Z.to_nat size) (Z.to_nat size) response.
Proof.
  intros Hsize Hin. unfold slice, PyStr.len in *.
  destruct (0 + Z.of_nat k * size <? 0) eqn:Hi; [lia|].
  destruct (0 + Z.of_nat k * size + size <? 0) eqn:Hj; [lia|].
  rewrite <- (substring_clip (k * Z.to_nat size)).
  f_equal; nia.
Qed.

(** X22. The chunks rebuild the response: for a positive chunk size, the
    chunks joined in order are the response, each chunk has between 1 and
    [chunk_size] characters, and there are [ceil(len(response) /
    chunk_size)] of them, so none for the empty response. *)
Theorem chunks_rebuild_the_response (self : t) (response : string) :
  0 < chunk_size self →
  ∃ parts,
    chunks self response = Returns parts ∧
    PyStr.join EmptyString parts = response ∧
    Forall (λ part, 1 ≤ Z.of_nat (PyStr.len part) ≤ chunk_size self) parts ∧
    Z.of_nat (length parts)
    = (Z.of_nat (PyStr.len response) + chunk_size self - 1) / chunk_size self.
Proof.
  intros Hsize. unfold chunks. rewrite range_of_length by done.
  set (size := chunk_size self) in *.
  set (n := PyStr.len response).
  set (count := Z.to_nat ((Z.of_nat n - 0 + size - 1) / size)).
  assert (0 ≤ (Z.of_nat n - 0 + size - 1) / size) as Hcount
    by (apply Z.div_pos; lia).
  assert (size * ((Z.of_nat n - 0 + size - 1) / size) ≤ Z.of_nat n - 0 + size - 1)
    as Hlow by (apply Z.mul_div_le; lia).
  assert (Z.of_nat n - 0 + size - 1 < size * ((Z.of_nat n - 0 + size - 1) / size) + size) as Hhigh.
  { pose proof (Z.mod_pos_bound (Z.of_nat n - 0 + size - 1) size Hsize).
    pose proof (Z.div_mod (Z.of_nat n - 0 + size - 1) size ltac:(lia)). lia. }
  assert (∀ k, (k < count)%nat → Z.of_nat k * size < Z.of_nat n) as Hinside.
  { intros k Hk. unfold count in Hk. nia. }
  eexists. split; [reflexivity|]. rewrite map_map.
  assert (map (λ k, slice response (0 + Z.of_nat k * size)
                      (0 + Z.of_nat k * size + size)) (seq 0 count)
          = map (λ k, substring (k * Z.to_nat size) (Z.to_nat size) response)
              (seq 0 count)) as ->.
  { apply map_ext_in. intros k Hk%in_seq. apply chunk_inside; [done|].
    apply Hinside. lia. }
  split_and!.
  - apply pieces_rebuild. fold (PyStr.len response). fold n. unfold count. nia.
  - apply Forall_forall. intros part Hpart.
    apply list_elem_of_In, in_map_iff in Hpart as (k & <- & Hk%in_seq).
    unfold PyStr.len. rewrite substring_length.
    fold (PyStr.len response). fold n.
    specialize (Hinside k ltac:(lia)). nia.
  - rewrite length_map, length_seq. unfold count.
    rewrite Z2Nat.id by done. f_equal. lia.
Qed.

(** The callback that appends the chunk it is given to a log, and a sleep
    that does nothing else. *)
Definition log_chunk (chunk : string) : M (list string) unit :=
  modify (λ log, log ++ [chunk]).
Definition sleep (seconds : float) : M (list string) unit := ret tt.

Lemma deliver_logs (self : t) (parts log : list string) :
  deliver sleep self parts log_chunk log = (Returns tt, log ++ parts).
Proof.
  revert log. induction parts as [|part parts IH]; intros log.
  - by rewrite app_nil_r.
  - cbn [deliver]. unfold bind, log_chunk, sleep, modify, ret.
    rewrite IH. by rewrite <- app_assoc.
Qed.

(** X23. Streaming delivers the whole response once, in order: with the
    streamer as constructed, a callback that logs its argument has
    received, when [stream_response] returns, chunks that joined together
    are the response; each has at most 100 characters. *)
Theorem streamed_chunks_rebuild_the_response (response : string) :
  ∃ parts,
    stream_response sleep init response log_chunk [] = (Returns tt, parts) ∧
    PyStr.join EmptyString parts = response ∧
    Forall (λ part, 1 ≤ Z.of_nat (PyStr.len part) ≤ 100) parts.
Proof.
  destruct (chunks_rebuild_the_response init response) as
    (parts & Hchunks & Hjoin & Hsizes & _); [done|].
  exists parts. unfold stream_response. rewrite Hchunks.
  by rewrite deliver_logs.
Qed.

End StreamerProperties.

Lemma chunks_rebuild_the_response_witness :
  0 < ResponseStreamer.chunk_size
        {| ResponseStreamer.chunk_size := 2; ResponseStreamer.delay := 0%float |} ∧
  ∃ parts,
    ResponseStreamer.chunks
      {| ResponseStreamer.chunk_size := 2; ResponseStreamer.delay := 0%float |}
      "hello" = Returns parts ∧
    PyStr.join EmptyString parts = "hello" ∧
    Forall (λ part, 1 ≤ Z.of_nat (PyStr.len part) ≤ 2) parts ∧
    Z.of_nat (length parts) = (Z.of_nat (PyStr.len "hello") + 2 - 1) / 2.
Proof.
  split; [reflexivity|].
  apply (chunks_rebuild_the_response
           {| ResponseStreamer.chunk_size := 2; ResponseStreamer.delay := 0%float |}
           "hello").
  reflexivity.
Defined.

(** ** The fallback of the pipeline *)

Section FallbackProperties.
Context {Compressor CompressionMetrics : Type}.
Variable clock : nat → Q.
Variable md5_hexdigest : string → outcome string.
Variable compress_context :
  string → M (Timed Compressor) (string * CompressionMetrics).






End FallbackProperties.

